(** * RBAC service (src/rbac.js): a shallow embedding and its properties

    The Express application of [src/rbac.js] is embedded as pure functions
    over an explicit world (the [User] collection and a log of the library
    calls made).  Middleware is written in continuation-passing style, as in
    Express: a middleware either answers or calls [next].

    A Rocq string stands for a JavaScript string through its UTF-8
    encoding.  Equality, concatenation and the cut at a space are the same
    on both sides.  What depends on Unicode tables or on UTF-16 code units
    (the setters [trim] and [lowercase], the length [minlength] counts, the
    test of a regular expression, the ISO form of a date) is a variable of
    the section, like the third-party libraries the file requires: bcrypt,
    jsonwebtoken, mongoose's casts and the texts of its error messages. *)

From Stdlib Require Import String Ascii List ZArith Bool Lia DecimalString.
Import ListNotations.
Open Scope string_scope.

(** ** JavaScript built-ins used by the source *)

Module JS.

(** The pieces of [s] between the characters that satisfy [is_sep]: cuts
    at every such character, keeps empty pieces, never returns the empty
    array. *)
Fixpoint pieces (is_sep : ascii -> bool) (s : string) : list string :=
  match s with
  | EmptyString => [EmptyString]
  | String c rest =>
      if is_sep c then EmptyString :: pieces is_sep rest
      else match pieces is_sep rest with
           | piece :: more => String c piece :: more
           | [] => [String c EmptyString]
           end
  end.

(** [s.split(sep)] for a one-character separator. *)
Definition split (sep : ascii) (s : string) : list string :=
  pieces (Ascii.eqb sep) s.

(** [arr.includes(x)] on an array of strings. *)
Definition includes (arr : list string) (x : string) : bool :=
  existsb (String.eqb x) arr.

(** [arr.join(sep)]. *)
Definition join (sep : string) (arr : list string) : string :=
  String.concat sep arr.

(** Truthiness of an optional string: [undefined] and [''] are falsy. *)
Definition truthy (v : option string) : bool :=
  match v with
  | None => false
  | Some s => negb (s =? "")
  end.

(** The white space of the Basic Latin block: space, tab, line feed,
    vertical tab, form feed, carriage return. *)
Definition is_space (c : ascii) : bool :=
  let n := nat_of_ascii c in
  (n =? 32)%nat || ((9 <=? n)%nat && (n <=? 13)%nat).

End JS.

(** ** Regular expressions, as far as the schema's [match] needs them *)

Module RegExp.

Inductive t :=
| Empty                     (* matches nothing *)
| Eps                       (* the empty word *)
| Chr (c : ascii)           (* a literal character *)
| Dot                       (* [.]: any character but a line terminator *)
| AnyChar                   (* any character at all *)
| Seq (r1 r2 : t)
| Alt (r1 r2 : t)
| Star (r : t).

Definition Plus (r : t) : t := Seq r (Star r).

Fixpoint nullable (r : t) : bool :=
  match r with
  | Empty | Chr _ | Dot | AnyChar => false
  | Eps | Star _ => true
  | Seq r1 r2 => nullable r1 && nullable r2
  | Alt r1 r2 => nullable r1 || nullable r2
  end.

Definition line_terminator (c : ascii) : bool :=
  let n := nat_of_ascii c in (n =? 10)%nat || (n =? 13)%nat.

(** Brzozowski derivative of [r] by the character [c]. *)
Fixpoint deriv (c : ascii) (r : t) : t :=
  match r with
  | Empty | Eps => Empty
  | Chr d => if Ascii.eqb c d then Eps else Empty
  | Dot => if line_terminator c then Empty else Eps
  | AnyChar => Eps
  | Seq r1 r2 =>
      if nullable r1 then Alt (Seq (deriv c r1) r2) (deriv c r2)
      else Seq (deriv c r1) r2
  | Alt r1 r2 => Alt (deriv c r1) (deriv c r2)
  | Star r1 => Seq (deriv c r1) (Star r1)
  end.

Fixpoint full_match (r : t) (s : string) : bool :=
  match s with
  | EmptyString => nullable r
  | String c rest => full_match (deriv c r) rest
  end.

(** [re.test(s)] for a pattern without anchors and a string of Basic Latin
    characters: some substring matches. *)
Definition test (r : t) (s : string) : bool :=
  full_match (Seq (Star AnyChar) (Seq r (Star AnyChar))) s.

End RegExp.

(** ** JSON values, for request and response bodies *)

#[local] Unset Elimination Schemes.
Inductive json :=
| JNull
| JBool (b : bool)
| JNum (n : Z)
| JStr (s : string)
| JArr (items : list json)
| JObj (fields : list (string * json)).
#[local] Set Elimination Schemes.

(** [j.k] *)
Definition get (k : string) (j : json) : option json :=
  match j with
  | JObj fields =>
      match find (fun kv => fst kv =? k) fields with
      | Some kv => Some (snd kv)
      | None => None
      end
  | _ => None
  end.

(** Whether some object inside [j], at any depth, has a field named [k]. *)
Fixpoint has_field (k : string) (j : json) : bool :=
  match j with
  | JArr items => existsb (has_field k) items
  | JObj fields =>
      existsb (fun kv : string * json =>
                 let (k', v) := kv in (k' =? k) || has_field k v) fields
  | _ => false
  end.

Record Response := { status : nat; body : json }.

(** [res.status(code).json(obj)]; [res.json(obj)] is [res_json 200 obj]. *)
Definition res_json (code : nat) (obj : json) : Response :=
  {| status := code; body := obj |}.

(** A string or [null]. *)
Definition JStr_or_null (v : option string) : json :=
  match v with
  | Some s => JStr s
  | None => JNull
  end.

(** ** The data model *)

(** A stored document of the [User] model ([userSchema]).  [_id] is the
    ObjectId in its string form (24 lower-case hexadecimal digits), the
    form in which it travels in tokens and responses.  [password] holds the
    bcrypt hash.  [role] is [None] when the stored value is [null]: the
    schema does not make the path required. *)
Record User := {
  _id : string;
  username : string;
  email : string;
  password : string;
  role : option string;
  isActive : bool;
  createdAt : Z
}.

(** [enum: ['user', 'admin', 'moderator']] *)
Definition role_enum : list string := ["user"; "admin"; "moderator"].

(** [match: /.+\@.+\..+/] *)
Definition email_match : RegExp.t :=
  RegExp.Seq (RegExp.Plus RegExp.Dot)
    (RegExp.Seq (RegExp.Chr "@")
       (RegExp.Seq (RegExp.Plus RegExp.Dot)
          (RegExp.Seq (RegExp.Chr ".") (RegExp.Plus RegExp.Dot)))).

(** The object a token carries: what [jwt.sign] is given and [jwt.verify]
    gives back, attached to the request as [req.user].  The handlers sign
    [{ userId, username, email, role }], where [role] is the stored one,
    possibly [null]; jsonwebtoken adds the claims [iat] and [exp], which a
    decoded token therefore carries. *)
Module Payload.
Record t := {
  userId : string;
  username : string;
  email : string;
  role : option string;
  iat : option Z;
  exp : option Z
}.
End Payload.

(** [req.body], after [express.json()].  A field is absent ([None]) or
    present.  [role] is any JSON value; the other fields have the type the
    handlers expect of them. *)
Module Body.
Record t := {
  username : option string;
  email : option string;
  password : option string;
  role : option json;
  isActive : option bool;
  currentPassword : option string;
  newPassword : option string
}.
End Body.

Record Request := {
  authorization : option string;      (* req.headers.authorization *)
  body_of : Body.t;                   (* req.body *)
  id_param : string;                  (* req.params.id *)
  user : option Payload.t             (* req.user *)
}.

Definition set_user (req : Request) (decoded : Payload.t) : Request :=
  {| authorization := authorization req;
     body_of := body_of req;
     id_param := id_param req;
     user := Some decoded |}.

(** What a request takes from its surroundings: the clock, the ObjectId
    the driver generates for a new document, the salt of [bcrypt.genSalt]. *)
Record Env := {
  now : Z;
  new_oid : string;
  salt : string
}.

(** Exceptions the libraries raise. *)
Inductive Error :=
| ValidationError (paths : list string)   (* mongoose validators failed *)
| DuplicateKeyError (path : string)       (* a unique index refused a write *)
| CastError (path : string)               (* a value is not an ObjectId *)
| TypeError                               (* a property of null was read *)
| BcryptError.                            (* bcrypt called without data *)

(** Calls made to the libraries, in the order they were made. *)
Inductive Call :=
| jwt_verify_call (token : string)
| jwt_sign_call (p : Payload.t)
| bcrypt_hash_call
| bcrypt_compare_call
| findOne_call
| findById_call (id : string)
| find_call
| save_call
| findByIdAndUpdate_call (id : string)
| findByIdAndDelete_call (id : string).

Definition is_repository_call (c : Call) : bool :=
  match c with
  | jwt_verify_call _ | jwt_sign_call _ | bcrypt_hash_call
  | bcrypt_compare_call => false
  | _ => true
  end.

Definition is_jwt_verify_call (c : Call) : bool :=
  match c with
  | jwt_verify_call _ => true
  | _ => false
  end.

Record World := {
  users : list User;      (* the collection, in insertion order *)
  calls : list Call
}.

Definition log (c : Call) (w : World) : World :=
  {| users := users w; calls := calls w ++ [c] |}.

Definition set_users (l : list User) (w : World) : World :=
  {| users := l; calls := calls w |}.

(** ** Computations that may throw *)

Inductive Completion (A : Type) :=
| Normal (a : A)
| Throw (e : Error).
Arguments Normal {A} a.
Arguments Throw {A} e.

Definition M (A : Type) : Type := World -> Completion A * World.

Definition ret {A} (a : A) : M A := fun w => (Normal a, w).
Definition throw {A} (e : Error) : M A := fun w => (Throw e, w).
Definition bind {A B} (m : M A) (k : A -> M B) : M B :=
  fun w =>
    match m w with
    | (Normal a, w') => k a w'
    | (Throw e, w') => (Throw e, w')
    end.
Definition called (c : Call) : M unit := fun w => (Normal tt, log c w).
Definition get_users : M (list User) := fun w => (Normal (users w), w).
Definition put_users (l : list User) : M unit :=
  fun w => (Normal tt, set_users l w).

Declare Scope js_scope.
Delimit Scope js_scope with js.
Notation "x <- m ;; k" := (bind m (fun x => k))
  (at level 100, m at next level, right associativity) : js_scope.
Notation "m ;; k" := (bind m (fun _ => k))
  (at level 100, right associativity) : js_scope.

(** What remains of a request once routed: it answers and leaves a world. *)
Definition Handler : Type := Env -> World -> Response * World.

(** [try { block } catch (error) { handler }] around a handler's block. *)
Definition try_catch (block : M Response) (handler : Error -> Response)
  : World -> Response * World :=
  fun w =>
    match block w with
    | (Normal r, w') => (r, w')
    | (Throw e, w') => (handler e, w')
    end.

(** [const JWT_SECRET = '...';] *)
Definition JWT_SECRET : string := "your-secret-key-change-this-in-production".

(** ** The token service *)

Module TokenService.
Section Signed.

(** Modelled from the spec: the signature of a payload and its two
    timestamps under a secret ("signs with a process-wide secret"). *)
Variable mac : string -> Payload.t -> Z -> Z -> string.

(** Modelled from the spec: the token that jsonwebtoken's [jwt.sign]
    makes; the library's code is not in the repository.  Section 4.3: a
    token "serializes {userId, username, email, role} plus issuance and
    expiry timestamps" and is signed "with a process-wide secret".  Times
    are in seconds. *)
Record Token := {
  payload : Payload.t;
  iat : Z;
  exp : Z;
  signature : string
}.

(** Modelled from the spec: the lifetime of a token, "24 hours from
    issuance" (section 3); the source passes [{ expiresIn: '24h' }]. *)
Definition expiresIn : Z := 24 * 60 * 60.

(** Modelled from the spec: [issue(identitySnapshot) -> token] of section
    4.3, jsonwebtoken's [jwt.sign], at the time [at_time]. *)
Definition issue (secret : string) (identity : Payload.t) (at_time : Z)
  : Token :=
  {| payload := identity;
     iat := at_time;
     exp := at_time + expiresIn;
     signature := mac secret identity at_time (at_time + expiresIn) |}.

(** Modelled from the spec: the outcomes of [verify] in section 4.3,
    [identitySnapshot | Expired | Invalid]. *)
Inductive Outcome :=
| Verified (identity : Payload.t)
| Expired
| Invalid.

(** Modelled from the spec: [verify(token)] of section 4.3, jsonwebtoken's
    [jwt.verify], at the time [at_time]: it "checks signature integrity
    and expiry". *)
Definition verify (secret : string) (t : Token) (at_time : Z) : Outcome :=
  if signature t =? mac secret (payload t) (iat t) (exp t)
  then if (at_time <? exp t)%Z then Verified (payload t) else Expired
  else Invalid.

(** Modelled from the spec: "a rejection" (section 8) is either outcome
    of [verify] that is not an identity. *)
Definition rejected (o : Outcome) : Prop :=
  match o with
  | Verified _ => False
  | Expired | Invalid => True
  end.

End Signed.
End TokenService.

(** ** The header, read as the specification words it *)

(** Follows the spec's words, not the source: the "whitespace-delimited
    tokens of the header" (section 4.4), the maximal runs of characters
    that are not white space. *)
Definition whitespace_delimited (header : string) : list string :=
  filter (fun piece => negb (piece =? "")) (JS.pieces JS.is_space header).

(** ** A sample instance of the libraries and built-ins, for the examples *)

Module Sample.

Definition bcrypt_hash (data salt : string) : string := salt ++ "$" ++ data.

Definition bcrypt_compare (data hash : string) : bool :=
  match JS.split "$" hash with
  | [_; hashed] => hashed =? data
  | _ => false
  end.

(** The built-ins, on strings of Basic Latin characters. *)
Fixpoint trimStart (s : string) : string :=
  match s with
  | EmptyString => EmptyString
  | String c rest => if JS.is_space c then trimStart rest else s
  end.

Fixpoint trimEnd (s : string) : string :=
  match s with
  | EmptyString => EmptyString
  | String c rest =>
      match trimEnd rest with
      | EmptyString =>
          if JS.is_space c then EmptyString else String c EmptyString
      | kept => String c kept
      end
  end.

Definition trim (s : string) : string := trimEnd (trimStart s).

Definition lower (c : ascii) : ascii :=
  let n := nat_of_ascii c in
  if ((65 <=? n)%nat && (n <=? 90)%nat) then ascii_of_nat (n + 32) else c.

Fixpoint toLowerCase (s : string) : string :=
  match s with
  | EmptyString => EmptyString
  | String c rest => String (lower c) (toLowerCase rest)
  end.

Definition utf16_length (s : string) : nat := String.length s.

Definition regexp_test (r : RegExp.t) (s : string) : bool := RegExp.test r s.

(** The instants the examples use, in milliseconds since the epoch. *)
Definition toISOString (t : Z) : string :=
  if (t =? 1)%Z then "1970-01-01T00:00:00.001Z"
  else if (t =? 2)%Z then "1970-01-01T00:00:00.002Z"
  else if (t =? 1000)%Z then "1970-01-01T00:00:01.000Z"
  else "1970-01-01T00:00:00.000Z".

Definition hex_digit (c : ascii) : bool :=
  let n := nat_of_ascii c in
  ((48 <=? n)%nat && (n <=? 57)%nat)
  || ((65 <=? n)%nat && (n <=? 70)%nat)
  || ((97 <=? n)%nat && (n <=? 102)%nat).

(** 24 hexadecimal digits, in either case, are an ObjectId. *)
Definition castObjectId (id : string) : option string :=
  if (String.length id =? 24)%nat
     && forallb hex_digit (list_ascii_of_string id)
  then Some (toLowerCase id)
  else None.

(** Numbers and booleans are cast to strings, arrays and objects are
    not. *)
Definition castString (v : json) : option string :=
  match v with
  | JNum n => Some (NilZero.string_of_int (Z.to_int n))
  | JBool b => Some (if b then "true" else "false")
  | _ => None
  end.

Definition id_of_ada : string := "0000000000000000000000a1".
Definition id_of_bob : string := "0000000000000000000000b2".
Definition id_of_mia : string := "0000000000000000000000c3".

(** ada's id, written with an upper-case digit. *)
Definition ID_OF_ADA : string := "0000000000000000000000A1".

Definition ada : Payload.t :=
  {| Payload.userId := id_of_ada; Payload.username := "ada";
     Payload.email := "ada@x.com"; Payload.role := Some "admin";
     Payload.iat := Some 0%Z; Payload.exp := Some 86400%Z |}.

Definition mia : Payload.t :=
  {| Payload.userId := id_of_mia; Payload.username := "mia";
     Payload.email := "mia@x.com"; Payload.role := Some "moderator";
     Payload.iat := Some 0%Z; Payload.exp := Some 86400%Z |}.

Definition jwt_sign (p : Payload.t) (secret expiresIn : string) (now : Z)
  : string :=
  "token-of-" ++ Payload.username p.

Definition jwt_verify (token secret : string) (now : Z) : option Payload.t :=
  if negb (secret =? JWT_SECRET) then None
  else if token =? "token-of-ada" then Some ada
  else if token =? "token-of-mia" then Some mia
  else None.

Definition error_message (e : Error) : string :=
  match e with
  | ValidationError _ => "User validation failed"
  | DuplicateKeyError _ => "E11000 duplicate key error"
  | CastError _ => "Cast to ObjectId failed"
  | TypeError => "Cannot read properties of null"
  | BcryptError => "data and hash arguments required"
  end.

Definition no_body : Body.t :=
  {| Body.username := None; Body.email := None; Body.password := None;
     Body.role := None; Body.isActive := None;
     Body.currentPassword := None; Body.newPassword := None |}.

(** A request with the given Authorization header, body and [:id]. *)
Definition request (header : option string) (b : Body.t) (id : string)
  : Request :=
  {| authorization := header; body_of := b; id_param := id; user := None |}.

Definition signup_body (username email password : string)
  (role : option json) : Body.t :=
  {| Body.username := Some username; Body.email := Some email;
     Body.password := Some password; Body.role := role;
     Body.isActive := None;
     Body.currentPassword := None; Body.newPassword := None |}.

Definition login_body (email password : string) : Body.t :=
  {| Body.username := None; Body.email := Some email;
     Body.password := Some password; Body.role := None;
     Body.isActive := None;
     Body.currentPassword := None; Body.newPassword := None |}.

Definition role_body (role : string) : Body.t :=
  {| Body.username := None; Body.email := None; Body.password := None;
     Body.role := Some (JStr role); Body.isActive := None;
     Body.currentPassword := None; Body.newPassword := None |}.

Definition env : Env :=
  {| now := 1000; new_oid := "0000000000000000000000d9"; salt := "s" |}.

Definition empty : World := {| users := []; calls := [] |}.

(** A collection with the admin ada, active, and bob, deactivated. *)
Definition world : World :=
  {| users :=
       [ {| _id := id_of_ada; username := "ada"; email := "ada@x.com";
            password := "s$secret1"; role := Some "admin"; isActive := true;
            createdAt := 1 |};
         {| _id := id_of_bob; username := "bob"; email := "bob@x.com";
            password := "s$hunter22"; role := Some "user";
            isActive := false; createdAt := 2 |} ];
     calls := [] |}.

(** A downstream handler that answers 200. *)
Definition ok : Request -> Handler :=
  fun _ _ w => (res_json 200 (JObj [("success", JBool true)]), w).

(** ["Bearer"], a tab, and then the token. *)
Definition tab_header : string :=
  "Bearer" ++ String (ascii_of_nat 9) "token-of-ada".

End Sample.

(** ** The application *)

Section RBAC.

Open Scope js_scope.

(** *** Third-party libraries *)

(** [bcrypt.hash(data, salt)] and [bcrypt.compare(data, hash)]. *)
Variable bcrypt_hash : string -> string -> string.
Variable bcrypt_compare : string -> string -> bool.

(** [jwt.sign(payload, secret, { expiresIn })] at a given time, and
    [jwt.verify(token, secret)] at a given time; [None] stands for the
    exception [jwt.verify] throws on an invalid or expired token. *)
Variable jwt_sign : Payload.t -> string -> string -> Z -> string.
Variable jwt_verify : string -> string -> Z -> option Payload.t.

(** mongoose's cast of a string to an ObjectId: the ObjectId, in its
    string form, or [None] when the string is not one.  The cast does not
    tell upper-case from lower-case hexadecimal digits, so two strings may
    be cast to the same ObjectId. *)
Variable castObjectId : string -> option string.

(** mongoose's cast to String of a JSON value that is neither [null] nor
    a string; [None] when the value cannot be cast. *)
Variable castString : json -> option string.

(** [error.message] *)
Variable error_message : Error -> string.

(** *** Built-ins whose result depends on Unicode *)

(** [s.trim()] and [s.toLowerCase()], the setters behind the schema's
    [trim: true] and [lowercase: true]. *)
Variable trim : string -> string.
Variable toLowerCase : string -> string.

(** [s.length], in UTF-16 code units, which [minlength] counts. *)
Variable utf16_length : string -> nat.

(** [re.test(s)] *)
Variable regexp_test : RegExp.t -> string -> bool.

(** [date.toISOString()], the form in which [res.json] writes a date. *)
Variable toISOString : Z -> string.

(** *** The schema: setters, defaults and validators *)

(** The outcome of casting a value to the type of its path: the value,
    [None] for [null], or the failure of the cast, which validation
    reports. *)
Inductive Casted :=
| CastFailed
| CastTo (v : option string).

(** The cast to String of a JSON value. *)
Definition cast_String (v : json) : Casted :=
  match v with
  | JNull => CastTo None
  | JStr s => CastTo (Some s)
  | other =>
      match castString other with
      | Some s => CastTo (Some s)
      | None => CastFailed
      end
  end.

(** The value a path holds after a cast; nothing when the cast failed. *)
Definition cast_value (c : Casted) : option string :=
  match c with
  | CastTo v => v
  | CastFailed => None
  end.

(** A document in memory.  Paths may be undefined until validated;
    [stored] is the version read from the collection, [None] for a
    document made by [new User]. *)
Record Document := {
  doc_id : string;
  doc_username : option string;
  doc_email : option string;
  doc_password : option string;
  doc_role : Casted;
  doc_isActive : bool;
  doc_createdAt : Z;
  stored : option User
}.

(** [new User({ username, email, password, role })]: the setters [trim] and
    [lowercase] run, the defaults fill [role] when it is undefined,
    [isActive] and [createdAt]. *)
Definition new_User (username email password : option string)
  (role : option json) (env : Env) : Document :=
  {| doc_id := new_oid env;
     doc_username := option_map trim username;
     doc_email := option_map toLowerCase email;
     doc_password := password;
     doc_role := match role with
                 | Some v => cast_String v
                 | None => CastTo (Some "user")
                 end;
     doc_isActive := true;
     doc_createdAt := now env;
     stored := None |}.

(** A document read from the collection. *)
Definition hydrate (u : User) : Document :=
  {| doc_id := _id u;
     doc_username := Some (username u);
     doc_email := Some (email u);
     doc_password := Some (password u);
     doc_role := CastTo (role u);
     doc_isActive := isActive u;
     doc_createdAt := createdAt u;
     stored := Some u |}.

(** [user.password = value] *)
Definition assign_password (d : Document) (value : option string) : Document :=
  {| doc_id := doc_id d;
     doc_username := doc_username d;
     doc_email := doc_email d;
     doc_password := value;
     doc_role := doc_role d;
     doc_isActive := doc_isActive d;
     doc_createdAt := doc_createdAt d;
     stored := stored d |}.

(** [required: true] on a string path: present and not empty. *)
Definition required (v : option string) : bool := JS.truthy v.

(** The other validators run on a value that is present; they skip
    [undefined] and [null]. *)
Definition when_present (check : string -> bool) (v : option string) : bool :=
  match v with
  | Some s => check s
  | None => true
  end.

Definition valid_username (v : option string) : bool := required v.
Definition valid_email (v : option string) : bool :=
  required v && when_present (regexp_test email_match) v.
Definition valid_password (v : option string) : bool :=
  required v && when_present (fun s => (6 <=? utf16_length s)%nat) v.

(** [enum: [...]] on a value. *)
Definition in_enum (v : option string) : bool :=
  when_present (JS.includes role_enum) v.

Definition valid_role (c : Casted) : bool :=
  match c with
  | CastTo v => in_enum v
  | CastFailed => false
  end.

(** The paths whose check failed. *)
Definition failing (checks : list (string * bool)) : list string :=
  map fst (filter (fun c => negb (snd c)) checks).

Definition validate (checks : list (string * bool)) : M unit :=
  match failing checks with
  | [] => ret tt
  | paths => throw (ValidationError paths)
  end.

Definition the (v : option string) : string :=
  match v with
  | Some s => s
  | None => ""
  end.

(** [this.isModified('password')] *)
Definition isModified_password (d : Document) : bool :=
  match stored d, doc_password d with
  | Some u, Some p => negb (p =? password u)
  | _, _ => true
  end.

(** [userSchema.pre('save', ...)]: hash the password when it was modified. *)
Definition pre_save (d : Document) (env : Env) : M Document :=
  if negb (isModified_password d) then ret d
  else
    called bcrypt_hash_call ;;
    ret (assign_password d (Some (bcrypt_hash (the (doc_password d)) (salt env)))).

Definition to_User (d : Document) : User :=
  {| _id := doc_id d;
     username := the (doc_username d);
     email := the (doc_email d);
     password := the (doc_password d);
     role := cast_value (doc_role d);
     isActive := doc_isActive d;
     createdAt := doc_createdAt d |}.

(** The unique indexes on [username] and [email], checked against the
    documents [others]. *)
Definition unique_indexes (u : User) (others : list User) : M unit :=
  if existsb (fun o => username o =? username u) others
  then throw (DuplicateKeyError "username")
  else if existsb (fun o => email o =? email u) others
  then throw (DuplicateKeyError "email")
  else ret tt.

Definition replace (u : User) (l : list User) : list User :=
  map (fun o => if _id o =? _id u then u else o) l.

Definition without (id : string) (l : list User) : list User :=
  filter (fun o => negb (_id o =? id)) l.

(** [await user.save()]: validation, then the pre-save hook, then the
    write (an insert for a new document, an update otherwise). *)
Definition save (d : Document) (env : Env) : M User :=
  called save_call ;;
  validate [("username", valid_username (doc_username d));
            ("email", valid_email (doc_email d));
            ("password", valid_password (doc_password d));
            ("role", valid_role (doc_role d))] ;;
  d' <- pre_save d env ;;
  all <- get_users ;;
  let u := to_User d' in
  match stored d with
  | None =>
      unique_indexes u all ;;
      put_users (all ++ [u]) ;;
      ret u
  | Some _ =>
      put_users (replace u all) ;;
      ret u
  end.

(** Whether [save] takes a new document into the collection [all]: the
    validators pass and the unique indexes admit it. *)
Definition accepted (d : Document) (all : list User) : bool :=
  valid_username (doc_username d)
  && valid_email (doc_email d)
  && valid_password (doc_password d)
  && valid_role (doc_role d)
  && negb (existsb (fun o => username o =? the (doc_username d)) all)
  && negb (existsb (fun o => email o =? the (doc_email d)) all).

(** The document [save] writes for a new document [d]. *)
Definition created (d : Document) (env : Env) : User :=
  to_User (assign_password d
             (Some (bcrypt_hash (the (doc_password d)) (salt env)))).

(** *** Queries *)

(** The document whose [_id] is the ObjectId [oid]. *)
Definition by_id (oid : string) (l : list User) : option User :=
  find (fun u => _id u =? oid) l.

(** The document whose [email] is [e]. *)
Definition by_email (e : option string) (l : list User) : option User :=
  match e with
  | Some e => find (fun u => email u =? e) l
  | None => None
  end.

(** [User.findOne({ email })]: the filter goes through the setter of the
    path, [lowercase], before it is matched. *)
Definition findOne (e : option string) : M (option User) :=
  called findOne_call ;;
  all <- get_users ;;
  ret (by_email (option_map toLowerCase e) all).

(** [User.findById(id)]: the id is cast to an ObjectId. *)
Definition findById (id : string) : M (option User) :=
  called (findById_call id) ;;
  match castObjectId id with
  | None => throw (CastError "_id")
  | Some oid => all <- get_users ;; ret (by_id oid all)
  end.

(** [User.find()] and [User.find({ isActive: true })] *)
Definition find_all : M (list User) :=
  called find_call ;; get_users.
Definition find_active : M (list User) :=
  called find_call ;;
  all <- get_users ;; ret (filter isActive all).

(** The update document of [findByIdAndUpdate]; an undefined value sets
    nothing. *)
Record Update := {
  set_username : option string;
  set_email : option string;
  set_role : option string;
  set_isActive : option bool
}.

Definition or_else {A} (v : option A) (old : A) : A :=
  match v with
  | Some x => x
  | None => old
  end.

Definition apply_update (upd : Update) (u : User) : User :=
  {| _id := _id u;
     username := or_else (option_map trim (set_username upd)) (username u);
     email := or_else (option_map toLowerCase (set_email upd)) (email u);
     password := password u;
     role := match set_role upd with
             | Some r => Some r
             | None => role u
             end;
     isActive := or_else (set_isActive upd) (isActive u);
     createdAt := createdAt u |}.

Definition present (v : option string) (check : option string -> bool) : bool :=
  match v with
  | Some _ => check v
  | None => true
  end.

(** [User.findByIdAndUpdate(id, update, { new: true, runValidators })] *)
Definition findByIdAndUpdate (id : string) (upd : Update)
  (runValidators : bool) : M (option User) :=
  called (findByIdAndUpdate_call id) ;;
  match castObjectId id with
  | None => throw (CastError "_id")
  | Some oid =>
      (if runValidators
       then validate
              [("username",
                present (set_username upd)
                  (fun v => valid_username (option_map trim v)));
               ("email",
                present (set_email upd)
                  (fun v => valid_email (option_map toLowerCase v)));
               ("role", in_enum (set_role upd))]
       else ret tt) ;;
      all <- get_users ;;
      match by_id oid all with
      | None => ret None
      | Some u =>
          let u' := apply_update upd u in
          unique_indexes u' (without oid all) ;;
          put_users (replace u' all) ;;
          ret (Some u')
      end
  end.

(** [User.findByIdAndDelete(id)] *)
Definition findByIdAndDelete (id : string) : M (option User) :=
  called (findByIdAndDelete_call id) ;;
  match castObjectId id with
  | None => throw (CastError "_id")
  | Some oid =>
      all <- get_users ;;
      match by_id oid all with
      | None => ret None
      | Some u => put_users (without oid all) ;; ret (Some u)
      end
  end.

(** [user.comparePassword(candidatePassword)] *)
Definition comparePassword (u : User) (candidatePassword : option string)
  : M bool :=
  called bcrypt_compare_call ;;
  match candidatePassword with
  | Some p => ret (bcrypt_compare p (password u))
  | None => throw BcryptError
  end.

(** *** Views of a user *)

(** The fields of a document, as [res.json] serialises it: the paths of
    the schema and mongoose's version key, which stays 0 as no route
    changes an array.  They are listed in the schema's order; what is
    proved of a view is said field by field and does not depend on it. *)
Definition toObject (u : User) : list (string * json) :=
  [("_id", JStr (_id u));
   ("username", JStr (username u));
   ("email", JStr (email u));
   ("password", JStr (password u));
   ("role", JStr_or_null (role u));
   ("isActive", JBool (isActive u));
   ("createdAt", JStr (toISOString (createdAt u)));
   ("__v", JNum 0)].

(** [.select('-path')]: the document without that path. *)
Definition select_without (path : string) (u : User) : json :=
  JObj (filter (fun kv => negb (fst kv =? path)) (toObject u)).

(** [{ id: user._id, username: ..., email: ..., role: ... }] *)
Definition summary (u : User) : json :=
  JObj [("id", JStr (_id u));
        ("username", JStr (username u));
        ("email", JStr (email u));
        ("role", JStr_or_null (role u))].

(** A claim that jsonwebtoken has added, when it is there. *)
Definition claim (name : string) (v : option Z) : list (string * json) :=
  match v with
  | Some n => [(name, JNum n)]
  | None => []
  end.

(** [req.user], as [res.json] serialises it. *)
Definition payload_json (p : Payload.t) : json :=
  JObj ([("userId", JStr (Payload.userId p));
         ("username", JStr (Payload.username p));
         ("email", JStr (Payload.email p));
         ("role", JStr_or_null (Payload.role p))]
          ++ claim "iat" (Payload.iat p) ++ claim "exp" (Payload.exp p))%list.

Definition nullable {A} (view : A -> json) (v : option A) : json :=
  match v with
  | Some a => view a
  | None => JNull
  end.

(** [{ success: false, message }] *)
Definition failure (msg : string) : json :=
  JObj [("success", JBool false); ("message", JStr msg)].

(** The payload [signup] and [login] sign for a user. *)
Definition identity_of (u : User) : Payload.t :=
  {| Payload.userId := _id u;
     Payload.username := username u;
     Payload.email := email u;
     Payload.role := role u;
     Payload.iat := None;
     Payload.exp := None |}.

(** [jwt.sign({ userId, username, email, role }, JWT_SECRET,
    { expiresIn: '24h' })] *)
Definition sign_token (u : User) (env : Env) : M string :=
  let p := identity_of u in
  called (jwt_sign_call p) ;;
  ret (jwt_sign p JWT_SECRET "24h" (now env)).

(** *** Middleware *)

Definition Middleware : Type := Request -> (Request -> Handler) -> Handler.

(** [req.headers.authorization?.split(' ')[1]] *)
Definition bearer (req : Request) : option string :=
  match authorization req with
  | Some header => nth_error (JS.split " " header) 1
  | None => None
  end.

(** 1. Authentication middleware.  [jwt.verify] throws on an invalid or
    expired token, which the [catch] turns into the 403. *)
Definition authenticate : Middleware := fun req next env w =>
  let token := bearer req in
  if negb (JS.truthy token)
  then (res_json 401 (failure "Access denied. No token provided."), w)
  else
    let w' := log (jwt_verify_call (the token)) w in
    match jwt_verify (the token) JWT_SECRET (now env) with
    | Some decoded => next (set_user req decoded) env w'
    | None => (res_json 403 (failure "Invalid or expired token."), w')
    end.

(** [arr.includes(v)] for a value that may be undefined or [null]. *)
Definition includes_value (arr : list string) (v : option string) : bool :=
  match v with
  | Some s => JS.includes arr s
  | None => false
  end.

(** [v === s] for a value that may be undefined or [null]. *)
Definition is_string (s : string) (v : option string) : bool :=
  match v with
  | Some x => x =? s
  | None => false
  end.

(** 2. Role-based authorization middleware, [authorize(...roles)]. *)
Definition authorize (roles : list string) : Middleware := fun req next env w =>
  match user req with
  | None => (res_json 401 (failure "User not authenticated."), w)
  | Some u =>
      if negb (includes_value roles (Payload.role u))
      then (res_json 403
              (failure ("Access denied. Required role: "
                          ++ JS.join " or " roles)), w)
      else next req env w
  end.

(** 3. Admin-only middleware. *)
Definition adminOnly : Middleware := fun req next env w =>
  match user req with
  | None => (res_json 401 (failure "User not authenticated."), w)
  | Some u =>
      if negb (is_string "admin" (Payload.role u))
      then (res_json 403 (failure "Access denied. Admin role required."), w)
      else next req env w
  end.

(** [app.METHOD(path, m1, ..., mn, handler)] *)
Fixpoint chain (middleware : list Middleware) (handler : Request -> Handler)
  : Request -> Handler :=
  match middleware with
  | [] => handler
  | m :: rest => fun req => m req (chain rest handler)
  end.

(** [req.user.userId]; reading it when [req.user] is undefined throws. *)
Definition req_userId (req : Request) : M string :=
  match user req with
  | Some u => ret (Payload.userId u)
  | None => throw TypeError
  end.

(** The string a JSON value of the body is, when it is one. *)
Definition as_string (v : option json) : option string :=
  match v with
  | Some (JStr s) => Some s
  | _ => None
  end.

(** *** Routes *)

(** [const userRole = role === 'admin' ? 'user' : role;] *)
Definition userRole (role : json) : json :=
  match role with
  | JStr s => if s =? "admin" then JStr "user" else role
  | _ => role
  end.

(** [POST /signup] *)
Definition signup (req : Request) : Handler := fun env =>
  try_catch
    (let b := body_of req in
     let role := or_else (Body.role b) (JStr "user") in
     let user := new_User (Body.username b) (Body.email b) (Body.password b)
                   (Some (userRole role)) env in
     user <- save user env ;;
     token <- sign_token user env ;;
     ret (res_json 201
            (JObj [("success", JBool true);
                   ("message", JStr "User registered successfully");
                   ("user", summary user);
                   ("token", JStr token)])))
    (fun error => res_json 400 (failure (error_message error))).

(** [POST /login] *)
Definition login (req : Request) : Handler := fun env =>
  try_catch
    (let b := body_of req in
     found <- findOne (Body.email b) ;;
     match found with
     | None => ret (res_json 401 (failure "Invalid credentials"))
     | Some user =>
         if negb (isActive user)
         then ret (res_json 403 (failure "Account is deactivated"))
         else
           isMatch <- comparePassword user (Body.password b) ;;
           if negb isMatch
           then ret (res_json 401 (failure "Invalid credentials"))
           else
             token <- sign_token user env ;;
             ret (res_json 200
                    (JObj [("success", JBool true);
                           ("message", JStr "Login successful");
                           ("user", summary user);
                           ("token", JStr token)]))
     end)
    (fun error => res_json 500 (failure (error_message error))).

(** [GET /profile] *)
Definition get_profile (req : Request) : Handler := fun env =>
  try_catch
    (id <- req_userId req ;;
     found <- findById id ;;
     ret (res_json 200
            (JObj [("success", JBool true);
                   ("user", nullable (select_without "password") found)])))
    (fun error => res_json 500 (failure (error_message error))).

(** [PUT /profile] *)
Definition put_profile (req : Request) : Handler := fun env =>
  try_catch
    (let b := body_of req in
     id <- req_userId req ;;
     updatedUser <- findByIdAndUpdate id
                      {| set_username := Body.username b;
                         set_email := Body.email b;
                         set_role := None;
                         set_isActive := None |} true ;;
     ret (res_json 200
            (JObj [("success", JBool true);
                   ("message", JStr "Profile updated successfully");
                   ("user",
                    nullable (select_without "password") updatedUser)])))
    (fun error => res_json 400 (failure (error_message error))).

(** [PUT /profile/change-password] *)
Definition change_password (req : Request) : Handler := fun env =>
  try_catch
    (let b := body_of req in
     id <- req_userId req ;;
     found <- findById id ;;
     match found with
     | None => throw TypeError
     | Some user =>
         isMatch <- comparePassword user (Body.currentPassword b) ;;
         if negb isMatch
         then ret (res_json 401 (failure "Current password is incorrect"))
         else
           save (assign_password (hydrate user) (Body.newPassword b)) env ;;
           ret (res_json 200
                  (JObj [("success", JBool true);
                         ("message", JStr "Password changed successfully")]))
     end)
    (fun error => res_json 400 (failure (error_message error))).

(** [GET /admin] *)
Definition admin_dashboard (req : Request) : Handler := fun env w =>
  (res_json 200
     (JObj [("success", JBool true);
            ("message", JStr "Welcome to Admin Dashboard");
            ("admin", nullable payload_json (user req));
            ("features",
             JArr [JStr "View all users"; JStr "Manage user roles";
                   JStr "Activate/deactivate users";
                   JStr "View system statistics"])]), w).

Definition count (p : User -> bool) (l : list User) : json :=
  JNum (Z.of_nat (List.length (filter p l))).

(** [u => u.role === r] *)
Definition role_is (r : string) (u : User) : bool := is_string r (role u).

(** [GET /admin/users] *)
Definition admin_users (req : Request) : Handler := fun env =>
  try_catch
    (users <- find_all ;;
     let stats :=
       JObj [("total", JNum (Z.of_nat (List.length users)));
             ("active", count isActive users);
             ("admins", count (role_is "admin") users);
             ("users", count (role_is "user") users);
             ("moderators", count (role_is "moderator") users)] in
     ret (res_json 200
            (JObj [("success", JBool true);
                   ("stats", stats);
                   ("users", JArr (map (select_without "password") users))])))
    (fun error => res_json 500 (failure (error_message error))).

(** [PUT /admin/users/:id/role] *)
Definition update_role (req : Request) : Handler := fun env =>
  try_catch
    (let role := Body.role (body_of req) in
     let id := id_param req in
     self <- req_userId req ;;
     if id =? self
     then ret (res_json 400 (failure "Cannot modify your own role"))
     else if negb (includes_value role_enum (as_string role))
     then ret (res_json 400 (failure "Invalid role"))
     else
       found <- findByIdAndUpdate id
                  {| set_username := None;
                     set_email := None;
                     set_role := as_string role;
                     set_isActive := None |} true ;;
       match found with
       | None => ret (res_json 404 (failure "User not found"))
       | Some user =>
           ret (res_json 200
                  (JObj [("success", JBool true);
                         ("message",
                          JStr ("User role updated to "
                                  ++ the (as_string role)));
                         ("user", select_without "password" user)]))
       end)
    (fun error => res_json 400 (failure (error_message error))).

(** [PUT /admin/users/:id/status] *)
Definition update_status (req : Request) : Handler := fun env =>
  try_catch
    (let isActive := Body.isActive (body_of req) in
     let id := id_param req in
     self <- req_userId req ;;
     if id =? self
     then ret (res_json 400 (failure "Cannot deactivate yourself"))
     else
       found <- findByIdAndUpdate id
                  {| set_username := None;
                     set_email := None;
                     set_role := None;
                     set_isActive := isActive |} false ;;
       match found with
       | None => ret (res_json 404 (failure "User not found"))
       | Some user =>
           ret (res_json 200
                  (JObj [("success", JBool true);
                         ("message",
                          JStr ("User "
                                  ++ (if or_else isActive false
                                      then "activated" else "deactivated")
                                  ++ " successfully"));
                         ("user", select_without "password" user)]))
       end)
    (fun error => res_json 400 (failure (error_message error))).

(** [DELETE /admin/users/:id] *)
Definition delete_user (req : Request) : Handler := fun env =>
  try_catch
    (let id := id_param req in
     self <- req_userId req ;;
     if id =? self
     then ret (res_json 400 (failure "Cannot delete yourself"))
     else
       found <- findByIdAndDelete id ;;
       match found with
       | None => ret (res_json 404 (failure "User not found"))
       | Some _ =>
           ret (res_json 200
                  (JObj [("success", JBool true);
                         ("message", JStr "User deleted successfully")]))
       end)
    (fun error => res_json 500 (failure (error_message error))).

(** [GET /moderator] *)
Definition moderator_dashboard (req : Request) : Handler := fun env w =>
  (res_json 200
     (JObj [("success", JBool true);
            ("message", JStr "Welcome to Moderator Dashboard");
            ("user", nullable payload_json (user req));
            ("permissions",
             JArr [JStr "View flagged content"; JStr "Manage user comments";
                   JStr "View user reports"])]), w).

(** [GET /moderator/users/active] *)
Definition active_users (req : Request) : Handler := fun env =>
  try_catch
    (users <- find_active ;;
     ret (res_json 200
            (JObj [("success", JBool true);
                   ("count", JNum (Z.of_nat (List.length users)));
                   ("users", JArr (map (select_without "password") users))])))
    (fun error => res_json 500 (failure (error_message error))).

(** [GET /] *)
Definition home (req : Request) : Handler := fun env w =>
  (res_json 200
     (JObj [("message", JStr "RBAC API System");
            ("endpoints",
             JObj [("public", JArr [JStr "POST /signup"; JStr "POST /login"]);
                   ("user", JArr [JStr "GET /profile"; JStr "PUT /profile"]);
                   ("admin",
                    JArr [JStr "GET /admin"; JStr "GET /admin/users";
                          JStr "PUT /admin/users/:id/role"])])]), w).

(** The routes the application registers. *)
Inductive Route :=
| GET_home
| POST_signup
| POST_login
| GET_profile
| PUT_profile
| PUT_profile_change_password
| GET_admin
| GET_admin_users
| PUT_admin_users_role
| PUT_admin_users_status
| DELETE_admin_users
| GET_moderator
| GET_moderator_users_active.

(** Each route with the middleware the source registers it with. *)
Definition app (r : Route) : Request -> Handler :=
  match r with
  | GET_home => chain [] home
  | POST_signup => chain [] signup
  | POST_login => chain [] login
  | GET_profile => chain [authenticate] get_profile
  | PUT_profile => chain [authenticate] put_profile
  | PUT_profile_change_password => chain [authenticate] change_password
  | GET_admin => chain [authenticate; adminOnly] admin_dashboard
  | GET_admin_users => chain [authenticate; authorize ["admin"]] admin_users
  | PUT_admin_users_role =>
      chain [authenticate; authorize ["admin"]] update_role
  | PUT_admin_users_status =>
      chain [authenticate; authorize ["admin"]] update_status
  | DELETE_admin_users =>
      chain [authenticate; authorize ["admin"]] delete_user
  | GET_moderator =>
      chain [authenticate; authorize ["moderator"; "admin"]]
        moderator_dashboard
  | GET_moderator_users_active =>
      chain [authenticate; authorize ["moderator"; "admin"]] active_users
  end.

(** The worlds the application can be in: it starts with an empty
    collection and moves by serving requests. *)
Inductive reachable : World -> Prop :=
| reachable_start : reachable {| users := []; calls := [] |}
| reachable_step (w : World) (r : Route) (req : Request) (env : Env) :
    reachable w -> reachable (snd (app r req env w)).

(** ** Properties *)

(** The gate has a token to verify. *)
Definition presents (req : Request) (token : string) : Prop :=
  bearer req = Some token /\ token <> "".

(** The gate verifies the request's token and decodes [identity]. *)
Definition authenticated_as (req : Request) (env : Env) (token : string)
  (identity : Payload.t) : Prop :=
  presents req token
  /\ jwt_verify token JWT_SECRET (now env) = Some identity.

(** The role the token carries is one of [roles]. *)
Definition role_among (roles : list string) (identity : Payload.t) : Prop :=
  exists r, Payload.role identity = Some r /\ In r roles.

(** The calls made while serving a request: what the log gained. *)
Definition made (before after : World) (new : list Call) : Prop :=
  calls after = (calls before ++ new)%list.

(** Serving the request made no call to the repository and left the
    collection as it was. *)
Definition repository_untouched (before after : World) : Prop :=
  users after = users before
  /\ exists new,
      made before after new
      /\ forallb (fun c => negb (is_repository_call c)) new = true.

(** Serving the request made no call to [jwt.verify]. *)
Definition verification_not_invoked (before after : World) : Prop :=
  exists new,
    made before after new /\ existsb is_jwt_verify_call new = false.

(** The user a login's email matches: the one whose stored email is the
    submitted one, lower-cased. *)
Definition matching (req : Request) (l : list User) : option User :=
  by_email (option_map toLowerCase (Body.email (body_of req))) l.

Lemma includes_In (arr : list string) (x : string) :
  JS.includes arr x = true <-> In x arr.
Proof.
  unfold JS.includes. rewrite existsb_exists. split.
  - intros [y [Hy Heq]]. apply String.eqb_eq in Heq. now subst.
  - intros H. exists x. split; [assumption | apply String.eqb_refl].
Qed.

Lemma includes_not_In (arr : list string) (x : string) :
  ~ In x arr -> JS.includes arr x = false.
Proof.
  intros H. destruct (JS.includes arr x) eqn:E; [|reflexivity].
  apply includes_In in E. contradiction.
Qed.

Lemma includes_value_among (roles : list string) (identity : Payload.t) :
  includes_value roles (Payload.role identity) = true
  <-> role_among roles identity.
Proof.
  unfold includes_value, role_among. destruct (Payload.role identity) as [r|].
  - rewrite includes_In. split.
    + intros H. now exists r.
    + intros (r' & [= <-] & H). exact H.
  - split; [discriminate | intros (r & H & _); discriminate].
Qed.

Lemma includes_value_not_among (roles : list string) (identity : Payload.t) :
  ~ role_among roles identity ->
  includes_value roles (Payload.role identity) = false.
Proof.
  intros H. destruct (includes_value _ _) eqn:E; [|reflexivity].
  apply includes_value_among in E. contradiction.
Qed.

Lemma is_string_spec (s : string) (v : option string) :
  is_string s v = true <-> v = Some s.
Proof.
  unfold is_string. destruct v as [x|]; [|split; discriminate].
  rewrite String.eqb_eq. split; congruence.
Qed.

Lemma is_string_other (s : string) (v : option string) :
  v <> Some s -> is_string s v = false.
Proof.
  intros H. destruct (is_string s v) eqn:E; [|reflexivity].
  apply is_string_spec in E. contradiction.
Qed.

Lemma presents_truthy (req : Request) (token : string) :
  presents req token ->
  JS.truthy (bearer req) = true /\ the (bearer req) = token.
Proof.
  intros [Hb Hne]. rewrite Hb. simpl. split; [|reflexivity].
  destruct (String.eqb_spec token ""); [contradiction | reflexivity].
Qed.

(** What the gate does with a request whose token verifies. *)
Lemma authenticate_pass (req : Request) (next : Request -> Handler)
  (env : Env) (w : World) (token : string) (identity : Payload.t) :
  authenticated_as req env token identity ->
  authenticate req next env w
  = next (set_user req identity) env (log (jwt_verify_call token) w).
Proof.
  intros [Hp Hv]. apply presents_truthy in Hp as [Ht Hthe].
  unfold authenticate. rewrite Ht, Hthe, Hv. reflexivity.
Qed.

(** C3 (as amended).  The gate takes as token the second piece of the
    Authorization header cut at each single space character.  When that
    piece is missing or empty it answers 401 and leaves the world as it
    was: no call to [jwt.verify] is logged and [next] is not run.  When
    [jwt.verify] refuses the token it answers 403 and [next] is not run.
    When [jwt.verify] accepts it, the decoded identity is attached to the
    request and [next] runs on that request. *)
Theorem authenticate_gate (req : Request) (next : Request -> Handler)
  (env : Env) (w : World) :
  bearer req
  = match authorization req with
    | Some header => nth_error (JS.split " " header) 1
    | None => None
    end
  /\ (bearer req = None \/ bearer req = Some "" ->
      authenticate req next env w
      = (res_json 401 (failure "Access denied. No token provided."), w)
      /\ verification_not_invoked w (snd (authenticate req next env w)))
  /\ (forall token,
        presents req token ->
        jwt_verify token JWT_SECRET (now env) = None ->
        authenticate req next env w
        = (res_json 403 (failure "Invalid or expired token."),
           log (jwt_verify_call token) w))
  /\ (forall token identity,
        presents req token ->
        jwt_verify token JWT_SECRET (now env) = Some identity ->
        authenticate req next env w
        = next (set_user req identity) env (log (jwt_verify_call token) w)).
Proof.
  split; [reflexivity|]. split; [|split].
  - assert (quiet : verification_not_invoked w w).
    { exists []. split; [|reflexivity]. unfold made. now rewrite app_nil_r. }
    intros [H | H]; unfold authenticate; rewrite H; now split.
  - intros token Hp Hv. apply presents_truthy in Hp as [Ht Hthe].
    unfold authenticate. rewrite Ht, Hthe, Hv. reflexivity.
  - intros token identity Hp Hv. apply authenticate_pass. now split.
Qed.

(** C2.  The role check answers 401 when no identity is attached and 403,
    naming the accepted roles, when the identity's role is not among them
    (a role that is [null] is among none); in both cases [next] is not run
    and the world is untouched.  On every route registered as
    [authenticate, authorize(...roles), handler] a verified token whose
    role is not accepted gets the 403 before the handler runs; so a
    moderator who asks for the admin-only role change gets "Access denied.
    Required role: admin", and only the call to [jwt.verify] has been
    made. *)
Theorem authorize_policy (roles : list string) (req : Request)
  (handler : Request -> Handler) (env : Env) (w : World) :
  (user req = None ->
   authorize roles req handler env w
   = (res_json 401 (failure "User not authenticated."), w))
  /\ (forall identity,
        user req = Some identity ->
        ~ role_among roles identity ->
        authorize roles req handler env w
        = (res_json 403
             (failure ("Access denied. Required role: "
                         ++ JS.join " or " roles)), w))
  /\ (forall token identity,
        authenticated_as req env token identity ->
        ~ role_among roles identity ->
        chain [authenticate; authorize roles] handler req env w
        = (res_json 403
             (failure ("Access denied. Required role: "
                         ++ JS.join " or " roles)),
           log (jwt_verify_call token) w))
  /\ (forall token identity,
        authenticated_as req env token identity ->
        Payload.role identity = Some "moderator" ->
        app PUT_admin_users_role req env w
        = (res_json 403 (failure "Access denied. Required role: admin"),
           log (jwt_verify_call token) w)).
Proof.
  assert (denied : forall r identity next w0,
             user r = Some identity ->
             ~ role_among roles identity ->
             authorize roles r next env w0
             = (res_json 403
                  (failure ("Access denied. Required role: "
                              ++ JS.join " or " roles)), w0)).
  { intros r identity next w0 Hu Hn. unfold authorize.
    rewrite Hu, (includes_value_not_among _ _ Hn). reflexivity. }
  split; [|split; [|split]].
  - intros H. unfold authorize. rewrite H. reflexivity.
  - intros identity Hu Hn. now apply denied with identity.
  - intros token identity Ha Hn. simpl.
    rewrite (authenticate_pass _ _ _ _ _ _ Ha).
    now apply denied with identity.
  - intros token identity Ha Hr. simpl.
    rewrite (authenticate_pass _ _ _ _ _ _ Ha).
    unfold authorize. simpl. rewrite Hr. reflexivity.
Qed.

(** What the role check does with an identity whose role is accepted. *)
Lemma authorize_pass (roles : list string) (req : Request)
  (next : Request -> Handler) (env : Env) (w : World)
  (identity : Payload.t) :
  user req = Some identity ->
  role_among roles identity ->
  authorize roles req next env w = next req env w.
Proof.
  intros Hu Hin. unfold authorize. rewrite Hu.
  apply includes_value_among in Hin. rewrite Hin. reflexivity.
Qed.

(** An admin route hands the request, with the identity attached, to its
    handler once the token verifies with role admin. *)
Lemma admin_route_pass (handler : Request -> Handler) (req : Request)
  (env : Env) (w : World) (token : string) (identity : Payload.t) :
  authenticated_as req env token identity ->
  Payload.role identity = Some "admin" ->
  chain [authenticate; authorize ["admin"]] handler req env w
  = handler (set_user req identity) env (log (jwt_verify_call token) w).
Proof.
  intros Ha Hr. simpl. rewrite (authenticate_pass _ _ _ _ _ _ Ha).
  apply authorize_pass with identity; [reflexivity|].
  exists "admin". split; [exact Hr | now left].
Qed.

(** [POST /login] when no user has the email. *)
Lemma login_not_found (req : Request) (env : Env) (w : World) :
  matching req (users w) = None ->
  app POST_login req env w
  = (res_json 401 (failure "Invalid credentials"), log findOne_call w).
Proof.
  unfold matching. intros H.
  unfold app, chain, login, try_catch, findOne, bind, called,
    get_users, ret. simpl. rewrite H. reflexivity.
Qed.

(** C6.  A login whose email matches no user and a login whose email
    matches an active user but whose password [bcrypt.compare] refuses get
    the same response: status 401, message "Invalid credentials".  An
    email matches the user whose stored email is its lower-cased form. *)
Theorem login_same_rejection (unknown wrong : Request) (env : Env)
  (w : World) (u : User) (p : string) :
  matching unknown (users w) = None ->
  matching wrong (users w) = Some u ->
  isActive u = true ->
  Body.password (body_of wrong) = Some p ->
  bcrypt_compare p (password u) = false ->
  fst (app POST_login unknown env w)
  = res_json 401 (failure "Invalid credentials")
  /\ fst (app POST_login wrong env w)
     = res_json 401 (failure "Invalid credentials")
  /\ fst (app POST_login unknown env w) = fst (app POST_login wrong env w).
Proof.
  intros Hnone Hsome Hact Hpw Hcmp.
  assert (H1 : fst (app POST_login unknown env w)
               = res_json 401 (failure "Invalid credentials")).
  { now rewrite login_not_found. }
  assert (H2 : fst (app POST_login wrong env w)
               = res_json 401 (failure "Invalid credentials")).
  { unfold matching in Hsome.
    unfold app, chain, login, try_catch, findOne, comparePassword, bind,
      called, get_users, ret. simpl.
    rewrite Hsome, Hact. simpl. rewrite Hpw, Hcmp. reflexivity. }
  split; [exact H1|]. split; [exact H2|]. now rewrite H1, H2.
Qed.

(** C10.  A login whose email matches a deactivated user gets 403
    "Account is deactivated" whatever password it carries, and also when
    it carries none: the only call made is the lookup, [bcrypt.compare] is
    never reached.  The response differs from the one for an email that
    matches no user.  An email matches the user whose stored email is its
    lower-cased form. *)
Theorem login_deactivated (req : Request) (env : Env) (w : World)
  (u : User) :
  matching req (users w) = Some u ->
  isActive u = false ->
  app POST_login req env w
  = (res_json 403 (failure "Account is deactivated"), log findOne_call w)
  /\ made w (snd (app POST_login req env w)) [findOne_call]
  /\ (forall unknown,
        matching unknown (users w) = None ->
        fst (app POST_login unknown env w)
        <> fst (app POST_login req env w)).
Proof.
  intros Hsome Hact.
  assert (H : app POST_login req env w
              = (res_json 403 (failure "Account is deactivated"),
                 log findOne_call w)).
  { unfold matching in Hsome.
    unfold app, chain, login, try_catch, findOne, bind, called, get_users,
      ret. simpl. rewrite Hsome, Hact. reflexivity. }
  split; [exact H|]. split.
  - rewrite H. reflexivity.
  - intros unknown Hnone. rewrite H, (login_not_found _ _ _ Hnone).
    simpl. discriminate.
Qed.

(** *** Saving a new document *)

Lemma validate_pass (checks : list (string * bool)) (w : World) :
  forallb snd checks = true -> validate checks w = (Normal tt, w).
Proof.
  intros H. unfold validate, failing.
  replace (filter (fun c => negb (snd c)) checks) with (@nil (string * bool)).
  - reflexivity.
  - induction checks as [|c l IH]; [reflexivity|].
    simpl in *. apply andb_prop in H as [Hc Hl].
    rewrite Hc. simpl. now apply IH.
Qed.

Lemma validate_fail (checks : list (string * bool)) (w : World) :
  forallb snd checks = false ->
  exists paths, validate checks w = (Throw (ValidationError paths), w).
Proof.
  intros H. unfold validate.
  destruct (failing checks) as [|p l] eqn:F.
  - exfalso. revert H F. unfold failing.
    induction checks as [|c l IH]; [discriminate|].
    simpl. destruct (snd c); simpl; [exact IH | discriminate].
  - now exists (p :: l).
Qed.

Lemma accepted_true (d : Document) (all : list User) :
  accepted d all = true ->
  forallb snd
    [("username", valid_username (doc_username d));
     ("email", valid_email (doc_email d));
     ("password", valid_password (doc_password d));
     ("role", valid_role (doc_role d))] = true
  /\ existsb (fun o => username o =? the (doc_username d)) all = false
  /\ existsb (fun o => email o =? the (doc_email d)) all = false.
Proof.
  unfold accepted. intros H.
  apply andb_prop in H as [H Hemail]. apply andb_prop in H as [H Hname].
  apply negb_true_iff in Hemail, Hname.
  split; [|now split]. simpl. now rewrite andb_true_r, !andb_assoc.
Qed.

Lemma save_new_accepted (d : Document) (env : Env) (w : World) :
  stored d = None ->
  accepted d (users w) = true ->
  save d env w
  = (Normal (created d env),
     set_users (users w ++ [created d env])
       (log bcrypt_hash_call (log save_call w))).
Proof.
  intros Hnew Hacc. apply accepted_true in Hacc as (V & Hname & Hemail).
  unfold save, bind at 1, called at 1.
  unfold bind at 1. rewrite (validate_pass _ _ V).
  unfold pre_save, isModified_password. rewrite Hnew. simpl negb.
  cbv iota. unfold bind, called, ret, get_users, put_users, unique_indexes.
  simpl. rewrite Hname, Hemail. reflexivity.
Qed.

Lemma save_new_refused (d : Document) (env : Env) (w : World) :
  stored d = None ->
  accepted d (users w) = false ->
  exists e w', save d env w = (Throw e, w') /\ users w' = users w.
Proof.
  intros Hnew Hacc.
  destruct (forallb snd
              [("username", valid_username (doc_username d));
               ("email", valid_email (doc_email d));
               ("password", valid_password (doc_password d));
               ("role", valid_role (doc_role d))]) eqn:V.
  - unfold save, bind at 1, called at 1. unfold bind at 1.
    rewrite (validate_pass _ _ V).
    unfold pre_save, isModified_password. rewrite Hnew. simpl negb.
    cbv iota. unfold bind, called, ret, get_users, put_users, unique_indexes,
      throw.
    simpl in V. rewrite andb_true_r, !andb_assoc in V.
    unfold accepted in Hacc. rewrite V in Hacc. simpl in Hacc. simpl.
    destruct (existsb (fun o => username o =? the (doc_username d)) (users w)).
    + eexists _, _. split; reflexivity.
    + simpl in Hacc. apply negb_false_iff in Hacc. rewrite Hacc.
      eexists _, _. split; reflexivity.
  - unfold save, bind at 1, called at 1. unfold bind at 1.
    destruct (validate_fail _ (log save_call w) V) as [paths ->].
    eexists _, _. split; reflexivity.
Qed.

(** The document [signup] builds from a request. *)
Definition signup_document (req : Request) (env : Env) : Document :=
  new_User (Body.username (body_of req)) (Body.email (body_of req))
    (Body.password (body_of req))
    (Some (userRole (or_else (Body.role (body_of req)) (JStr "user")))) env.

Lemma signup_created (req : Request) (env : Env) (w : World) :
  accepted (signup_document req env) (users w) = true ->
  exists u token w',
    app POST_signup req env w
    = (res_json 201
         (JObj [("success", JBool true);
                ("message", JStr "User registered successfully");
                ("user", summary u);
                ("token", JStr token)]), w')
    /\ u = created (signup_document req env) env
    /\ users w' = (users w ++ [u])%list.
Proof.
  intros Hacc. exists (created (signup_document req env) env).
  unfold app, chain, signup, try_catch. unfold bind at 1.
  fold (signup_document req env).
  rewrite (save_new_accepted (signup_document req env) env w eq_refl Hacc).
  unfold sign_token, bind, called, ret. simpl.
  eexists _, _. split; [reflexivity|]. split; reflexivity.
Qed.

Lemma signup_refused (req : Request) (env : Env) (w : World) :
  accepted (signup_document req env) (users w) = false ->
  exists e w',
    app POST_signup req env w
    = (res_json 400 (failure (error_message e)), w')
    /\ users w' = users w.
Proof.
  intros Hacc. unfold app, chain, signup, try_catch. unfold bind at 1.
  fold (signup_document req env).
  destruct (save_new_refused (signup_document req env) env w eq_refl Hacc)
    as (e & w' & -> & Hu).
  now exists e, w'.
Qed.

Lemma signup_201 (req : Request) (env : Env) (w : World) :
  status (fst (app POST_signup req env w)) = 201%nat ->
  accepted (signup_document req env) (users w) = true.
Proof.
  intros H. destruct (accepted _ _) eqn:A; [reflexivity|].
  destruct (signup_refused _ _ _ A) as (e & w' & E & _).
  rewrite E in H. discriminate.
Qed.

Lemma accepted_role (d : Document) (all : list User) :
  accepted d all = true -> valid_role (doc_role d) = true.
Proof.
  intros H. apply accepted_true in H as (V & _). simpl in V.
  rewrite andb_true_r in V.
  now repeat (apply andb_prop in V as [? V]).
Qed.

(** The role [signup] stores for a body whose role is absent or a
    string. *)
Lemma signup_role_of_string (v : option json) :
  v = None \/ (exists s, v = Some (JStr s)) ->
  let c := cast_String (userRole (or_else v (JStr "user"))) in
  valid_role c = true ->
  (cast_value c = Some "user" \/ cast_value c = Some "moderator")
  /\ (v <> Some (JStr "moderator") -> cast_value c = Some "user")
  /\ (v = Some (JStr "moderator") -> cast_value c = Some "moderator").
Proof.
  intros [-> | [s ->]]; cbn [or_else userRole].
  - cbn. intros _. split; [now left|]. split; [reflexivity | discriminate].
  - destruct (s =? "admin") eqn:E; cbn [cast_String cast_value valid_role].
    + intros _. split; [now left|]. split; [reflexivity|].
      intros [= ->]. discriminate.
    + unfold in_enum, when_present. intros H. apply includes_In in H.
      simpl in H. destruct H as [<- | [<- | [<- | []]]].
      * split; [now left|]. split; [reflexivity | discriminate].
      * discriminate.
      * split; [now right|]. split; [|reflexivity].
        intros H. now contradiction H.
Qed.

(** C4.  A signup that supplies role "admin" is not rejected for it: when
    the document with role "user" in its place passes the validators and
    the unique indexes, the answer is 201, one user is added to the
    collection, and that user's stored role, like the role in the
    response, is "user". *)
Theorem signup_admin_downgraded (req : Request) (env : Env) (w : World) :
  Body.role (body_of req) = Some (JStr "admin") ->
  accepted
    (new_User (Body.username (body_of req)) (Body.email (body_of req))
       (Body.password (body_of req)) (Some (JStr "user")) env) (users w)
  = true ->
  exists u,
    status (fst (app POST_signup req env w)) = 201%nat
    /\ users (snd (app POST_signup req env w)) = (users w ++ [u])%list
    /\ role u = Some "user"
    /\ role u <> Some "admin"
    /\ get "user" (body (fst (app POST_signup req env w)))
       = Some (summary u).
Proof.
  intros Hrole Hacc.
  assert (Hdoc : signup_document req env
                 = new_User (Body.username (body_of req))
                     (Body.email (body_of req))
                     (Body.password (body_of req)) (Some (JStr "user")) env).
  { unfold signup_document. now rewrite Hrole. }
  rewrite <- Hdoc in Hacc.
  destruct (signup_created _ _ _ Hacc) as (u & token & w' & -> & Hu & Hw').
  exists u. simpl. assert (Hr : role u = Some "user").
  { rewrite Hu, Hdoc. reflexivity. }
  repeat split; try assumption. rewrite Hr. discriminate.
Qed.

(** *** How a request can change the collection *)

(** What a route is registered for, as far as roles go. *)
Inductive Kind := Creates | ChangesRole | Other.

Definition kind_of (r : Route) : Kind :=
  match r with
  | POST_signup => Creates
  | PUT_admin_users_role => ChangesRole
  | _ => Other
  end.

(** The ways in which serving one request changes the collection: not at
    all; by a new document, on signup only, whose role has passed the
    enumeration's validator; by an update of one document that keeps its
    role; by an update that sets a role of the enumeration, on the role
    change only; by a removal. *)
Inductive effect (l : list User) : Kind -> list User -> Prop :=
| effect_none (k : Kind) : effect l k l
| effect_insert (u : User) :
    in_enum (role u) = true ->
    effect l Creates (l ++ [u])
| effect_update (k : Kind) (u u' : User) :
    by_id (_id u') l = Some u -> role u' = role u ->
    effect l k (replace u' l)
| effect_role (u u' : User) (r : string) :
    by_id (_id u') l = Some u -> role u' = Some r -> In r role_enum ->
    effect l ChangesRole (replace u' l)
| effect_delete (k : Kind) (id : string) : effect l k (without id l).

Lemma by_id_id (id : string) (l : list User) (u : User) :
  by_id id l = Some u -> _id u = id /\ In u l.
Proof.
  intros H. apply find_some in H as [Hin Heq].
  apply String.eqb_eq in Heq. now split.
Qed.

(** What [findByIdAndUpdate] leaves behind: the collection as it was, or
    the collection with the one document updated. *)
Lemma findByIdAndUpdate_cases (id : string) (upd : Update) (rv : bool)
  (w : World) (c : Completion (option User)) (w' : World) :
  findByIdAndUpdate id upd rv w = (c, w') ->
  (exists oid u,
      c = Normal (Some (apply_update upd u))
      /\ castObjectId id = Some oid
      /\ by_id oid (users w) = Some u
      /\ users w' = replace (apply_update upd u) (users w)
      /\ (rv = true -> in_enum (set_role upd) = true))
  \/ (users w' = users w /\ (c = Normal None \/ exists e, c = Throw e)).
Proof.
  unfold findByIdAndUpdate, bind at 1, called at 1.
  destruct (castObjectId id) as [oid|]; cbv beta iota.
  2:{ intros [= <- <-]. right. split; [reflexivity|]. right. now eexists. }
  unfold bind at 1.
  match goal with
  | |- context [validate ?checks] =>
      assert (V : (rv = true -> in_enum (set_role upd) = true)
                  /\ (if rv then validate checks else ret tt)
                       (log (findByIdAndUpdate_call id) w)
                     = (Normal tt, log (findByIdAndUpdate_call id) w)
                  \/ exists e,
                    (if rv then validate checks else ret tt)
                      (log (findByIdAndUpdate_call id) w)
                    = (Throw e, log (findByIdAndUpdate_call id) w));
      [ destruct rv;
        [ destruct (forallb snd checks) eqn:F;
          [ left; split; [|now apply validate_pass];
            intros _; cbn [forallb snd] in F; rewrite andb_true_r in F;
            repeat (apply andb_prop in F as [? F]); exact F
          | right;
            destruct (validate_fail checks
                        (log (findByIdAndUpdate_call id) w) F) as [p Hp];
            exists (ValidationError p); exact Hp ]
        | left; split; [discriminate | reflexivity] ] | ]
  end.
  destruct V as [[Hrole ->] | [e ->]].
  2:{ intros [= <- <-]. right. split; [reflexivity|]. right. now eexists. }
  unfold unique_indexes, bind, get_users, put_users, ret, throw.
  cbn [users log].
  destruct (by_id oid (users w)) as [u|] eqn:Hu.
  2:{ intros [= <- <-]. right. split; [reflexivity|]. now left. }
  destruct (existsb (fun o => username o =? _) _);
    [|destruct (existsb (fun o => email o =? _) _)];
    simpl; intros [= <- <-].
  - right. split; [reflexivity|]. right. now eexists.
  - right. split; [reflexivity|]. right. now eexists.
  - left. exists oid, u. now repeat split.
Qed.

Lemma findByIdAndDelete_users (id : string) (w : World) :
  users (snd (findByIdAndDelete id w)) = users w
  \/ exists oid,
      users (snd (findByIdAndDelete id w)) = without oid (users w).
Proof.
  unfold findByIdAndDelete, bind, called, get_users, put_users, ret, throw.
  simpl. destruct (castObjectId id) as [oid|]; [|now left].
  destruct (by_id oid _); simpl; [right; now exists oid | now left].
Qed.

Lemma findById_cases (id : string) (w : World) :
  exists c,
    findById id w = (c, log (findById_call id) w)
    /\ ((exists oid, c = Normal (by_id oid (users w)))
        \/ exists e, c = Throw e).
Proof.
  unfold findById, bind, called, get_users, ret, throw.
  destruct (castObjectId id) as [oid|]; simpl; eexists;
    split; try reflexivity.
  - left. now exists oid.
  - right. now eexists.
Qed.

(** What [save] leaves behind for a document read from the collection:
    the collection as it was, or that document replaced, its role and id
    kept. *)
Lemma save_stored_cases (u0 : User) (p : option string) (env : Env)
  (w : World) (c : Completion User) (w' : World) :
  save (assign_password (hydrate u0) p) env w = (c, w') ->
  (exists u,
      c = Normal u
      /\ _id u = _id u0 /\ role u = role u0
      /\ users w' = replace u (users w))
  \/ (users w' = users w /\ exists e, c = Throw e).
Proof.
  unfold save, bind at 1, called at 1. unfold bind at 1.
  match goal with
  | |- context [validate ?c ?w0] =>
      destruct (forallb snd c) eqn:F;
      [ rewrite (validate_pass c w0 F)
      | destruct (validate_fail c w0 F) as [paths ->] ]
  end.
  2:{ intros [= <- <-]. right. split; [reflexivity | now eexists]. }
  unfold pre_save, bind, called, get_users, put_users, ret.
  destruct (negb _); simpl; intros [= <- <-]; left; eexists;
    repeat split; reflexivity.
Qed.

(** A handler that changes the collection only in the ways of [effect]. *)
Definition confined (k : Kind) (h : Request -> Handler) : Prop :=
  forall req env w, effect (users w) k (users (snd (h req env w))).

Lemma confined_authenticate (k : Kind) (h : Request -> Handler) :
  confined k h -> confined k (fun req => authenticate req h).
Proof.
  intros H req env w. unfold authenticate.
  destruct (negb (JS.truthy (bearer req))); [constructor|].
  destruct (jwt_verify _ _ _); [|constructor].
  apply (H _ env (log _ w)).
Qed.

Lemma confined_authorize (k : Kind) (roles : list string)
  (h : Request -> Handler) :
  confined k h -> confined k (fun req => authorize roles req h).
Proof.
  intros H req env w. unfold authorize.
  destruct (user req); [|constructor].
  destruct (negb _); [constructor | apply H].
Qed.

Lemma confined_adminOnly (k : Kind) (h : Request -> Handler) :
  confined k h -> confined k (fun req => adminOnly req h).
Proof.
  intros H req env w. unfold adminOnly.
  destruct (user req); [|constructor].
  destruct (negb _); [constructor | apply H].
Qed.

Ltac break_atom :=
  match goal with
  | |- context [match ?x with _ => _ end] =>
      lazymatch x with
      | context [match _ with _ => _ end] => fail
      | _ => destruct x eqn:?
      end
  end.

Ltac run_handler :=
  unfold try_catch, findOne, findById, find_all, find_active,
    comparePassword, sign_token, req_userId, bind, called, get_users, ret,
    throw;
  repeat (simpl; break_atom); simpl.

Lemma confined_home k : confined k home.
Proof. intros req env w. constructor. Qed.

Lemma confined_admin_dashboard k : confined k admin_dashboard.
Proof. intros req env w. constructor. Qed.

Lemma confined_moderator_dashboard k : confined k moderator_dashboard.
Proof. intros req env w. constructor. Qed.

Lemma confined_login k : confined k login.
Proof. intros req env w. unfold login. run_handler; constructor. Qed.

Lemma confined_get_profile k : confined k get_profile.
Proof. intros req env w. unfold get_profile. run_handler; constructor. Qed.

Lemma confined_admin_users k : confined k admin_users.
Proof. intros req env w. unfold admin_users. run_handler; constructor. Qed.

Lemma confined_active_users k : confined k active_users.
Proof. intros req env w. unfold active_users. run_handler; constructor. Qed.

Lemma valid_role_in_enum (c : Casted) :
  valid_role c = true -> in_enum (cast_value c) = true.
Proof. destruct c; [discriminate | auto]. Qed.

Lemma confined_signup : confined Creates signup.
Proof.
  intros req env w.
  destruct (accepted (signup_document req env) (users w)) eqn:A.
  - destruct (signup_created _ _ _ A) as (u & token & w' & E & Hu & Hw).
    unfold app, chain in E. rewrite E. simpl. rewrite Hw.
    apply effect_insert. subst u.
    apply accepted_role in A. now apply valid_role_in_enum in A.
  - destruct (signup_refused _ _ _ A) as (e & w' & E & Hw).
    unfold app, chain in E. rewrite E. simpl. rewrite Hw. constructor.
Qed.

Lemma confined_delete_user k : confined k delete_user.
Proof.
  intros req env w. unfold delete_user, try_catch, bind at 1, req_userId.
  destruct (user req); [|constructor]. unfold ret at 1.
  destruct (_ =? _); [constructor|].
  unfold bind. pose proof (findByIdAndDelete_users (id_param req) w) as H.
  destruct (findByIdAndDelete (id_param req) w) as [[[u|]|e] w'];
    simpl in *; destruct H as [-> | [oid ->]]; constructor.
Qed.

Lemma effect_of_update (k : Kind) (id : string) (upd : Update) (rv : bool)
  (w : World) (c : Completion (option User)) (w' : World) :
  findByIdAndUpdate id upd rv w = (c, w') ->
  set_role upd = None \/
  (k = ChangesRole /\ rv = true /\ exists r, set_role upd = Some r) ->
  effect (users w) k (users w').
Proof.
  intros E Hrole.
  destruct (findByIdAndUpdate_cases _ _ _ _ _ _ E)
    as [(oid & u & -> & _ & Hu & -> & Hv) | [-> _]]; [|constructor].
  apply by_id_id in Hu as Hid. destruct Hid as [Hid _].
  destruct Hrole as [Hnone | (-> & -> & r & Hr)].
  - apply effect_update with u.
    + simpl. now rewrite Hid.
    + simpl. now rewrite Hnone.
  - apply effect_role with u r.
    + simpl. now rewrite Hid.
    + simpl. now rewrite Hr.
    + specialize (Hv eq_refl). rewrite Hr in Hv.
      now apply includes_In in Hv.
Qed.

Lemma confined_put_profile k : confined k put_profile.
Proof.
  intros req env w. unfold put_profile, try_catch, bind at 1, req_userId.
  destruct (user req); [|constructor]. unfold ret at 1. unfold bind.
  match goal with
  | |- context [findByIdAndUpdate ?i ?u ?v ?w0] =>
      destruct (findByIdAndUpdate i u v w0) as [c w'] eqn:E;
      apply effect_of_update with (k := k) in E; [|now left]
  end.
  destruct c; exact E.
Qed.

Lemma confined_update_status k : confined k update_status.
Proof.
  intros req env w. unfold update_status, try_catch, bind at 1, req_userId.
  destruct (user req); [|constructor]. unfold ret at 1.
  destruct (_ =? _); [constructor|]. unfold bind.
  match goal with
  | |- context [findByIdAndUpdate ?i ?u ?v ?w0] =>
      destruct (findByIdAndUpdate i u v w0) as [c w'] eqn:E;
      apply effect_of_update with (k := k) in E; [|now left]
  end.
  destruct c as [[u|]|e]; exact E.
Qed.

Lemma confined_update_role : confined ChangesRole update_role.
Proof.
  intros req env w. unfold update_role, try_catch, bind at 1, req_userId.
  destruct (user req); [|constructor]. unfold ret at 1.
  destruct (_ =? _); [constructor|].
  destruct (as_string (Body.role (body_of req))) as [r|] eqn:R;
    [|constructor].
  destruct (negb _); [constructor|]. unfold bind.
  match goal with
  | |- context [findByIdAndUpdate ?i ?u ?v ?w0] =>
      destruct (findByIdAndUpdate i u v w0) as [c w'] eqn:E;
      apply effect_of_update with (k := ChangesRole) in E
  end.
  - destruct c as [[u|]|e]; exact E.
  - right. repeat split. now exists r.
Qed.

Lemma confined_change_password k : confined k change_password.
Proof.
  intros req env w. unfold change_password, try_catch, bind at 1, req_userId.
  destruct (user req) as [identity|]; [|constructor]. unfold ret at 1.
  unfold bind at 1.
  destruct (findById_cases (Payload.userId identity) w)
    as (c & -> & [[oid ->] | [e ->]]); [|constructor].
  destruct (by_id _ _) as [u|] eqn:Hu; [|constructor].
  unfold comparePassword, bind at 1, bind at 1, called.
  destruct (Body.currentPassword _); [|constructor]. unfold ret at 1.
  destruct (negb _); [constructor|]. unfold bind.
  match goal with
  | |- context [save ?d ?e ?w0] => destruct (save d e w0) as [c w'] eqn:E
  end.
  apply save_stored_cases in E
    as [(u' & -> & Hid & Hrole & Hw) | [Hw [e ->]]]; simpl in *; rewrite Hw.
  - apply effect_update with u; [|exact Hrole].
    apply by_id_id in Hu as Hid'. destruct Hid' as [Hid' _].
    now rewrite Hid, Hid'.
  - constructor.
Qed.

(** Serving a request on any route changes the collection in one of the
    ways of [effect]. *)
Lemma app_effect (r : Route) (req : Request) (env : Env) (w : World) :
  effect (users w) (kind_of r) (users (snd (app r req env w))).
Proof.
  revert req env w. change (confined (kind_of r) (app r)).
  destruct r; simpl;
    repeat first [ apply confined_authenticate
                 | apply confined_authorize
                 | apply confined_adminOnly ];
    auto using confined_home, confined_signup, confined_login,
      confined_get_profile, confined_put_profile, confined_change_password,
      confined_admin_dashboard, confined_admin_users, confined_update_role,
      confined_update_status, confined_delete_user,
      confined_moderator_dashboard, confined_active_users.
Qed.

Lemma In_replace (u' x : User) (l : list User) :
  In x (replace u' l) -> x = u' \/ In x l.
Proof.
  unfold replace. intros H. apply in_map_iff in H as (o & Ho & Hin).
  destruct (_id o =? _id u'); [left | right]; congruence.
Qed.

Lemma In_without (id : string) (x : User) (l : list User) :
  In x (without id l) -> In x l.
Proof. unfold without. intros H. now apply filter_In in H. Qed.

(** A change that neither creates a user nor changes a role leaves every
    user with the role a user of the same id had. *)
Lemma effect_keeps_roles (l l' : list User) (k : Kind) :
  effect l k l' -> k = Other ->
  forall x, In x l' ->
            exists u, In u l /\ _id u = _id x /\ role u = role x.
Proof.
  intros E Hk x Hx.
  destruct E as [k | u Hu | k u u' Hby Hrole | u u' r Hby Hrole Hr | k id];
    try discriminate.
  - now exists x.
  - apply In_replace in Hx as [-> | Hx]; [|now exists x].
    apply by_id_id in Hby as [Hid Hin]. now exists u.
  - apply In_without in Hx. now exists x.
Qed.

(** C5 (as amended).  When the body of a successful signup supplies no
    role or a string as role, the user created has the role the body asked
    for, with "admin" replaced by "user" and "user" for a body without
    role: that is "user", or "moderator" when the body asked for
    "moderator", and never "admin".  On every route but the admin role
    change, each user of the collection afterwards either has the role a
    user of the same id had before, or is the user a signup has just
    created, whose role is then as said. *)
Theorem signup_role_assigned :
  (forall req env w,
      status (fst (app POST_signup req env w)) = 201%nat ->
      Body.role (body_of req) = None
      \/ (exists s, Body.role (body_of req) = Some (JStr s)) ->
      exists u,
        users (snd (app POST_signup req env w)) = (users w ++ [u])%list
        /\ (role u = Some "user" \/ role u = Some "moderator")
        /\ role u <> Some "admin"
        /\ (Body.role (body_of req) <> Some (JStr "moderator") ->
            role u = Some "user")
        /\ (Body.role (body_of req) = Some (JStr "moderator") ->
            role u = Some "moderator"))
  /\ (forall r req env w x,
        r <> PUT_admin_users_role ->
        In x (users (snd (app r req env w))) ->
        (exists u, In u (users w) /\ _id u = _id x /\ role u = role x)
        \/ (r = POST_signup
            /\ users (snd (app r req env w)) = (users w ++ [x])%list
            /\ (Body.role (body_of req) = None
                \/ (exists s, Body.role (body_of req) = Some (JStr s)) ->
                role x = Some "user" \/ role x = Some "moderator"))).
Proof.
  assert (created_role : forall req env w,
             accepted (signup_document req env) (users w) = true ->
             Body.role (body_of req) = None
             \/ (exists s, Body.role (body_of req) = Some (JStr s)) ->
             let u := created (signup_document req env) env in
             (role u = Some "user" \/ role u = Some "moderator")
             /\ (Body.role (body_of req) <> Some (JStr "moderator") ->
                 role u = Some "user")
             /\ (Body.role (body_of req) = Some (JStr "moderator") ->
                 role u = Some "moderator")).
  { intros req env w A Hb u. apply accepted_role in A.
    exact (signup_role_of_string (Body.role (body_of req)) Hb A). }
  split.
  - intros req env w H Hb. apply signup_201 in H.
    destruct (signup_created _ _ _ H) as (u & token & w' & E & Hu & Hw).
    exists u. rewrite E. simpl snd. subst u.
    destruct (created_role req env w H Hb) as (Hum & Hne & Hm).
    split; [exact Hw|]. split; [exact Hum|]. split; [|now split].
    destruct Hum as [-> | ->]; discriminate.
  - intros r req env w x Hr Hx.
    destruct (kind_of r) eqn:K.
    + assert (r = POST_signup) as -> by (destruct r; now try discriminate).
      destruct (accepted (signup_document req env) (users w)) eqn:A.
      * destruct (signup_created _ _ _ A) as (u & token & w' & E & Hu & Hw).
        rewrite E in Hx |- *. simpl snd in *. rewrite Hw in Hx |- *.
        apply in_app_or in Hx as [Hx | [<- | []]]; [left; now exists x|].
        right. split; [reflexivity|]. split; [reflexivity|].
        intros Hb. subst u. now apply (created_role req env w A Hb).
      * destruct (signup_refused _ _ _ A) as (e & w' & E & Hw).
        rewrite E in Hx. simpl snd in Hx. rewrite Hw in Hx.
        left. now exists x.
    + destruct r; try discriminate. now contradiction Hr.
    + left. pose proof (app_effect r req env w) as E. rewrite K in E.
      exact (effect_keeps_roles _ _ _ E eq_refl x Hx).
Qed.

(** *** Views *)

(** No object in the body of any response of [h] has a field
    [password]. *)
Definition hides_password (h : Request -> Handler) : Prop :=
  forall req env w, has_field "password" (body (fst (h req env w))) = false.

Lemma hides_authenticate (h : Request -> Handler) :
  hides_password h -> hides_password (fun req => authenticate req h).
Proof.
  intros H req env w. unfold authenticate.
  destruct (negb (JS.truthy (bearer req))); [reflexivity|].
  destruct (jwt_verify _ _ _); [apply H | reflexivity].
Qed.

Lemma hides_authorize (roles : list string) (h : Request -> Handler) :
  hides_password h -> hides_password (fun req => authorize roles req h).
Proof.
  intros H req env w. unfold authorize.
  destruct (user req); [|reflexivity].
  destruct (negb _); [reflexivity | apply H].
Qed.

Lemma hides_adminOnly (h : Request -> Handler) :
  hides_password h -> hides_password (fun req => adminOnly req h).
Proof.
  intros H req env w. unfold adminOnly.
  destruct (user req); [|reflexivity].
  destruct (negb _); [reflexivity | apply H].
Qed.

(** The projection [.select('-password')] leaves no field [password]. *)
Lemma select_without_password (u : User) :
  has_field "password" (select_without "password" u) = false.
Proof. unfold select_without. simpl. now destruct (role u). Qed.

Lemma select_without_password_all (l : list User) :
  existsb (has_field "password") (map (select_without "password") l) = false.
Proof.
  induction l as [|u l IH]; [reflexivity|].
  cbn [map existsb]. now rewrite select_without_password, IH.
Qed.

Lemma summary_without_password (u : User) :
  has_field "password" (summary u) = false.
Proof. unfold summary. simpl. now destruct (role u). Qed.

Lemma payload_without_password (p : Payload.t) :
  has_field "password" (payload_json p) = false.
Proof.
  unfold payload_json, claim.
  destruct (Payload.role p), (Payload.iat p), (Payload.exp p); reflexivity.
Qed.

Ltac run_view :=
  unfold nullable;
  run_handler;
  rewrite ?select_without_password_all, ?select_without_password,
    ?summary_without_password, ?payload_without_password;
  try reflexivity.

Lemma hides_home : hides_password home.
Proof. intros req env w. reflexivity. Qed.

Lemma hides_admin_dashboard : hides_password admin_dashboard.
Proof.
  intros req env w. unfold admin_dashboard. cbn [fst body res_json].
  destruct (user req) as [p|]; cbn [nullable]; [|reflexivity].
  cbn [has_field existsb]. now rewrite payload_without_password.
Qed.

Lemma hides_moderator_dashboard : hides_password moderator_dashboard.
Proof.
  intros req env w. unfold moderator_dashboard. cbn [fst body res_json].
  destruct (user req) as [p|]; cbn [nullable]; [|reflexivity].
  cbn [has_field existsb]. now rewrite payload_without_password.
Qed.

Lemma hides_login : hides_password login.
Proof.
  intros req env w. unfold login.
  unfold try_catch, findOne, comparePassword, sign_token, bind, called,
    get_users, ret, throw.
  repeat (cbn [fst snd body res_json]; break_atom);
    cbn [fst snd body res_json]; try reflexivity;
    cbn [has_field failure existsb]; rewrite ?summary_without_password;
    reflexivity.
Qed.

Lemma hides_get_profile : hides_password get_profile.
Proof.
  intros req env w. unfold get_profile, nullable.
  unfold try_catch, findById, req_userId, bind, called, get_users, ret,
    throw.
  repeat (cbn [fst snd body res_json]; break_atom);
    cbn [fst snd body res_json]; try reflexivity;
    cbn [has_field failure existsb]; rewrite ?select_without_password;
    reflexivity.
Qed.

Lemma hides_admin_users : hides_password admin_users.
Proof. intros req env w. unfold admin_users. run_view. Qed.

Lemma hides_active_users : hides_password active_users.
Proof. intros req env w. unfold active_users. run_view. Qed.

Lemma hides_signup : hides_password signup.
Proof.
  intros req env w. unfold signup, try_catch, sign_token, bind, called, ret.
  destruct (save _ env w) as [[u|e] w']; cbn [fst snd body res_json];
    [|reflexivity].
  cbn [has_field existsb]. now rewrite summary_without_password.
Qed.

Lemma hides_put_profile : hides_password put_profile.
Proof.
  intros req env w. unfold put_profile, try_catch, req_userId, bind, ret,
    throw.
  destruct (user req); [|reflexivity].
  destruct (findByIdAndUpdate _ _ _ w) as [[[u|]|e] w'];
    cbn [fst snd body res_json nullable]; try reflexivity.
  cbn [has_field existsb]. now rewrite select_without_password.
Qed.

Lemma hides_change_password : hides_password change_password.
Proof.
  intros req env w. unfold change_password, try_catch, req_userId, bind, ret,
    throw.
  destruct (user req); [|reflexivity].
  destruct (findById _ w) as [[[u|]|e] w']; try reflexivity.
  destruct (comparePassword _ _ w') as [[[|]|e] w'']; try reflexivity.
  cbn [negb]. now destruct (save _ env w'') as [[u'|e] w3].
Qed.

Lemma hides_update_role : hides_password update_role.
Proof.
  intros req env w. unfold update_role, try_catch, req_userId, bind, ret,
    throw.
  destruct (user req); [|reflexivity].
  destruct (_ =? _); [reflexivity|].
  destruct (negb _); [reflexivity|].
  destruct (findByIdAndUpdate _ _ _ w) as [[[u|]|e] w'];
    cbn [fst snd body res_json]; try reflexivity.
  cbn [has_field existsb]. now rewrite select_without_password.
Qed.

Lemma hides_update_status : hides_password update_status.
Proof.
  intros req env w. unfold update_status, try_catch, req_userId, bind, ret,
    throw.
  destruct (user req); [|reflexivity].
  destruct (_ =? _); [reflexivity|].
  destruct (findByIdAndUpdate _ _ _ w) as [[[u|]|e] w'];
    cbn [fst snd body res_json]; try reflexivity.
  cbn [has_field existsb]. now rewrite select_without_password.
Qed.

Lemma hides_delete_user : hides_password delete_user.
Proof.
  intros req env w. unfold delete_user, try_catch, req_userId, bind, ret,
    throw.
  destruct (user req); [|reflexivity].
  destruct (_ =? _); [reflexivity|].
  now destruct (findByIdAndDelete _ w) as [[[u|]|e] w'].
Qed.

(** C8.  On every route, whatever the request and the world, no object
    in the response body, at any depth, has a field [password]: not the
    user of signup, login, profile, profile update, role change and status
    toggle, nor any user of the two lists. *)
Theorem responses_hide_password (r : Route) (req : Request) (env : Env)
  (w : World) :
  has_field "password" (body (fst (app r req env w))) = false.
Proof.
  revert req env w. change (hides_password (app r)).
  destruct r; simpl;
    repeat first [ apply hides_authenticate
                 | apply hides_authorize
                 | apply hides_adminOnly ];
    auto using hides_home, hides_signup, hides_login, hides_get_profile,
      hides_put_profile, hides_change_password, hides_admin_dashboard,
      hides_admin_users, hides_update_role, hides_update_status,
      hides_delete_user, hides_moderator_dashboard, hides_active_users.
Qed.


(** ** Further properties of the application *)

(** *** The gate and the policies on the routes *)

Lemma authenticate_no_token (req : Request) (next : Request -> Handler)
  (env : Env) (w : World) :
  bearer req = None \/ bearer req = Some "" ->
  authenticate req next env w
  = (res_json 401 (failure "Access denied. No token provided."), w).
Proof. intros [H | H]; unfold authenticate; now rewrite H. Qed.

Lemma authenticate_refused (req : Request) (next : Request -> Handler)
  (env : Env) (w : World) (token : string) :
  presents req token ->
  jwt_verify token JWT_SECRET (now env) = None ->
  authenticate req next env w
  = (res_json 403 (failure "Invalid or expired token."),
     log (jwt_verify_call token) w).
Proof.
  intros Hp Hv. apply presents_truthy in Hp as [Ht Hthe].
  unfold authenticate. now rewrite Ht, Hthe, Hv.
Qed.

Lemma authorize_refuses (roles : list string) (req : Request)
  (next : Request -> Handler) (env : Env) (w : World)
  (identity : Payload.t) :
  user req = Some identity ->
  ~ role_among roles identity ->
  authorize roles req next env w
  = (res_json 403
       (failure ("Access denied. Required role: " ++ JS.join " or " roles)),
     w).
Proof.
  intros Hu Hn. unfold authorize.
  now rewrite Hu, (includes_value_not_among _ _ Hn).
Qed.

Lemma adminOnly_refuses (req : Request) (next : Request -> Handler)
  (env : Env) (w : World) (identity : Payload.t) :
  user req = Some identity ->
  Payload.role identity <> Some "admin" ->
  adminOnly req next env w
  = (res_json 403 (failure "Access denied. Admin role required."), w).
Proof.
  intros Hu Hr. unfold adminOnly. rewrite Hu.
  now rewrite (is_string_other _ _ Hr).
Qed.

Lemma quiet_verify (w : World) (token : string) :
  repository_untouched w (log (jwt_verify_call token) w).
Proof.
  split; [reflexivity|]. exists [jwt_verify_call token]. now split.
Qed.

(** X1.  The admin-only middleware answers 401 when no identity is
    attached, 403 "Access denied. Admin role required." when the
    identity's role is not admin, and otherwise runs [next] on the same
    request and world.  On [GET /admin] a verified token therefore gets
    either that 403 or the dashboard, which carries the decoded token,
    with the claims jsonwebtoken added, under [admin]; in both cases only
    [jwt.verify] was called. *)
Theorem adminOnly_policy (req : Request) (next : Request -> Handler)
  (env : Env) (w : World) :
  (user req = None ->
   adminOnly req next env w
   = (res_json 401 (failure "User not authenticated."), w))
  /\ (forall identity,
        user req = Some identity ->
        Payload.role identity <> Some "admin" ->
        adminOnly req next env w
        = (res_json 403 (failure "Access denied. Admin role required."), w))
  /\ (forall identity,
        user req = Some identity ->
        Payload.role identity = Some "admin" ->
        adminOnly req next env w = next req env w)
  /\ (forall token identity,
        authenticated_as req env token identity ->
        (Payload.role identity <> Some "admin" ->
         app GET_admin req env w
         = (res_json 403 (failure "Access denied. Admin role required."),
            log (jwt_verify_call token) w))
        /\ (Payload.role identity = Some "admin" ->
            snd (app GET_admin req env w) = log (jwt_verify_call token) w
            /\ status (fst (app GET_admin req env w)) = 200%nat
            /\ get "admin" (body (fst (app GET_admin req env w)))
               = Some (payload_json identity))).
Proof.
  split; [|split; [|split]].
  - intros H. unfold adminOnly. now rewrite H.
  - intros identity Hu Hr. now apply adminOnly_refuses with identity.
  - intros identity Hu Hr. unfold adminOnly. rewrite Hu, Hr. reflexivity.
  - intros token identity Ha. simpl.
    rewrite (authenticate_pass _ _ _ _ _ _ Ha). unfold adminOnly.
    cbn [user set_user].
    split; intros Hr.
    + now rewrite (is_string_other _ _ Hr).
    + rewrite Hr. cbn [is_string negb]. rewrite String.eqb_refl.
      cbn [negb]. repeat split.
Qed.

(** The routes registered with [authenticate]. *)
Definition protected (r : Route) : bool :=
  match r with
  | GET_home | POST_signup | POST_login => false
  | _ => true
  end.

(** X2.  Every route registered with [authenticate] (all but the home
    page, signup and login) answers a request without token 401 and a
    request whose token [jwt.verify] refuses 403; in the first case
    nothing at all was called, in the second only [jwt.verify], and the
    collection is as it was. *)
Theorem protected_routes_need_a_token (r : Route) (req : Request)
  (env : Env) (w : World) :
  protected r = true ->
  (bearer req = None \/ bearer req = Some "" ->
   app r req env w
   = (res_json 401 (failure "Access denied. No token provided."), w))
  /\ (forall token,
        presents req token ->
        jwt_verify token JWT_SECRET (now env) = None ->
        app r req env w
        = (res_json 403 (failure "Invalid or expired token."),
           log (jwt_verify_call token) w)
        /\ repository_untouched w (snd (app r req env w))).
Proof.
  intros Hp.
  destruct r; try discriminate Hp; simpl;
    (split;
     [ intros H; now apply authenticate_no_token
     | intros token Hpr Hv; rewrite (authenticate_refused _ _ _ _ _ Hpr Hv);
       split; [reflexivity | apply quiet_verify] ]).
Qed.

(** The routes registered with [adminOnly] or [authorize('admin')], and
    those registered with [authorize('moderator', 'admin')]. *)
Definition admin_routes : list Route :=
  [GET_admin; GET_admin_users; PUT_admin_users_role;
   PUT_admin_users_status; DELETE_admin_users].
Definition moderator_routes : list Route :=
  [GET_moderator; GET_moderator_users_active].

(** X3.  A verified token whose role is not admin is answered 403 on
    every admin route, and one whose role is neither moderator nor admin is
    answered 403 on every moderator route; the handler never runs: only
    [jwt.verify] was called and the collection is as it was. *)
Theorem roles_lock_the_routes (req : Request) (env : Env) (w : World)
  (token : string) (identity : Payload.t) :
  authenticated_as req env token identity ->
  Payload.role identity <> Some "admin" ->
  (forall r, In r admin_routes ->
             status (fst (app r req env w)) = 403%nat
             /\ snd (app r req env w) = log (jwt_verify_call token) w)
  /\ (Payload.role identity <> Some "moderator" ->
      forall r, In r moderator_routes ->
                status (fst (app r req env w)) = 403%nat
                /\ snd (app r req env w) = log (jwt_verify_call token) w).
Proof.
  intros Ha Hadmin.
  assert (Hn1 : ~ role_among ["admin"] identity).
  { intros (r & Hr & [<- | []]). now apply Hadmin. }
  split.
  - intros r Hr. unfold admin_routes in Hr. simpl in Hr.
    destruct Hr as [<- | [<- | [<- | [<- | [<- | []]]]]]; simpl;
      rewrite (authenticate_pass _ _ _ _ _ _ Ha);
      first [ rewrite (adminOnly_refuses (set_user req identity) _ env _
                         identity eq_refl Hadmin)
            | rewrite (authorize_refuses _ (set_user req identity) _ env _
                         identity eq_refl Hn1) ];
      now split.
  - intros Hmod r Hr.
    assert (Hn2 : ~ role_among ["moderator"; "admin"] identity).
    { intros (x & Hx & [<- | [<- | []]]);
        [now apply Hmod | now apply Hadmin]. }
    unfold moderator_routes in Hr. simpl in Hr.
    destruct Hr as [<- | [<- | []]]; simpl;
      rewrite (authenticate_pass _ _ _ _ _ _ Ha);
      rewrite (authorize_refuses _ (set_user req identity) _ env _ identity
                 eq_refl Hn2);
      now split.
Qed.

(** *** Unique ids, usernames and emails *)

Lemma existsb_eqb_false (f : User -> string) (s : string) (l : list User) :
  existsb (fun o => f o =? s) l = false <-> ~ In s (map f l).
Proof.
  split.
  - intros H Hin. apply in_map_iff in Hin as (o & Ho & Hin).
    assert (E : existsb (fun o => f o =? s) l = true).
    { apply existsb_exists. exists o. split; [exact Hin|].
      rewrite Ho. apply String.eqb_refl. }
    congruence.
  - intros H. destruct (existsb _ l) eqn:E; [|reflexivity].
    apply existsb_exists in E as (o & Hin & Ho).
    apply String.eqb_eq in Ho. exfalso. apply H. rewrite <- Ho.
    now apply in_map.
Qed.

Lemma map_id_replace (u' : User) (l : list User) :
  map _id (replace u' l) = map _id l.
Proof.
  unfold replace. induction l as [|o l IH]; [reflexivity|]. simpl.
  rewrite IH. destruct (String.eqb_spec (_id o) (_id u')) as [E|_];
    [now rewrite E | reflexivity].
Qed.

Lemma replace_absent (u' : User) (l : list User) :
  ~ In (_id u') (map _id l) -> replace u' l = l.
Proof.
  unfold replace. induction l as [|o l IH]; [reflexivity|]. simpl.
  intros H. rewrite IH by tauto.
  destruct (String.eqb_spec (_id o) (_id u')) as [E|_]; [|reflexivity].
  exfalso. apply H. now left.
Qed.

Lemma without_absent (id : string) (l : list User) :
  ~ In id (map _id l) -> without id l = l.
Proof.
  unfold without. induction l as [|o l IH]; [reflexivity|]. simpl.
  intros H. rewrite IH by tauto.
  destruct (String.eqb_spec (_id o) id) as [E|_]; [|reflexivity].
  exfalso. apply H. now left.
Qed.

Lemma In_replace_cases (u' x : User) (l : list User) :
  In x (replace u' l) -> x = u' \/ (In x l /\ _id x <> _id u').
Proof.
  unfold replace. intros H. apply in_map_iff in H as (o & Ho & Hin).
  destruct (String.eqb_spec (_id o) (_id u')) as [E|N].
  - left. congruence.
  - right. subst x. now split.
Qed.

Lemma In_without_iff (id : string) (x : User) (l : list User) :
  In x (without id l) <-> In x l /\ _id x <> id.
Proof.
  unfold without. rewrite filter_In. split; intros [H1 H2]; split; auto.
  - intros E. rewrite E, String.eqb_refl in H2. discriminate.
  - now apply negb_true_iff, String.eqb_neq.
Qed.

Lemma NoDup_map_without (f : User -> string) (id : string)
  (l : list User) :
  NoDup (map f l) -> NoDup (map f (without id l)).
Proof.
  unfold without. induction l as [|o l IH]; [constructor|]. simpl.
  intros H. inversion H as [|? ? Hnot Hrest]. subst.
  destruct (negb (_id o =? id)); [|now apply IH].
  simpl. constructor; [|now apply IH].
  intros Hin. apply Hnot. apply in_map_iff in Hin as (x & Hx & Hin).
  apply filter_In in Hin as [Hin _]. rewrite <- Hx. now apply in_map.
Qed.

Lemma NoDup_map_replace (f : User -> string) (u' : User) (l : list User) :
  NoDup (map _id l) ->
  NoDup (map f l) ->
  ~ In (f u') (map f (without (_id u') l)) ->
  NoDup (map f (replace u' l)).
Proof.
  induction l as [|o l IH]; [constructor|].
  intros Hid Hf Hnew. inversion Hid as [|? ? Hid1 Hid2].
  inversion Hf as [|? ? Hf1 Hf2]. subst.
  unfold replace, without in *. simpl in *.
  destruct (String.eqb_spec (_id o) (_id u')) as [E|N]; simpl in *.
  - rewrite E in Hid1.
    change (map (fun o0 => if _id o0 =? _id u' then u' else o0) l)
      with (replace u' l).
    rewrite (replace_absent _ _ Hid1).
    change (filter (fun o0 => negb (_id o0 =? _id u')) l)
      with (without (_id u') l) in Hnew.
    rewrite (without_absent _ _ Hid1) in Hnew.
    now constructor.
  - constructor.
    + intros Hin. apply in_map_iff in Hin as (x & Hx & Hin).
      apply in_map_iff in Hin as (y & Hy & Hin).
      destruct (_id y =? _id u'); subst x.
      * apply Hnew. now left.
      * apply Hf1. rewrite <- Hx. now apply in_map.
    + apply IH; try assumption. intros Hin. apply Hnew. now right.
Qed.

Lemma NoDup_map_In_eq (f : User -> string) (l : list User) (a b : User) :
  NoDup (map f l) -> In a l -> In b l -> f a = f b -> a = b.
Proof.
  induction l as [|o l IH]; [intros _ []|].
  simpl. intros H. inversion H as [|? ? Hnot Hrest]. subst.
  intros [-> | Ha] [-> | Hb] E; auto.
  - exfalso. apply Hnot. rewrite E. now apply in_map.
  - exfalso. apply Hnot. rewrite <- E. now apply in_map.
Qed.

(** No two users share an id, a username or an email. *)
Definition distinct (l : list User) : Prop :=
  NoDup (map _id l) /\ NoDup (map username l) /\ NoDup (map email l).

(** In a collection without duplicates, the documents other than [u]
    have neither its username nor its email. *)
Lemma others_differ (f : User -> string) (l : list User) (u : User) :
  NoDup (map _id l) -> NoDup (map f l) -> In u l ->
  ~ In (f u) (map f (without (_id u) l)).
Proof.
  intros Hid Hf Hu Hin. apply in_map_iff in Hin as (o & Ho & Hin).
  apply In_without_iff in Hin as [Hin Hne].
  apply Hne. f_equal. now apply (NoDup_map_In_eq f l).
Qed.

(** *** The writes, as equations *)

Lemma validate_eq (checks : list (string * bool)) (w : World) :
  validate checks w
  = if forallb snd checks then (Normal tt, w)
    else (Throw (ValidationError (failing checks)), w).
Proof.
  destruct (forallb snd checks) eqn:F; [now apply validate_pass|].
  destruct (validate_fail checks w F) as [paths H]. rewrite H.
  unfold validate, ret, throw in H. destruct (failing checks); congruence.
Qed.

(** The validators [save] runs on a document. *)
Definition document_checks (d : Document) : list (string * bool) :=
  [("username", valid_username (doc_username d));
   ("email", valid_email (doc_email d));
   ("password", valid_password (doc_password d));
   ("role", valid_role (doc_role d))].

(** [save] of a new document: validation, then hashing, then the unique
    indexes, then the insert. *)
Lemma save_new_eq (d : Document) (env : Env) (w : World) :
  stored d = None ->
  save d env w
  = if forallb snd (document_checks d)
    then
      let w2 := log bcrypt_hash_call (log save_call w) in
      if existsb (fun o => username o =? the (doc_username d)) (users w)
      then (Throw (DuplicateKeyError "username"), w2)
      else if existsb (fun o => email o =? the (doc_email d)) (users w)
      then (Throw (DuplicateKeyError "email"), w2)
      else (Normal (created d env),
            set_users (users w ++ [created d env]) w2)
    else (Throw (ValidationError (failing (document_checks d))),
          log save_call w).
Proof.
  intros Hnew. unfold save, bind at 1, called at 1. unfold bind at 1.
  fold (document_checks d). rewrite validate_eq.
  destruct (forallb snd (document_checks d)); [|reflexivity].
  unfold pre_save, isModified_password. rewrite Hnew. cbn [negb].
  cbv iota. unfold unique_indexes, bind, called, ret, get_users, put_users,
    throw, created.
  simpl. repeat break_atom; reflexivity.
Qed.

(** [save] of a document read from the collection whose password was
    assigned: validation, then hashing when the password differs from
    the stored one, then the update. *)
Lemma save_stored_eq (u0 : User) (p : option string) (env : Env)
  (w : World) :
  let d := assign_password (hydrate u0) p in
  save d env w
  = if forallb snd (document_checks d)
    then
      if isModified_password d
      then
        let u := to_User (assign_password d
                            (Some (bcrypt_hash (the p) (salt env)))) in
        (Normal u,
         set_users (replace u (users w))
           (log bcrypt_hash_call (log save_call w)))
      else (Normal (to_User d),
            set_users (replace (to_User d) (users w)) (log save_call w))
    else (Throw (ValidationError (failing (document_checks d))),
          log save_call w).
Proof.
  intros d. unfold save, bind at 1, called at 1. unfold bind at 1.
  fold (document_checks d). rewrite validate_eq.
  destruct (forallb snd (document_checks d)); [|reflexivity].
  unfold pre_save. destruct (isModified_password d); reflexivity.
Qed.

(** The validators [findByIdAndUpdate] runs with [runValidators]. *)
Definition update_checks (upd : Update) : list (string * bool) :=
  [("username",
    present (set_username upd)
      (fun v => valid_username (option_map trim v)));
   ("email",
    present (set_email upd)
      (fun v => valid_email (option_map toLowerCase v)));
   ("role", in_enum (set_role upd))].

(** [findByIdAndUpdate] once the id is cast: the validators, then the
    lookup, then the unique indexes, then the update. *)
Definition update_by_oid (id oid : string) (upd : Update) (rv : bool)
  (w : World) : Completion (option User) * World :=
  let w1 := log (findByIdAndUpdate_call id) w in
  if rv && negb (forallb snd (update_checks upd))
  then (Throw (ValidationError (failing (update_checks upd))), w1)
  else
    match by_id oid (users w) with
    | None => (Normal None, w1)
    | Some u =>
        let u' := apply_update upd u in
        if existsb (fun o => username o =? username u')
             (without oid (users w))
        then (Throw (DuplicateKeyError "username"), w1)
        else if existsb (fun o => email o =? email u')
                  (without oid (users w))
        then (Throw (DuplicateKeyError "email"), w1)
        else (Normal (Some u'), set_users (replace u' (users w)) w1)
    end.

(** [findByIdAndUpdate]: the cast of the id, then the rest. *)
Lemma findByIdAndUpdate_eq (id : string) (upd : Update) (rv : bool)
  (w : World) :
  findByIdAndUpdate id upd rv w
  = match castObjectId id with
    | None => (Throw (CastError "_id"), log (findByIdAndUpdate_call id) w)
    | Some oid => update_by_oid id oid upd rv w
    end.
Proof.
  unfold findByIdAndUpdate, update_by_oid, bind at 1, called at 1.
  destruct (castObjectId id) as [oid|]; cbv beta iota zeta;
    [|reflexivity].
  unfold bind at 1. fold (update_checks upd).
  assert (V : (if rv then validate (update_checks upd) else ret tt)
                (log (findByIdAndUpdate_call id) w)
              = if rv && negb (forallb snd (update_checks upd))
                then (Throw (ValidationError (failing (update_checks upd))),
                      log (findByIdAndUpdate_call id) w)
                else (Normal tt, log (findByIdAndUpdate_call id) w)).
  { destruct rv; [|reflexivity]. rewrite validate_eq.
    now destruct (forallb snd (update_checks upd)). }
  rewrite V. destruct (rv && negb _); [reflexivity|].
  unfold unique_indexes, bind, get_users, put_users, ret, throw.
  cbn [users log].
  destruct (by_id oid (users w)); [|reflexivity].
  repeat break_atom; reflexivity.
Qed.

(** [findByIdAndDelete], likewise. *)
Lemma findByIdAndDelete_eq (id : string) (w : World) :
  findByIdAndDelete id w
  = let w1 := log (findByIdAndDelete_call id) w in
    match castObjectId id with
    | None => (Throw (CastError "_id"), w1)
    | Some oid =>
        match by_id oid (users w) with
        | None => (Normal None, w1)
        | Some u => (Normal (Some u), set_users (without oid (users w)) w1)
        end
    end.
Proof.
  unfold findByIdAndDelete, bind, called, get_users, put_users, ret, throw.
  cbn [users log fst snd]. cbv beta iota zeta.
  destruct (castObjectId id) as [oid|]; [|reflexivity].
  change (users (log (findByIdAndDelete_call id) w)) with (users w).
  now destruct (by_id oid (users w)).
Qed.

(** [findById], likewise. *)
Lemma findById_eq (id : string) (w : World) :
  findById id w
  = let w1 := log (findById_call id) w in
    match castObjectId id with
    | None => (Throw (CastError "_id"), w1)
    | Some oid => (Normal (by_id oid (users w)), w1)
    end.
Proof.
  unfold findById, bind, called, get_users, ret, throw.
  simpl. now destruct (castObjectId id).
Qed.

(** *** Signup and login *)

(** The token [signup] and [login] issue for a user. *)
Definition token_for (u : User) (env : Env) : string :=
  jwt_sign (identity_of u) JWT_SECRET "24h" (now env).

Lemma signup_eq (req : Request) (env : Env) (w : World) :
  app POST_signup req env w
  = match save (signup_document req env) env w with
    | (Normal u, w1) =>
        (res_json 201
           (JObj [("success", JBool true);
                  ("message", JStr "User registered successfully");
                  ("user", summary u);
                  ("token", JStr (token_for u env))]),
         log (jwt_sign_call (identity_of u)) w1)
    | (Throw e, w1) => (res_json 400 (failure (error_message e)), w1)
    end.
Proof.
  unfold app, chain, signup, try_catch. unfold bind at 1.
  fold (signup_document req env).
  destruct (save (signup_document req env) env w) as [[u|e] w1];
    reflexivity.
Qed.

Lemma failing_nil (checks : list (string * bool)) :
  failing checks = [] -> forallb snd checks = true.
Proof.
  unfold failing. induction checks as [|c l IH]; [reflexivity|].
  simpl. destruct (snd c); simpl; [exact IH | discriminate].
Qed.

(** X4.  A signup whose input fails a validator of the schema (username
    missing or blank once trimmed, email missing or not of the pattern,
    password missing or shorter than 6 characters, role outside the
    enumeration) is answered 400 with the message of the validation
    error, which names a failing path.  Validation comes before the
    pre-save hook: the only call made is [save], nothing is hashed, no
    token is signed and the collection is unchanged. *)
Theorem signup_validates_first (req : Request) (env : Env) (w : World) :
  let b := body_of req in
  valid_username (option_map trim (Body.username b)) = false
  \/ valid_email (option_map toLowerCase (Body.email b)) = false
  \/ valid_password (Body.password b) = false
  \/ valid_role
       (cast_String (userRole (or_else (Body.role b) (JStr "user"))))
     = false ->
  exists paths,
    paths <> []
    /\ app POST_signup req env w
       = (res_json 400 (failure (error_message (ValidationError paths))),
          log save_call w)
    /\ users (snd (app POST_signup req env w)) = users w
    /\ made w (snd (app POST_signup req env w)) [save_call].
Proof.
  intros b H.
  assert (F : forallb snd (document_checks (signup_document req env))
              = false).
  { unfold document_checks, signup_document, new_User.
    cbn [forallb snd doc_username doc_email doc_password doc_role].
    fold b. destruct H as [H | [H | [H | H]]]; rewrite H;
      rewrite ?andb_false_r; reflexivity. }
  assert (E : app POST_signup req env w
              = (res_json 400
                   (failure (error_message
                      (ValidationError
                         (failing (document_checks
                                     (signup_document req env)))))),
                 log save_call w)).
  { rewrite signup_eq, (save_new_eq (signup_document req env) env w eq_refl),
      F. reflexivity. }
  exists (failing (document_checks (signup_document req env))).
  split; [|split; [exact E | rewrite E; now split]].
  intros Hnil. apply failing_nil in Hnil. congruence.
Qed.

Lemma find_app_new (p : User -> bool) (l : list User) (u : User) :
  existsb p l = false -> p u = true -> find p (l ++ [u]) = Some u.
Proof.
  induction l as [|o l IH]; simpl.
  - intros _ ->. reflexivity.
  - intros H Hu. apply orb_false_iff in H as [Ho Hl]. rewrite Ho.
    now apply IH.
Qed.

(** X5.  A successful signup stores one new active user whose id is the
    generated ObjectId, whose username is the trimmed one, whose email is
    the lower-cased one, whose password is the bcrypt hash of the
    submitted one under the generated salt and whose role is what the
    submitted one, with "admin" replaced by "user", was cast to; the
    response carries that user's id, username, email and role and the
    token signed for them with [JWT_SECRET] and [expiresIn: '24h'].  The
    calls made are [save], the hashing and [jwt.sign], in that order. *)
Theorem signup_stores_the_hash (req : Request) (env : Env) (w : World) :
  status (fst (app POST_signup req env w)) = 201%nat ->
  let b := body_of req in
  let u :=
    {| _id := new_oid env;
       username := trim (the (Body.username b));
       email := toLowerCase (the (Body.email b));
       password := bcrypt_hash (the (Body.password b)) (salt env);
       role := cast_value
                 (cast_String
                    (userRole (or_else (Body.role b) (JStr "user"))));
       isActive := true;
       createdAt := now env |} in
  app POST_signup req env w
  = (res_json 201
       (JObj [("success", JBool true);
              ("message", JStr "User registered successfully");
              ("user", summary u);
              ("token", JStr (token_for u env))]),
     log (jwt_sign_call (identity_of u))
       (set_users (users w ++ [u])
          (log bcrypt_hash_call (log save_call w))))
  /\ users (snd (app POST_signup req env w)) = (users w ++ [u])%list
  /\ made w (snd (app POST_signup req env w))
       [save_call; bcrypt_hash_call; jwt_sign_call (identity_of u)].
Proof.
  intros H b u. apply signup_201 in H as A.
  assert (Hu : created (signup_document req env) env = u).
  { apply accepted_true in A as (V & _ & _).
    cbn [forallb snd] in V. rewrite andb_true_r in V.
    apply andb_prop in V as [Vu V]. apply andb_prop in V as [Ve V].
    apply andb_prop in V as [Vp _].
    unfold created, to_User, signup_document, new_User, u.
    cbn [doc_id doc_username doc_email doc_password doc_role doc_isActive
           doc_createdAt assign_password the].
    fold b. unfold signup_document, new_User in Vu, Ve, Vp.
    cbn [doc_username doc_email doc_password] in Vu, Ve, Vp.
    fold b in Vu, Ve, Vp.
    destruct (Body.username b), (Body.email b), (Body.password b);
      try discriminate; reflexivity. }
  assert (E : app POST_signup req env w
              = (res_json 201
                   (JObj [("success", JBool true);
                          ("message", JStr "User registered successfully");
                          ("user", summary u);
                          ("token", JStr (token_for u env))]),
                 log (jwt_sign_call (identity_of u))
                   (set_users (users w ++ [u])
                      (log bcrypt_hash_call (log save_call w))))).
  { rewrite signup_eq,
      (save_new_accepted (signup_document req env) env w eq_refl A), Hu.
    reflexivity. }
  split; [exact E|]. rewrite E. split; [reflexivity|].
  unfold made. cbn [calls snd log set_users]. now rewrite <- !app_assoc.
Qed.

Lemma signup_duplicate (req : Request) (env : Env) (w : World) :
  existsb (fun o => username o
                    =? the (doc_username (signup_document req env)))
    (users w) = true
  \/ existsb (fun o => email o =? the (doc_email (signup_document req env)))
       (users w) = true ->
  status (fst (app POST_signup req env w)) = 400%nat
  /\ users (snd (app POST_signup req env w)) = users w.
Proof.
  intros H.
  rewrite signup_eq, (save_new_eq (signup_document req env) env w eq_refl).
  destruct (forallb snd _); [|now split]. cbv zeta.
  destruct (existsb (fun o => username o =? _) _); [now split|].
  destruct H as [H | H]; [discriminate|]. rewrite H. now split.
Qed.

(** X6.  Usernames and emails are taken once.  A signup whose trimmed
    username or lower-cased email is that of a stored user is answered 400
    and leaves the collection unchanged; in particular, after a successful
    signup, the same body submitted again, at any time and with any
    generated id and salt, is answered 400 and adds nothing. *)
Theorem signup_twice (req : Request) (env : Env) (w : World) :
  (forall o,
      In o (users w) ->
      Some (username o) = option_map trim (Body.username (body_of req))
      \/ Some (email o)
         = option_map toLowerCase (Body.email (body_of req)) ->
      status (fst (app POST_signup req env w)) = 400%nat
      /\ users (snd (app POST_signup req env w)) = users w)
  /\ (status (fst (app POST_signup req env w)) = 201%nat ->
      forall again env',
        body_of again = body_of req ->
        let w' := snd (app POST_signup req env w) in
        status (fst (app POST_signup again env' w')) = 400%nat
        /\ users (snd (app POST_signup again env' w')) = users w').
Proof.
  split.
  - intros o Hin H. apply signup_duplicate.
    unfold signup_document, new_User. cbn [doc_username doc_email].
    destruct H as [H | H]; [left | right]; rewrite <- H;
      apply existsb_exists; exists o; (split; [exact Hin|]);
      apply String.eqb_refl.
  - intros H again env' Hb w'.
    apply signup_201 in H as A.
    destruct (signup_created _ _ _ A) as (u & token & w1 & E & Hu & Hw).
    apply signup_duplicate. left. subst w'. rewrite E. simpl snd.
    rewrite Hw. apply existsb_exists. exists u.
    split; [apply in_or_app; right; now left|].
    subst u. unfold signup_document, new_User, created, to_User.
    cbn [username doc_username assign_password].
    rewrite Hb. apply String.eqb_refl.
Qed.

Lemma login_eq (req : Request) (env : Env) (w : World) (u : User)
  (p : string) :
  matching req (users w) = Some u ->
  isActive u = true ->
  Body.password (body_of req) = Some p ->
  bcrypt_compare p (password u) = true ->
  app POST_login req env w
  = (res_json 200
       (JObj [("success", JBool true);
              ("message", JStr "Login successful");
              ("user", summary u);
              ("token", JStr (token_for u env))]),
     log (jwt_sign_call (identity_of u))
       (log bcrypt_compare_call (log findOne_call w))).
Proof.
  unfold matching. intros Hu Ha Hp Hc.
  unfold app, chain, login, try_catch, findOne, comparePassword, sign_token,
    bind, called, get_users, ret. simpl.
  rewrite Hu, Ha. simpl. rewrite Hp, Hc. reflexivity.
Qed.

(** X7.  A login whose email, lower-cased, is that of an active user and
    whose password [bcrypt.compare] accepts is answered 200 with that
    user's id, username, email and role and a token signed for exactly
    those, so the token carries the role stored at the time of the login.
    The collection is not written. *)
Theorem login_issues_a_token (req : Request) (env : Env) (w : World)
  (u : User) (p : string) :
  matching req (users w) = Some u ->
  isActive u = true ->
  Body.password (body_of req) = Some p ->
  bcrypt_compare p (password u) = true ->
  status (fst (app POST_login req env w)) = 200%nat
  /\ get "user" (body (fst (app POST_login req env w))) = Some (summary u)
  /\ get "token" (body (fst (app POST_login req env w)))
     = Some (JStr (jwt_sign
                     {| Payload.userId := _id u;
                        Payload.username := username u;
                        Payload.email := email u;
                        Payload.role := role u;
                        Payload.iat := None;
                        Payload.exp := None |}
                     JWT_SECRET "24h" (now env)))
  /\ users (snd (app POST_login req env w)) = users w
  /\ made w (snd (app POST_login req env w))
       [findOne_call; bcrypt_compare_call;
        jwt_sign_call (identity_of u)].
Proof.
  intros Hu Ha Hp Hc. rewrite (login_eq _ _ _ _ _ Hu Ha Hp Hc).
  repeat split. unfold made. cbn [calls snd log].
  now rewrite <- !app_assoc.
Qed.

(** X8.  Signup and login compose: when a signup has succeeded and
    [bcrypt.compare] accepts the submitted password against the hash that
    was stored, a login with that password and the email of the signup, in
    any case of its letters, is answered 200 and gets a token for the new
    user. *)
Theorem signup_then_login (req : Request) (env : Env) (w : World)
  (attempt : Request) (env' : Env) (p : string) :
  status (fst (app POST_signup req env w)) = 201%nat ->
  Body.password (body_of req) = Some p ->
  bcrypt_compare p (bcrypt_hash p (salt env)) = true ->
  option_map toLowerCase (Body.email (body_of attempt))
  = option_map toLowerCase (Body.email (body_of req)) ->
  Body.password (body_of attempt) = Some p ->
  let w' := snd (app POST_signup req env w) in
  exists u,
    users w' = (users w ++ [u])%list
    /\ status (fst (app POST_login attempt env' w')) = 200%nat
    /\ get "user" (body (fst (app POST_login attempt env' w')))
       = Some (summary u)
    /\ get "token" (body (fst (app POST_login attempt env' w')))
       = Some (JStr (token_for u env')).
Proof.
  intros H Hp Hc He Hp' w'. apply signup_201 in H as A.
  destruct (signup_created _ _ _ A) as (u & token & w1 & E & Hu & Hw).
  exists u. subst w'. rewrite E. simpl snd. split; [exact Hw|].
  apply accepted_true in A as (V & _ & Hemail).
  cbn [forallb snd] in V. rewrite andb_true_r in V.
  apply andb_prop in V as [_ V]. apply andb_prop in V as [Ve _].
  assert (Hmail : option_map toLowerCase (Body.email (body_of attempt))
                  = Some (email u)).
  { rewrite He. subst u. unfold signup_document, new_User, created, to_User
      in *. cbn [email doc_email assign_password] in *.
    destruct (Body.email (body_of req)); [reflexivity | discriminate]. }
  assert (Hfind : matching attempt (users w1) = Some u).
  { unfold matching. rewrite Hmail, Hw. unfold by_email.
    apply find_app_new.
    - subst u. exact Hemail.
    - apply String.eqb_refl. }
  assert (Hact : isActive u = true) by now subst u.
  assert (Hpw : bcrypt_compare p (password u) = true).
  { subst u. unfold signup_document, new_User, created, to_User.
    cbn [password doc_password assign_password the].
    rewrite Hp. exact Hc. }
  rewrite (login_eq _ _ _ _ _ Hfind Hact Hp' Hpw). now repeat split.
Qed.

(** *** The profile routes *)

(** A route registered with [authenticate] alone hands the request, with
    the identity attached, to its handler once the token verifies. *)
Lemma user_route_pass (handler : Request -> Handler) (req : Request)
  (env : Env) (w : World) (token : string) (identity : Payload.t) :
  authenticated_as req env token identity ->
  chain [authenticate] handler req env w
  = handler (set_user req identity) env (log (jwt_verify_call token) w).
Proof. intros Ha. simpl. now rewrite (authenticate_pass _ _ _ _ _ _ Ha). Qed.




Lemma map_replace_same {A} (g : User -> A) (u u' : User) (l : list User) :
  NoDup (map _id l) -> In u l -> _id u' = _id u -> g u' = g u ->
  map g (replace u' l) = map g l.
Proof.
  intros Hnd Hin Hid Hg. unfold replace. rewrite map_map.
  apply map_ext_in. intros o Ho.
  destruct (String.eqb_spec (_id o) (_id u')) as [E|_]; [|reflexivity].
  rewrite Hg. f_equal. apply (NoDup_map_In_eq _id l); congruence.
Qed.

(** What [PUT /profile] cannot touch. *)
Definition kept (u : User) : string * string * option string * bool * Z :=
  (_id u, password u, role u, isActive u, createdAt u).

(** X10.  The profile update writes the caller's username and email and
    nothing else: in a collection without duplicate ids, whatever the
    request, every user keeps its id, password hash, role, active flag
    and creation time, in the same order; and when the token verifies,
    every user whose id is not the ObjectId the token's id is cast to is
    left exactly as it was. *)
Theorem put_profile_is_confined (req : Request) (env : Env) (w : World) :
  NoDup (map _id (users w)) ->
  map kept (users (snd (app PUT_profile req env w))) = map kept (users w)
  /\ (forall token identity x,
        authenticated_as req env token identity ->
        In x (users (snd (app PUT_profile req env w))) ->
        castObjectId (Payload.userId identity) <> Some (_id x) ->
        In x (users w)).
Proof.
  intros Hnd.
  assert (H : forall r identity w0,
             users w0 = users w ->
             user r = Some identity ->
             users (snd (put_profile r env w0)) = users w
             \/ exists oid u u',
                 castObjectId (Payload.userId identity) = Some oid
                 /\ by_id oid (users w) = Some u
                 /\ _id u' = _id u /\ kept u' = kept u
                 /\ users (snd (put_profile r env w0))
                    = replace u' (users w)).
  { intros r identity w0 Hw Hu.
    unfold put_profile, try_catch, req_userId. rewrite Hu.
    unfold bind, ret. cbv beta iota.
    match goal with
    | |- context [findByIdAndUpdate ?i ?upd ?v w0] =>
        destruct (findByIdAndUpdate i upd v w0) as [c w1] eqn:E;
        destruct (findByIdAndUpdate_cases i upd v w0 c w1 E)
          as [(oid & u & -> & Hc & Hby & Hw1 & _) | [Hw1 _]]
    end.
    - right. rewrite Hw in Hby, Hw1. eexists oid, u, _.
      split; [exact Hc|]. split; [exact Hby|].
      split; [|split; [|exact Hw1]]; reflexivity.
    - left. destruct c; simpl; congruence. }
  split.
  - unfold app, chain, authenticate.
    destruct (negb (JS.truthy (bearer req))); [reflexivity|].
    destruct (jwt_verify _ _ _) as [identity|]; [|reflexivity].
    destruct (H (set_user req identity) identity
                (log (jwt_verify_call (the (bearer req))) w) eq_refl eq_refl)
      as [-> | (oid & u & u' & _ & Hby & Hid & Hk & ->)]; [reflexivity|].
    apply by_id_id in Hby as [_ Hin].
    now apply map_replace_same with u.
  - intros token identity x Ha Hx Hne. unfold app in Hx.
    rewrite (user_route_pass _ _ _ _ _ _ Ha) in Hx.
    destruct (H (set_user req identity) identity
                (log (jwt_verify_call token) w) eq_refl eq_refl)
      as [E | (oid & u & u' & Hc & Hby & Hid & Hk & E)]; rewrite E in Hx;
      [exact Hx|].
    apply In_replace_cases in Hx as [-> | [Hx _]]; [|exact Hx].
    exfalso. apply Hne. apply by_id_id in Hby as [Hby _]. congruence.
Qed.

(** *** The admin routes *)

Lemma delete_user_eq (req : Request) (env : Env) (w : World)
  (identity : Payload.t) (oid : string) :
  user req = Some identity ->
  id_param req <> Payload.userId identity ->
  castObjectId (id_param req) = Some oid ->
  delete_user req env w
  = let w1 := log (findByIdAndDelete_call (id_param req)) w in
    match by_id oid (users w) with
    | None => (res_json 404 (failure "User not found"), w1)
    | Some _ =>
        (res_json 200
           (JObj [("success", JBool true);
                  ("message", JStr "User deleted successfully")]),
         set_users (without oid (users w)) w1)
    end.
Proof.
  intros Hu Hne Hv. apply String.eqb_neq in Hne.
  unfold delete_user, try_catch, req_userId. rewrite Hu.
  unfold bind at 1, ret at 1. rewrite Hne. unfold bind.
  rewrite findByIdAndDelete_eq. cbv zeta. rewrite Hv.
  now destruct (by_id oid (users w)).
Qed.

Lemma by_id_without (id : string) (l : list User) :
  by_id id (without id l) = None.
Proof.
  unfold by_id. destruct (find _ _) as [x|] eqn:E; [|reflexivity].
  apply find_some in E as [Hin Heq]. apply In_without_iff in Hin as [_ Hne].
  apply String.eqb_eq in Heq. contradiction.
Qed.

(** X11.  Deleting a user.  An admin who targets an id that is not, as a
    string, the token's, and that is cast to an ObjectId, gets 404 "User
    not found", with the collection unchanged, when no user has that
    ObjectId; otherwise 200 "User deleted successfully", after which no
    user has that ObjectId and every other user is still there, as it
    was. *)
Theorem delete_user_outcomes (req : Request) (env : Env) (w : World)
  (token : string) (identity : Payload.t) (oid : string) :
  authenticated_as req env token identity ->
  Payload.role identity = Some "admin" ->
  id_param req <> Payload.userId identity ->
  castObjectId (id_param req) = Some oid ->
  let w' := snd (app DELETE_admin_users req env w) in
  (by_id oid (users w) = None ->
   fst (app DELETE_admin_users req env w)
   = res_json 404 (failure "User not found")
   /\ users w' = users w)
  /\ (forall u,
        by_id oid (users w) = Some u ->
        fst (app DELETE_admin_users req env w)
        = res_json 200
            (JObj [("success", JBool true);
                   ("message", JStr "User deleted successfully")])
        /\ by_id oid (users w') = None
        /\ forall x, In x (users w') <-> In x (users w) /\ _id x <> oid).
Proof.
  intros Ha Hr Hne Hv w'. subst w'. unfold app.
  rewrite (admin_route_pass _ _ _ _ _ _ Ha Hr).
  rewrite (delete_user_eq (set_user req identity) env
             (log (jwt_verify_call token) w) identity oid eq_refl Hne Hv).
  cbv zeta. cbn [id_param set_user].
  change (users (log (jwt_verify_call token) w)) with (users w).
  split.
  - intros ->. now split.
  - intros u ->. cbn [fst snd users set_users].
    split; [reflexivity|]. split; [apply by_id_without|].
    intros x. apply In_without_iff.
Qed.

(** An update that sets neither username nor email goes through in a
    collection without duplicates, once the id is cast, the validators
    pass and the user exists. *)
Lemma update_by_oid_found (id oid : string) (upd : Update) (rv : bool)
  (w : World) (u : User) :
  distinct (users w) ->
  by_id oid (users w) = Some u ->
  set_username upd = None ->
  set_email upd = None ->
  in_enum (set_role upd) = true ->
  update_by_oid id oid upd rv w
  = (Normal (Some (apply_update upd u)),
     set_users (replace (apply_update upd u) (users w))
       (log (findByIdAndUpdate_call id) w)).
Proof.
  intros (Hid & Hname & Hmail) Hby Hsu Hse Hr.
  unfold update_by_oid. cbv zeta.
  assert (V : forallb snd (update_checks upd) = true).
  { unfold update_checks. cbn [forallb snd]. now rewrite Hsu, Hse, Hr. }
  rewrite V, andb_false_r, Hby.
  apply by_id_id in Hby as [Hu Hin]. subst oid.
  assert (N : existsb (fun o => username o =? username (apply_update upd u))
                (without (_id u) (users w)) = false).
  { apply existsb_eqb_false. unfold apply_update. cbn [username].
    rewrite Hsu. cbn [option_map or_else]. now apply others_differ. }
  assert (M : existsb (fun o => email o =? email (apply_update upd u))
                (without (_id u) (users w)) = false).
  { apply existsb_eqb_false. unfold apply_update. cbn [email].
    rewrite Hse. cbn [option_map or_else]. now apply others_differ. }
  now rewrite N, M.
Qed.

Lemma update_by_oid_missing (id oid : string) (upd : Update) (rv : bool)
  (w : World) :
  by_id oid (users w) = None ->
  forallb snd (update_checks upd) = true ->
  update_by_oid id oid upd rv w
  = (Normal None, log (findByIdAndUpdate_call id) w).
Proof.
  intros Hby V. unfold update_by_oid. cbv zeta.
  now rewrite V, andb_false_r, Hby.
Qed.

Lemma by_email_replace (l : list User) (u u' : User) :
  NoDup (map email l) -> In u l -> _id u' = _id u -> email u' = email u ->
  by_email (Some (email u)) (replace u' l) = Some u'.
Proof.
  unfold by_email, replace. intros Hnd Hin Hid Hmail.
  induction l as [|o l IH]; [destruct Hin|].
  inversion Hnd as [|? ? Hnot Hrest]. subst. simpl.
  destruct Hin as [-> | Hin].
  - rewrite Hid, String.eqb_refl, Hmail. now rewrite String.eqb_refl.
  - destruct (_id o =? _id u').
    + rewrite Hmail. now rewrite String.eqb_refl.
    + destruct (String.eqb_spec (email o) (email u)) as [E|_];
        [|now apply IH].
      exfalso. apply Hnot. rewrite E. now apply in_map.
Qed.

Lemma by_id_replace (l : list User) (u u' : User) :
  by_id (_id u') l = Some u -> by_id (_id u') (replace u' l) = Some u'.
Proof.
  unfold by_id, replace. induction l as [|o l IH]; [discriminate|].
  simpl. destruct (_id o =? _id u') eqn:E.
  - intros _. now rewrite String.eqb_refl.
  - rewrite E. exact IH.
Qed.

Lemma login_inactive_eq (req : Request) (env : Env) (w : World) (u : User) :
  matching req (users w) = Some u ->
  isActive u = false ->
  app POST_login req env w
  = (res_json 403 (failure "Account is deactivated"), log findOne_call w).
Proof.
  unfold matching. intros Hu Ha.
  unfold app, chain, login, try_catch, findOne, bind, called, get_users,
    ret. simpl. now rewrite Hu, Ha.
Qed.

(** [user] with its active flag replaced. *)
Definition with_isActive (u : User) (flag : bool) : User :=
  {| _id := _id u; username := username u; email := email u;
     password := password u; role := role u; isActive := flag;
     createdAt := createdAt u |}.

(** [user] with its role replaced. *)
Definition with_role (u : User) (r : string) : User :=
  {| _id := _id u; username := username u; email := email u;
     password := password u; role := Some r; isActive := isActive u;
     createdAt := createdAt u |}.

(** The names of the fields of a document that a response shows. *)
Definition shown_fields : list string :=
  ["_id"; "username"; "email"; "role"; "isActive"; "createdAt"; "__v"].

(** [view] is the document [u] less its password, as [res.json] writes
    it: it has the fields of [shown_fields], with the values stored for
    [u], the creation time in ISO 8601 and mongoose's version key, and it
    has no other field.  Which field is written first is left open. *)
Definition shows (view : json) (u : User) : Prop :=
  get "_id" view = Some (JStr (_id u))
  /\ get "username" view = Some (JStr (username u))
  /\ get "email" view = Some (JStr (email u))
  /\ get "role" view = Some (JStr_or_null (role u))
  /\ get "isActive" view = Some (JBool (isActive u))
  /\ get "createdAt" view = Some (JStr (toISOString (createdAt u)))
  /\ get "__v" view = Some (JNum 0)
  /\ forall k, ~ In k shown_fields -> get k view = None.

Lemma select_without_shows (u : User) :
  shows (select_without "password" u) u.
Proof.
  unfold shows, select_without. cbn [toObject filter fst negb String.eqb
    Ascii.eqb Bool.eqb].
  repeat (split; [reflexivity|]).
  intros k Hk. unfold get. cbn [find fst].
  repeat match goal with
         | |- context [?s =? k] =>
             destruct (String.eqb_spec s k) as [<-|_];
             [exfalso; apply Hk; simpl; tauto|]
         end.
  reflexivity.
Qed.

Lemma select_without_shows_all (l : list User) :
  Forall2 shows (map (select_without "password") l) l.
Proof.
  induction l as [|u l IH]; constructor;
    [apply select_without_shows | exact IH].
Qed.

Lemma update_status_eq (req : Request) (env : Env) (w : World)
  (identity : Payload.t) (oid : string) :
  user req = Some identity ->
  id_param req <> Payload.userId identity ->
  castObjectId (id_param req) = Some oid ->
  update_status req env w
  = match update_by_oid (id_param req) oid
            {| set_username := None; set_email := None; set_role := None;
               set_isActive := Body.isActive (body_of req) |} false w with
    | (Normal None, w1) => (res_json 404 (failure "User not found"), w1)
    | (Normal (Some u'), w1) =>
        (res_json 200
           (JObj [("success", JBool true);
                  ("message",
                   JStr ("User "
                           ++ (if or_else (Body.isActive (body_of req)) false
                               then "activated" else "deactivated")
                           ++ " successfully"));
                  ("user", select_without "password" u')]), w1)
    | (Throw e, w1) => (res_json 400 (failure (error_message e)), w1)
    end.
Proof.
  intros Hu Hne Hc. apply String.eqb_neq in Hne.
  unfold update_status, try_catch, req_userId. rewrite Hu.
  unfold bind at 1, ret at 1. rewrite Hne. unfold bind.
  rewrite findByIdAndUpdate_eq, Hc.
  destruct (update_by_oid _ _ _ _ _) as [[[u'|]|e] w1]; reflexivity.
Qed.

(** What a status toggle does once it is past the gate, the policy and
    the guard, for an id that is cast to the ObjectId [oid]. *)
Lemma update_status_found (req : Request) (env : Env) (w : World)
  (token : string) (identity : Payload.t) (oid : string) (u : User)
  (flag : bool) :
  authenticated_as req env token identity ->
  Payload.role identity = Some "admin" ->
  id_param req <> Payload.userId identity ->
  castObjectId (id_param req) = Some oid ->
  distinct (users w) ->
  by_id oid (users w) = Some u ->
  Body.isActive (body_of req) = Some flag ->
  app PUT_admin_users_status req env w
  = (res_json 200
       (JObj [("success", JBool true);
              ("message",
               JStr ("User "
                       ++ (if flag then "activated" else "deactivated")
                       ++ " successfully"));
              ("user", select_without "password" (with_isActive u flag))]),
     set_users (replace (with_isActive u flag) (users w))
       (log (findByIdAndUpdate_call (id_param req))
          (log (jwt_verify_call token) w))).
Proof.
  intros Ha Hr Hne Hc Hd Hby Hflag. unfold app.
  rewrite (admin_route_pass _ _ _ _ _ _ Ha Hr).
  rewrite (update_status_eq (set_user req identity) env
             (log (jwt_verify_call token) w) identity oid eq_refl Hne Hc).
  cbn [id_param body_of set_user]. rewrite Hflag.
  rewrite (update_by_oid_found (id_param req) oid
             {| set_username := None; set_email := None; set_role := None;
                set_isActive := Some flag |} false
             (log (jwt_verify_call token) w) u Hd Hby eq_refl eq_refl
             eq_refl).
  reflexivity.
Qed.

(** X12.  Activating and deactivating.  An admin who targets an id that
    is not, as a string, the token's, and that is cast to an ObjectId,
    gets 404 "User not found", with the collection unchanged, when no user
    has that ObjectId.  When a user has it (in a collection without
    duplicates) the answer is 200 with the updated document less its
    password, that user's active flag becomes the submitted one and
    nothing else changes; the message says "activated" for true and
    "deactivated" for false.  After a deactivation every
    login whose email, lower-cased, is that user's is answered 403
    "Account is deactivated". *)
Theorem update_status_outcomes (req : Request) (env : Env) (w : World)
  (token : string) (identity : Payload.t) (oid : string) :
  authenticated_as req env token identity ->
  Payload.role identity = Some "admin" ->
  id_param req <> Payload.userId identity ->
  castObjectId (id_param req) = Some oid ->
  let w' := snd (app PUT_admin_users_status req env w) in
  (by_id oid (users w) = None ->
   fst (app PUT_admin_users_status req env w)
   = res_json 404 (failure "User not found")
   /\ users w' = users w)
  /\ (forall u flag,
        distinct (users w) ->
        by_id oid (users w) = Some u ->
        Body.isActive (body_of req) = Some flag ->
        status (fst (app PUT_admin_users_status req env w)) = 200%nat
        /\ get "message" (body (fst (app PUT_admin_users_status req env w)))
           = Some (JStr ("User "
                           ++ (if flag then "activated" else "deactivated")
                           ++ " successfully"))
        /\ (exists view,
              get "user" (body (fst (app PUT_admin_users_status req env w)))
              = Some view
              /\ shows view (with_isActive u flag))
        /\ users w' = replace (with_isActive u flag) (users w)
        /\ by_id oid (users w') = Some (with_isActive u flag)
        /\ (flag = false ->
            forall attempt env',
              option_map toLowerCase (Body.email (body_of attempt))
              = Some (email u) ->
              fst (app POST_login attempt env' w')
              = res_json 403 (failure "Account is deactivated"))).
Proof.
  intros Ha Hr Hne Hc w'. subst w'. split.
  - intros Hby. unfold app.
    rewrite (admin_route_pass _ _ _ _ _ _ Ha Hr).
    rewrite (update_status_eq (set_user req identity) env
               (log (jwt_verify_call token) w) identity oid eq_refl Hne Hc).
    cbn [id_param body_of set_user].
    rewrite update_by_oid_missing; [now split | exact Hby | reflexivity].
  - intros u flag Hd Hby Hflag.
    rewrite (update_status_found req env w token identity oid u flag Ha Hr
               Hne Hc Hd Hby Hflag).
    cbn [fst snd users set_users log].
    split; [reflexivity|]. split; [reflexivity|].
    split; [eexists; split; [reflexivity | apply select_without_shows]|].
    split; [reflexivity|].
    apply by_id_id in Hby as Hu. destruct Hu as [Hu Hin].
    split.
    + rewrite <- Hu in Hby |- *.
      exact (by_id_replace (users w) u (with_isActive u flag) Hby).
    + intros -> attempt env' Hmail. destruct Hd as (_ & _ & Hnd).
      rewrite (login_inactive_eq attempt env' _ (with_isActive u false));
        [reflexivity | | reflexivity].
      unfold matching. rewrite Hmail. cbn [users].
      exact (by_email_replace (users w) u (with_isActive u false) Hnd Hin
               eq_refl eq_refl).
Qed.

Lemma update_role_eq (req : Request) (env : Env) (w : World)
  (identity : Payload.t) (oid r : string) :
  user req = Some identity ->
  id_param req <> Payload.userId identity ->
  castObjectId (id_param req) = Some oid ->
  Body.role (body_of req) = Some (JStr r) ->
  In r role_enum ->
  update_role req env w
  = match update_by_oid (id_param req) oid
            {| set_username := None; set_email := None;
               set_role := Some r; set_isActive := None |} true w with
    | (Normal None, w1) => (res_json 404 (failure "User not found"), w1)
    | (Normal (Some u'), w1) =>
        (res_json 200
           (JObj [("success", JBool true);
                  ("message", JStr ("User role updated to " ++ r));
                  ("user", select_without "password" u')]), w1)
    | (Throw e, w1) => (res_json 400 (failure (error_message e)), w1)
    end.
Proof.
  intros Hu Hne Hc Hrole Hin. apply String.eqb_neq in Hne.
  apply includes_In in Hin.
  unfold update_role, try_catch, req_userId. rewrite Hu.
  unfold bind at 1, ret at 1. rewrite Hne, Hrole.
  cbn [as_string includes_value]. rewrite Hin. cbn [negb the]. unfold bind.
  rewrite findByIdAndUpdate_eq, Hc.
  destruct (update_by_oid _ _ _ _ _) as [[[u'|]|e] w1]; reflexivity.
Qed.

(** What a role change does once it is past the gate, the policy, the
    guard and the check of the role, for an id that is cast to the
    ObjectId [oid]. *)
Lemma update_role_found (req : Request) (env : Env) (w : World)
  (token : string) (identity : Payload.t) (oid r : string) (u : User) :
  authenticated_as req env token identity ->
  Payload.role identity = Some "admin" ->
  id_param req <> Payload.userId identity ->
  castObjectId (id_param req) = Some oid ->
  Body.role (body_of req) = Some (JStr r) ->
  In r role_enum ->
  distinct (users w) ->
  by_id oid (users w) = Some u ->
  app PUT_admin_users_role req env w
  = (res_json 200
       (JObj [("success", JBool true);
              ("message", JStr ("User role updated to " ++ r));
              ("user", select_without "password" (with_role u r))]),
     set_users (replace (with_role u r) (users w))
       (log (findByIdAndUpdate_call (id_param req))
          (log (jwt_verify_call token) w))).
Proof.
  intros Ha Hr Hne Hc Hrole Hin Hd Hby. unfold app.
  rewrite (admin_route_pass _ _ _ _ _ _ Ha Hr).
  rewrite (update_role_eq (set_user req identity) env
             (log (jwt_verify_call token) w) identity oid r eq_refl Hne Hc
             Hrole Hin).
  cbn [id_param body_of set_user].
  assert (Vr : in_enum (Some r) = true) by now apply includes_In.
  rewrite (update_by_oid_found (id_param req) oid
             {| set_username := None; set_email := None;
                set_role := Some r; set_isActive := None |} true
             (log (jwt_verify_call token) w) u Hd Hby eq_refl eq_refl Vr).
  reflexivity.
Qed.

(** X13.  Changing a role.  An admin who targets an id that is not, as a
    string, the token's, and that is cast to an ObjectId, with a role of
    the enumeration, gets 404 "User not found", with the collection
    unchanged, when no user has that ObjectId.  When a user has it (in a
    collection without duplicates) the answer is 200 "User role updated to
    <role>" with the updated document less its password, that user's role
    becomes the requested one and nothing else changes.  The next successful login of that user is issued a token
    that carries the new role. *)
Theorem update_role_outcomes (req : Request) (env : Env) (w : World)
  (token : string) (identity : Payload.t) (oid r : string) :
  authenticated_as req env token identity ->
  Payload.role identity = Some "admin" ->
  id_param req <> Payload.userId identity ->
  castObjectId (id_param req) = Some oid ->
  Body.role (body_of req) = Some (JStr r) ->
  In r role_enum ->
  let w' := snd (app PUT_admin_users_role req env w) in
  (by_id oid (users w) = None ->
   fst (app PUT_admin_users_role req env w)
   = res_json 404 (failure "User not found")
   /\ users w' = users w)
  /\ (forall u,
        distinct (users w) ->
        by_id oid (users w) = Some u ->
        status (fst (app PUT_admin_users_role req env w)) = 200%nat
        /\ get "message" (body (fst (app PUT_admin_users_role req env w)))
           = Some (JStr ("User role updated to " ++ r))
        /\ (exists view,
              get "user" (body (fst (app PUT_admin_users_role req env w)))
              = Some view
              /\ shows view (with_role u r))
        /\ users w' = replace (with_role u r) (users w)
        /\ by_id oid (users w') = Some (with_role u r)
        /\ forall attempt env' p,
            option_map toLowerCase (Body.email (body_of attempt))
            = Some (email u) ->
            Body.password (body_of attempt) = Some p ->
            isActive u = true ->
            bcrypt_compare p (password u) = true ->
            get "token" (body (fst (app POST_login attempt env' w')))
            = Some (JStr (jwt_sign
                            {| Payload.userId := _id u;
                               Payload.username := username u;
                               Payload.email := email u;
                               Payload.role := Some r;
                               Payload.iat := None;
                               Payload.exp := None |}
                            JWT_SECRET "24h" (now env')))).
Proof.
  intros Ha Hr Hne Hc Hrole Hin w'. subst w'. split.
  - intros Hby. unfold app.
    rewrite (admin_route_pass _ _ _ _ _ _ Ha Hr).
    rewrite (update_role_eq (set_user req identity) env
               (log (jwt_verify_call token) w) identity oid r eq_refl Hne Hc
               Hrole Hin).
    cbn [id_param body_of set_user].
    rewrite update_by_oid_missing; [now split | exact Hby |].
    unfold update_checks. cbn [forallb snd set_username set_email set_role
                                 present].
    apply includes_In in Hin. unfold in_enum, when_present.
    now rewrite Hin.
  - intros u Hd Hby.
    rewrite (update_role_found req env w token identity oid r u Ha Hr Hne Hc
               Hrole Hin Hd Hby).
    cbn [fst snd users set_users log].
    split; [reflexivity|]. split; [reflexivity|].
    split; [eexists; split; [reflexivity | apply select_without_shows]|].
    split; [reflexivity|].
    apply by_id_id in Hby as Hu. destruct Hu as [Hu Hin'].
    split.
    + rewrite <- Hu in Hby |- *.
      exact (by_id_replace (users w) u (with_role u r) Hby).
    + intros attempt env' p Hmail Hp Hact Hcmp. destruct Hd as (_ & _ & Hnd).
      rewrite (login_eq attempt env' _ (with_role u r) p);
        [reflexivity | | exact Hact | exact Hp | exact Hcmp].
      unfold matching. rewrite Hmail. cbn [users].
      exact (by_email_replace (users w) u (with_role u r) Hnd Hin'
               eq_refl eq_refl).
Qed.

(** *** The self-action guard *)

(** C1.  The guard of the three admin operations compares the id of the
    path with the id of the token as strings, whereas mongoose casts the
    id of the path to an ObjectId.  So an admin whose token verifies, and
    who writes their own id in the path otherwise than the token does
    (the hexadecimal digits in upper case), is not stopped by the guard:
    the delete answers 200 "User deleted successfully" and removes the
    admin's own document; in a collection without duplicates, the status
    toggle deactivates the admin's own document and the role change
    changes the admin's own role, each with a 200. *)
Theorem self_action_guard_compares_strings (req : Request) (env : Env)
  (w : World) (token : string) (identity : Payload.t) (oid : string)
  (me : User) :
  authenticated_as req env token identity ->
  Payload.role identity = Some "admin" ->
  castObjectId (Payload.userId identity) = Some oid ->
  by_id oid (users w) = Some me ->
  id_param req <> Payload.userId identity ->
  castObjectId (id_param req) = Some oid ->
  (fst (app DELETE_admin_users req env w)
   = res_json 200
       (JObj [("success", JBool true);
              ("message", JStr "User deleted successfully")])
   /\ by_id oid (users (snd (app DELETE_admin_users req env w))) = None
   /\ ~ In me (users (snd (app DELETE_admin_users req env w))))
  /\ (distinct (users w) ->
      Body.isActive (body_of req) = Some false ->
      status (fst (app PUT_admin_users_status req env w)) = 200%nat
      /\ by_id oid (users (snd (app PUT_admin_users_status req env w)))
         = Some (with_isActive me false))
  /\ (forall r,
        distinct (users w) ->
        Body.role (body_of req) = Some (JStr r) ->
        In r role_enum ->
        status (fst (app PUT_admin_users_role req env w)) = 200%nat
        /\ by_id oid (users (snd (app PUT_admin_users_role req env w)))
           = Some (with_role me r)).
Proof.
  intros Ha Hr Hself Hby Hne Hc.
  apply by_id_id in Hby as Hme. destruct Hme as [Hme Hin].
  split; [|split].
  - unfold app. rewrite (admin_route_pass _ _ _ _ _ _ Ha Hr).
    rewrite (delete_user_eq (set_user req identity) env
               (log (jwt_verify_call token) w) identity oid eq_refl Hne Hc).
    cbv zeta. cbn [id_param set_user].
    change (users (log (jwt_verify_call token) w)) with (users w).
    rewrite Hby. cbn [fst snd users set_users].
    split; [reflexivity|]. split; [apply by_id_without|].
    intros H. apply In_without_iff in H as [_ H]. contradiction.
  - intros Hd Hflag.
    rewrite (update_status_found req env w token identity oid me false Ha Hr
               Hne Hc Hd Hby Hflag).
    cbn [fst snd users set_users log status res_json].
    split; [reflexivity|].
    rewrite <- Hme in Hby |- *.
    exact (by_id_replace (users w) me (with_isActive me false) Hby).
  - intros r Hd Hrole Hin'.
    rewrite (update_role_found req env w token identity oid r me Ha Hr Hne
               Hc Hrole Hin' Hd Hby).
    cbn [fst snd users set_users log status res_json].
    split; [reflexivity|].
    rewrite <- Hme in Hby |- *.
    exact (by_id_replace (users w) me (with_role me r) Hby).
Qed.

(** X21.  What the self-action guard does stop.  An admin whose token
    verifies and who writes in the path the very string the token carries
    as id gets a 400 from the role change, the status toggle and the
    delete, each with its own message.  The only library call made is the
    gate's [jwt.verify]: the repository is neither read nor written, so
    the collection is what it was, and every user in it, the admin
    included, is still there after the refused delete. *)
Theorem self_action_guard (req : Request) (env : Env) (w : World)
  (token : string) (identity : Payload.t) :
  authenticated_as req env token identity ->
  Payload.role identity = Some "admin" ->
  id_param req = Payload.userId identity ->
  (app PUT_admin_users_role req env w
   = (res_json 400 (failure "Cannot modify your own role"),
      log (jwt_verify_call token) w)
   /\ app PUT_admin_users_status req env w
      = (res_json 400 (failure "Cannot deactivate yourself"),
         log (jwt_verify_call token) w)
   /\ app DELETE_admin_users req env w
      = (res_json 400 (failure "Cannot delete yourself"),
         log (jwt_verify_call token) w))
  /\ (forall r,
        In r [PUT_admin_users_role; PUT_admin_users_status;
              DELETE_admin_users] ->
        status (fst (app r req env w)) = 400%nat
        /\ made w (snd (app r req env w)) [jwt_verify_call token]
        /\ repository_untouched w (snd (app r req env w)))
  /\ (forall u, In u (users w) ->
                In u (users (snd (app DELETE_admin_users req env w)))).
Proof.
  intros Ha Hr Hid.
  assert (H3 : app PUT_admin_users_role req env w
               = (res_json 400 (failure "Cannot modify your own role"),
                  log (jwt_verify_call token) w)
               /\ app PUT_admin_users_status req env w
                  = (res_json 400 (failure "Cannot deactivate yourself"),
                     log (jwt_verify_call token) w)
               /\ app DELETE_admin_users req env w
                  = (res_json 400 (failure "Cannot delete yourself"),
                     log (jwt_verify_call token) w)).
  { repeat split; unfold app; rewrite (admin_route_pass _ _ _ _ _ _ Ha Hr).
    - unfold update_role, try_catch, bind, req_userId, ret. simpl.
      rewrite Hid, String.eqb_refl. reflexivity.
    - unfold update_status, try_catch, bind, req_userId, ret. simpl.
      rewrite Hid, String.eqb_refl. reflexivity.
    - unfold delete_user, try_catch, bind, req_userId, ret. simpl.
      rewrite Hid, String.eqb_refl. reflexivity. }
  destruct H3 as (H1 & H2 & H3).
  split; [now repeat split|]. split.
  - intros r [<- | [<- | [<- | []]]];
      [rewrite H1 | rewrite H2 | rewrite H3];
      (split; [reflexivity | split; [reflexivity | apply quiet_verify]]).
  - intros u Hu. rewrite H3. exact Hu.
Qed.

(** *** The lists *)

(** The stored role of [u] is one of the enumeration. *)
Definition role_in_enum (u : User) : Prop :=
  exists r, role u = Some r /\ In r role_enum.

Lemma filter_length_le {A} (p : A -> bool) (l : list A) :
  (List.length (filter p l) <= List.length l)%nat.
Proof.
  induction l as [|a l IH]; [constructor|]. simpl.
  destruct (p a); simpl; lia.
Qed.

Lemma count_by_role (l : list User) :
  Forall role_in_enum l ->
  (List.length (filter (role_is "admin") l)
   + List.length (filter (role_is "user") l)
   + List.length (filter (role_is "moderator") l)
   = List.length l)%nat.
Proof.
  induction 1 as [|u l Hu _ IH]; [reflexivity|].
  destruct Hu as (r & Hrole & Hr). simpl in Hr.
  assert (E : forall s, role_is s u = (r =? s)).
  { intros s. unfold role_is. now rewrite Hrole. }
  cbn [filter]. rewrite !E.
  destruct Hr as [<- | [<- | [<- | []]]]; simpl; lia.
Qed.

(** The number of users of [l] that satisfy [p]. *)
Definition how_many (p : User -> bool) (l : list User) : Z :=
  Z.of_nat (List.length (filter p l)).

(** X14.  The admin's list.  A verified admin token, whatever the
    collection says about its holder, gets 200 with one view per stored
    user, in order, each the document less its password, and the
    statistics: [total] is the number of users, [active] the number of
    active ones, at most [total], and [admins], [users] and [moderators]
    the numbers of users of each role, which add up to [total] when every
    stored role is of the enumeration.  The collection is only read. *)
Theorem admin_users_statistics (req : Request) (env : Env) (w : World)
  (token : string) (identity : Payload.t) :
  authenticated_as req env token identity ->
  Payload.role identity = Some "admin" ->
  let total := Z.of_nat (List.length (users w)) in
  let active := how_many isActive (users w) in
  let admins := how_many (role_is "admin") (users w) in
  let members := how_many (role_is "user") (users w) in
  let moderators := how_many (role_is "moderator") (users w) in
  status (fst (app GET_admin_users req env w)) = 200%nat
  /\ get "stats" (body (fst (app GET_admin_users req env w)))
     = Some (JObj [("total", JNum total); ("active", JNum active);
                   ("admins", JNum admins); ("users", JNum members);
                   ("moderators", JNum moderators)])
  /\ (exists views,
        get "users" (body (fst (app GET_admin_users req env w)))
        = Some (JArr views)
        /\ Forall2 shows views (users w))
  /\ (0 <= active <= total)%Z
  /\ (Forall role_in_enum (users w) ->
      (admins + members + moderators = total)%Z)
  /\ users (snd (app GET_admin_users req env w)) = users w.
Proof.
  intros Ha Hr total active admins members moderators. unfold app.
  rewrite (admin_route_pass _ _ _ _ _ _ Ha Hr).
  unfold admin_users, try_catch, find_all, bind, called, get_users, ret,
    count.
  cbn [fst snd users log].
  split; [reflexivity|]. split; [reflexivity|].
  split; [eexists; split; [reflexivity | apply select_without_shows_all]|].
  split; [|split; [|reflexivity]].
  - subst active total. unfold how_many.
    pose proof (filter_length_le isActive (users w)). lia.
  - intros H. apply count_by_role in H.
    subst admins members moderators total. unfold how_many. lia.
Qed.

(** X15.  The moderators' list.  A verified token with role moderator or
    admin gets 200 with [count], the number of active users, and one
    view, the document less its password, for each active user and for
    no other: a deactivated user is not listed.  The collection is only
    read. *)
Theorem active_users_lists_the_active (req : Request) (env : Env)
  (w : World) (token : string) (identity : Payload.t) :
  authenticated_as req env token identity ->
  role_among ["moderator"; "admin"] identity ->
  status (fst (app GET_moderator_users_active req env w)) = 200%nat
  /\ get "count" (body (fst (app GET_moderator_users_active req env w)))
     = Some (JNum (Z.of_nat (List.length (filter isActive (users w)))))
  /\ (exists views,
        get "users" (body (fst (app GET_moderator_users_active req env w)))
        = Some (JArr views)
        /\ Forall2 shows views (filter isActive (users w)))
  /\ (forall u, In u (filter isActive (users w))
                <-> In u (users w) /\ isActive u = true)
  /\ users (snd (app GET_moderator_users_active req env w)) = users w.
Proof.
  intros Ha Hin. unfold app. simpl chain.
  rewrite (authenticate_pass _ _ _ _ _ _ Ha).
  rewrite (authorize_pass _ (set_user req identity) _ env _ identity eq_refl
             Hin).
  unfold active_users, try_catch, find_active, bind, called, get_users, ret.
  cbn [fst snd users log].
  split; [reflexivity|]. split; [reflexivity|].
  split; [eexists; split; [reflexivity | apply select_without_shows_all]|].
  split; [|reflexivity].
  intros u. apply filter_In.
Qed.

(** *** Uniqueness is kept *)

Lemma distinct_replace (l : list User) (u u' : User) :
  distinct l ->
  by_id (_id u') l = Some u ->
  existsb (fun o => username o =? username u') (without (_id u') l) = false ->
  existsb (fun o => email o =? email u') (without (_id u') l) = false ->
  distinct (replace u' l).
Proof.
  intros (Hid & Hname & Hmail) Hby Hn He.
  split; [now rewrite map_id_replace|].
  split; apply NoDup_map_replace; try assumption;
    now apply existsb_eqb_false.
Qed.

Lemma distinct_without (id : string) (l : list User) :
  distinct l -> distinct (without id l).
Proof.
  intros (Hid & Hname & Hmail).
  repeat split; now apply NoDup_map_without.
Qed.

Lemma NoDup_map_snoc (f : User -> string) (l : list User) (u : User) :
  NoDup (map f l) -> ~ In (f u) (map f l) -> NoDup (map f (l ++ [u])).
Proof.
  intros Hnd Hnew. rewrite map_app. simpl.
  apply NoDup_app; [exact Hnd | repeat constructor; intros [] |].
  intros x Hx [<- | []]. contradiction.
Qed.

Lemma findByIdAndUpdate_distinct (id : string) (upd : Update) (rv : bool)
  (w : World) :
  distinct (users w) ->
  distinct (users (snd (findByIdAndUpdate id upd rv w))).
Proof.
  intros Hd. rewrite findByIdAndUpdate_eq.
  destruct (castObjectId id) as [oid|]; [|exact Hd].
  unfold update_by_oid. cbv zeta.
  destruct (rv && _); [exact Hd|].
  destruct (by_id oid (users w)) as [u|] eqn:Hby; [|exact Hd].
  destruct (existsb (fun o => username o =? _) _) eqn:Hn; [exact Hd|].
  destruct (existsb (fun o => email o =? _) _) eqn:He; [exact Hd|].
  cbn [snd users set_users].
  apply by_id_id in Hby as Hu. destruct Hu as [Hu _].
  assert (Hid : _id (apply_update upd u) = oid) by exact Hu.
  rewrite <- Hid in Hby, Hn, He.
  now apply distinct_replace with u.
Qed.

Lemma save_stored_distinct (u0 : User) (p : option string) (env : Env)
  (w : World) :
  In u0 (users w) ->
  distinct (users w) ->
  distinct (users (snd (save (assign_password (hydrate u0) p) env w))).
Proof.
  intros Hin Hd. pose proof (save_stored_eq u0 p env w) as S.
  cbv zeta in S. rewrite S. clear S.
  destruct (forallb snd _); [|exact Hd].
  assert (H : forall u',
             _id u' = _id u0 -> username u' = username u0 ->
             email u' = email u0 ->
             distinct (replace u' (users w))).
  { intros u' Hi Hn He. destruct Hd as (Hid & Hname & Hmail).
    split; [now rewrite map_id_replace|].
    split; apply NoDup_map_replace; try assumption.
    - rewrite Hn, Hi. now apply others_differ.
    - rewrite He, Hi. now apply others_differ. }
  destruct (isModified_password _); cbn [snd users set_users];
    now apply H.
Qed.

(** A handler that keeps the collection free of duplicates, provided the
    ObjectId generated for the request is new. *)
Definition keeps_distinct (h : Request -> Handler) : Prop :=
  forall req env w,
    distinct (users w) ->
    ~ In (new_oid env) (map _id (users w)) ->
    distinct (users (snd (h req env w))).

Lemma keeps_distinct_authenticate (h : Request -> Handler) :
  keeps_distinct h -> keeps_distinct (fun req => authenticate req h).
Proof.
  intros H req env w Hd Hf. unfold authenticate.
  destruct (negb (JS.truthy (bearer req))); [exact Hd|].
  destruct (jwt_verify _ _ _); [|exact Hd].
  now apply (H _ env (log _ w)).
Qed.

Lemma keeps_distinct_authorize (roles : list string)
  (h : Request -> Handler) :
  keeps_distinct h -> keeps_distinct (fun req => authorize roles req h).
Proof.
  intros H req env w Hd Hf. unfold authorize.
  destruct (user req); [|exact Hd].
  destruct (negb _); [exact Hd | now apply H].
Qed.

Lemma keeps_distinct_adminOnly (h : Request -> Handler) :
  keeps_distinct h -> keeps_distinct (fun req => adminOnly req h).
Proof.
  intros H req env w Hd Hf. unfold adminOnly.
  destruct (user req); [|exact Hd].
  destruct (negb _); [exact Hd | now apply H].
Qed.

Lemma keeps_distinct_home : keeps_distinct home.
Proof. intros req env w Hd _. exact Hd. Qed.

Lemma keeps_distinct_admin_dashboard : keeps_distinct admin_dashboard.
Proof. intros req env w Hd _. exact Hd. Qed.

Lemma keeps_distinct_moderator_dashboard :
  keeps_distinct moderator_dashboard.
Proof. intros req env w Hd _. exact Hd. Qed.

Lemma keeps_distinct_login : keeps_distinct login.
Proof. intros req env w Hd _. unfold login. run_handler; exact Hd. Qed.

Lemma keeps_distinct_get_profile : keeps_distinct get_profile.
Proof. intros req env w Hd _. unfold get_profile. run_handler; exact Hd. Qed.

Lemma keeps_distinct_admin_users : keeps_distinct admin_users.
Proof. intros req env w Hd _. unfold admin_users. run_handler; exact Hd. Qed.

Lemma keeps_distinct_active_users : keeps_distinct active_users.
Proof. intros req env w Hd _. unfold active_users. run_handler; exact Hd. Qed.

Lemma keeps_distinct_signup : keeps_distinct signup.
Proof.
  intros req env w Hd Hf. change (signup req env w)
    with (app POST_signup req env w).
  rewrite signup_eq, (save_new_eq (signup_document req env) env w eq_refl).
  destruct (forallb snd _); [|exact Hd]. cbv zeta.
  destruct (existsb (fun o => username o =? _) _) eqn:Hn; [exact Hd|].
  destruct (existsb (fun o => email o =? _) _) eqn:He; [exact Hd|].
  cbn [snd users set_users log]. destruct Hd as (Hid & Hname & Hmail).
  repeat split; apply NoDup_map_snoc; try assumption.
  - now apply existsb_eqb_false in Hn.
  - now apply existsb_eqb_false in He.
Qed.

Lemma keeps_distinct_put_profile : keeps_distinct put_profile.
Proof.
  intros req env w Hd _. unfold put_profile, try_catch, req_userId.
  destruct (user req) as [identity|]; [|exact Hd].
  unfold bind, ret. cbv beta iota.
  match goal with
  | |- context [findByIdAndUpdate ?i ?upd ?v w] =>
      pose proof (findByIdAndUpdate_distinct i upd v w Hd) as H;
      destruct (findByIdAndUpdate i upd v w) as [[c|e] w1]
  end; exact H.
Qed.

Lemma keeps_distinct_update_status : keeps_distinct update_status.
Proof.
  intros req env w Hd _. unfold update_status, try_catch, req_userId.
  destruct (user req) as [identity|]; [|exact Hd].
  unfold bind, ret. cbv beta iota. destruct (_ =? _); [exact Hd|].
  match goal with
  | |- context [findByIdAndUpdate ?i ?upd ?v w] =>
      pose proof (findByIdAndUpdate_distinct i upd v w Hd) as H;
      destruct (findByIdAndUpdate i upd v w) as [[[c|]|e] w1]
  end; exact H.
Qed.

Lemma keeps_distinct_update_role : keeps_distinct update_role.
Proof.
  intros req env w Hd _. unfold update_role, try_catch, req_userId.
  destruct (user req) as [identity|]; [|exact Hd].
  unfold bind, ret. cbv beta iota. destruct (_ =? _); [exact Hd|].
  destruct (negb _); [exact Hd|].
  match goal with
  | |- context [findByIdAndUpdate ?i ?upd ?v w] =>
      pose proof (findByIdAndUpdate_distinct i upd v w Hd) as H;
      destruct (findByIdAndUpdate i upd v w) as [[[c|]|e] w1]
  end; exact H.
Qed.

Lemma keeps_distinct_delete_user : keeps_distinct delete_user.
Proof.
  intros req env w Hd _. unfold delete_user, try_catch, req_userId.
  destruct (user req) as [identity|]; [|exact Hd].
  unfold bind, ret. cbv beta iota. destruct (_ =? _); [exact Hd|].
  rewrite findByIdAndDelete_eq. cbv zeta.
  destruct (castObjectId _) as [oid|]; [|exact Hd].
  destruct (by_id _ _); [|exact Hd].
  cbn [snd users set_users]. now apply distinct_without.
Qed.

Lemma keeps_distinct_change_password : keeps_distinct change_password.
Proof.
  intros req env w Hd _. unfold change_password, try_catch, req_userId.
  destruct (user req) as [identity|]; [|exact Hd].
  unfold bind at 1, ret at 1. unfold bind at 1. rewrite findById_eq.
  cbv zeta. destruct (castObjectId _) as [oid|]; [|exact Hd].
  destruct (by_id _ _) as [u|] eqn:Hby; [|exact Hd].
  unfold comparePassword, bind at 1, bind at 1, called at 1.
  destruct (Body.currentPassword _); [|exact Hd]. unfold ret at 1.
  destruct (negb _); [exact Hd|]. unfold bind.
  apply by_id_id in Hby as [_ Hin].
  match goal with
  | |- context [save ?d env ?w0] =>
      pose proof (save_stored_distinct u (Body.newPassword (body_of req))
                    env w0 Hin Hd) as H;
      destruct (save d env w0) as [[c|e] w1]
  end; exact H.
Qed.

(** X16.  No two users ever share an id, a username or an email: serving
    a request on any route keeps a collection free of such duplicates free
    of them, provided the ObjectId generated for the request is not that
    of a stored user. *)
Theorem uniqueness_is_kept (r : Route) (req : Request) (env : Env)
  (w : World) :
  distinct (users w) ->
  ~ In (new_oid env) (map _id (users w)) ->
  distinct (users (snd (app r req env w))).
Proof.
  revert req env w. change (keeps_distinct (app r)).
  destruct r; simpl;
    repeat first [ apply keeps_distinct_authenticate
                 | apply keeps_distinct_authorize
                 | apply keeps_distinct_adminOnly ];
    auto using keeps_distinct_home, keeps_distinct_signup,
      keeps_distinct_login, keeps_distinct_get_profile,
      keeps_distinct_put_profile, keeps_distinct_change_password,
      keeps_distinct_admin_dashboard, keeps_distinct_admin_users,
      keeps_distinct_update_role, keeps_distinct_update_status,
      keeps_distinct_delete_user, keeps_distinct_moderator_dashboard,
      keeps_distinct_active_users.
Qed.

(** *** Tokens that outlive what they describe *)

Lemma get_profile_eq (req : Request) (env : Env) (w : World)
  (token : string) (identity : Payload.t) :
  authenticated_as req env token identity ->
  app GET_profile req env w
  = let w1 := log (findById_call (Payload.userId identity))
                (log (jwt_verify_call token) w) in
    match castObjectId (Payload.userId identity) with
    | Some oid =>
        (res_json 200
           (JObj [("success", JBool true);
                  ("user",
                   nullable (select_without "password")
                     (by_id oid (users w)))]), w1)
    | None => (res_json 500 (failure (error_message (CastError "_id"))), w1)
    end.
Proof.
  intros Ha. unfold app. rewrite (user_route_pass _ _ _ _ _ _ Ha).
  unfold get_profile, try_catch, req_userId. cbn [user set_user].
  unfold bind at 1, ret at 1. unfold bind. rewrite findById_eq. cbv zeta.
  now destruct (castObjectId _).
Qed.

(** X17.  The profile.  A verified token whose user is stored gets 200
    with that user's document less its password: id, username, email,
    role and active flag as stored now, not as in the token, the creation
    time in ISO 8601, mongoose's version key, and no other field, the
    password in particular.  Only [jwt.verify] and [findById] are
    called. *)
Theorem get_profile_shows_the_stored_user (req : Request) (env : Env)
  (w : World) (token : string) (identity : Payload.t) (oid : string)
  (u : User) :
  authenticated_as req env token identity ->
  castObjectId (Payload.userId identity) = Some oid ->
  by_id oid (users w) = Some u ->
  status (fst (app GET_profile req env w)) = 200%nat
  /\ (exists view,
        get "user" (body (fst (app GET_profile req env w))) = Some view
        /\ get "_id" view = Some (JStr (_id u))
        /\ get "username" view = Some (JStr (username u))
        /\ get "email" view = Some (JStr (email u))
        /\ get "role" view = Some (JStr_or_null (role u))
        /\ get "isActive" view = Some (JBool (isActive u))
        /\ get "createdAt" view = Some (JStr (toISOString (createdAt u)))
        /\ get "__v" view = Some (JNum 0)
        /\ forall k, ~ In k shown_fields -> get k view = None)
  /\ snd (app GET_profile req env w)
     = log (findById_call (Payload.userId identity))
         (log (jwt_verify_call token) w).
Proof.
  intros Ha Hv Hby. rewrite (get_profile_eq _ _ _ _ _ Ha). cbv zeta.
  rewrite Hv, Hby. cbn [fst snd nullable].
  split; [reflexivity|]. split; [|reflexivity].
  eexists. split; [reflexivity|]. exact (select_without_shows u).
Qed.

(** X18.  A token outlives its user.  When a token still verifies but no
    stored user has its id (the user was deleted), the profile is
    answered 200 with [user: null], a profile update whose fields pass
    the validators is answered 200 with [user: null] and writes nothing,
    and a password change is answered 400 and writes nothing. *)
Theorem token_outlives_user (req : Request) (env : Env) (w : World)
  (token : string) (identity : Payload.t) (oid : string) :
  authenticated_as req env token identity ->
  castObjectId (Payload.userId identity) = Some oid ->
  by_id oid (users w) = None ->
  fst (app GET_profile req env w)
  = res_json 200 (JObj [("success", JBool true); ("user", JNull)])
  /\ (forallb snd
        (update_checks
           {| set_username := Body.username (body_of req);
              set_email := Body.email (body_of req);
              set_role := None; set_isActive := None |}) = true ->
      fst (app PUT_profile req env w)
      = res_json 200
          (JObj [("success", JBool true);
                 ("message", JStr "Profile updated successfully");
                 ("user", JNull)])
      /\ users (snd (app PUT_profile req env w)) = users w)
  /\ fst (app PUT_profile_change_password req env w)
     = res_json 400 (failure (error_message TypeError))
  /\ users (snd (app PUT_profile_change_password req env w)) = users w.
Proof.
  intros Ha Hv Hby. split; [|split].
  - rewrite (get_profile_eq _ _ _ _ _ Ha). cbv zeta. now rewrite Hv, Hby.
  - intros V.
    assert (E : app PUT_profile req env w
                = (res_json 200
                     (JObj [("success", JBool true);
                            ("message", JStr "Profile updated successfully");
                            ("user", JNull)]),
                   log (findByIdAndUpdate_call (Payload.userId identity))
                     (log (jwt_verify_call token) w))).
    { unfold app. rewrite (user_route_pass _ _ _ _ _ _ Ha).
      unfold put_profile, try_catch, req_userId.
      cbn [user set_user body_of].
      unfold bind at 1, ret at 1. unfold bind.
      rewrite findByIdAndUpdate_eq, Hv.
      now rewrite update_by_oid_missing. }
    rewrite E. now split.
  - assert (E : app PUT_profile_change_password req env w
                = (res_json 400 (failure (error_message TypeError)),
                   log (findById_call (Payload.userId identity))
                     (log (jwt_verify_call token) w))).
    { unfold app. rewrite (user_route_pass _ _ _ _ _ _ Ha).
      unfold change_password, try_catch, req_userId. cbn [user set_user].
      unfold bind at 1, ret at 1. unfold bind at 1. rewrite findById_eq.
      cbv zeta. rewrite Hv. cbv iota.
      change (users (log (jwt_verify_call token) w)) with (users w).
      now rewrite Hby. }
    rewrite E. now split.
Qed.

(** *** Stored documents stay valid, and passwords hashed *)

(** The password of [u] is the bcrypt hash of some string of at least 6
    characters. *)
Definition hashed (u : User) : Prop :=
  exists p s, (6 <= utf16_length p)%nat /\ password u = bcrypt_hash p s.

(** [u] passes the validators of its username and email, and its password
    is a hash. *)
Definition well_formed (u : User) : Prop :=
  valid_username (Some (username u)) = true
  /\ valid_email (Some (email u)) = true
  /\ hashed u.

Lemma Forall_replace (P : User -> Prop) (u' : User) (l : list User) :
  Forall P l -> P u' -> Forall P (replace u' l).
Proof.
  intros Hl Hu. unfold replace. apply Forall_map.
  apply Forall_impl with (2 := Hl). intros o Ho.
  now destruct (_id o =? _id u').
Qed.

Lemma Forall_without (P : User -> Prop) (id : string) (l : list User) :
  Forall P l -> Forall P (without id l).
Proof.
  intros Hl. apply Forall_forall. intros x Hx.
  apply In_without_iff in Hx as [Hx _].
  now apply (proj1 (Forall_forall P l) Hl).
Qed.

Lemma valid_some (check : option string -> bool) (v : option string) :
  required v = true -> check v = true -> check (Some (the v)) = true.
Proof. destruct v; [auto | discriminate]. Qed.

Lemma valid_password_length (v : option string) :
  valid_password v = true ->
  exists p, v = Some p /\ (6 <= utf16_length p)%nat.
Proof.
  unfold valid_password, required, when_present.
  destruct v as [p|]; [|discriminate]. intros H.
  apply andb_prop in H as [_ H]. apply Nat.leb_le in H. now exists p.
Qed.

Lemma created_well_formed (d : Document) (env : Env) :
  forallb snd (document_checks d) = true -> well_formed (created d env).
Proof.
  unfold document_checks. cbn [forallb snd]. rewrite andb_true_r.
  intros V. apply andb_prop in V as [Vu V]. apply andb_prop in V as [Ve V].
  apply andb_prop in V as [Vp _].
  unfold well_formed, hashed, created, to_User.
  cbn [username email password doc_username doc_email doc_password
         assign_password the].
  split; [|split].
  - apply valid_some; [exact Vu | exact Vu].
  - apply valid_some; [|exact Ve]. unfold valid_email in Ve.
    now apply andb_prop in Ve as [Ve _].
  - apply valid_password_length in Vp as (p & -> & Hlen).
    now exists p, (salt env).
Qed.

Lemma apply_update_well_formed (upd : Update) (u : User) :
  forallb snd (update_checks upd) = true
  \/ (set_username upd = None /\ set_email upd = None) ->
  well_formed u -> well_formed (apply_update upd u).
Proof.
  intros H (Hu & He & Hh). unfold well_formed, hashed, apply_update.
  cbn [username email password].
  assert (Hu' : present (set_username upd)
                  (fun v => valid_username (option_map trim v)) = true).
  { destruct H as [V | [-> _]]; [|reflexivity].
    unfold update_checks in V. cbn [forallb snd] in V.
    now apply andb_prop in V as [V _]. }
  assert (He' : present (set_email upd)
                  (fun v => valid_email (option_map toLowerCase v))
                = true).
  { destruct H as [V | [_ ->]]; [|reflexivity].
    unfold update_checks in V. cbn [forallb snd] in V.
    apply andb_prop in V as [_ V]. now apply andb_prop in V as [V _]. }
  split; [|split; [|exact Hh]].
  - destruct (set_username upd); [exact Hu' | exact Hu].
  - destruct (set_email upd); [exact He' | exact He].
Qed.

Lemma findByIdAndUpdate_well_formed (id : string) (upd : Update)
  (rv : bool) (w : World) :
  rv = true \/ (set_username upd = None /\ set_email upd = None) ->
  Forall well_formed (users w) ->
  Forall well_formed (users (snd (findByIdAndUpdate id upd rv w))).
Proof.
  intros H Hw. rewrite findByIdAndUpdate_eq.
  destruct (castObjectId id) as [oid|]; [|exact Hw].
  unfold update_by_oid. cbv zeta.
  destruct (rv && negb (forallb snd (update_checks upd))) eqn:V;
    [exact Hw|].
  destruct (by_id oid (users w)) as [u|] eqn:Hby; [|exact Hw].
  destruct (existsb (fun o => username o =? _) _); [exact Hw|].
  destruct (existsb (fun o => email o =? _) _); [exact Hw|].
  cbn [snd users set_users]. apply Forall_replace; [exact Hw|].
  apply apply_update_well_formed.
  - destruct H as [-> | H]; [left | now right].
    cbn [andb] in V. now apply negb_false_iff in V.
  - apply by_id_id in Hby as [_ Hin].
    now apply (proj1 (Forall_forall well_formed (users w)) Hw).
Qed.

Lemma save_stored_well_formed (u0 : User) (p : option string) (env : Env)
  (w : World) :
  well_formed u0 ->
  Forall well_formed (users w) ->
  Forall well_formed
    (users (snd (save (assign_password (hydrate u0) p) env w))).
Proof.
  intros (Hu & He & Hh) Hw. pose proof (save_stored_eq u0 p env w) as S.
  cbv zeta in S. rewrite S. clear S.
  destruct (forallb snd _) eqn:V; [|exact Hw].
  unfold document_checks in V. cbn [forallb snd] in V.
  apply andb_prop in V as [_ V]. apply andb_prop in V as [_ V].
  apply andb_prop in V as [Vp _]. cbn [doc_password assign_password] in Vp.
  apply valid_password_length in Vp as (q & -> & Hlen).
  destruct (isModified_password _) eqn:M; cbn [snd users set_users];
    apply Forall_replace; try exact Hw.
  - split; [exact Hu | split; [exact He|]]. now exists q, (salt env).
  - split; [exact Hu | split; [exact He|]].
    unfold isModified_password in M.
    cbn [stored doc_password assign_password hydrate] in M.
    apply negb_false_iff, String.eqb_eq in M.
    destruct Hh as (p0 & s0 & Hl0 & Hp0). exists p0, s0.
    split; [exact Hl0|].
    cbn [password to_User doc_password assign_password the].
    now rewrite M.
Qed.

Definition keeps_well_formed (h : Request -> Handler) : Prop :=
  forall req env w,
    Forall well_formed (users w) ->
    Forall well_formed (users (snd (h req env w))).

Lemma keeps_well_formed_authenticate (h : Request -> Handler) :
  keeps_well_formed h -> keeps_well_formed (fun req => authenticate req h).
Proof.
  intros H req env w Hw. unfold authenticate.
  destruct (negb (JS.truthy (bearer req))); [exact Hw|].
  destruct (jwt_verify _ _ _); [|exact Hw].
  now apply (H _ env (log _ w)).
Qed.

Lemma keeps_well_formed_authorize (roles : list string)
  (h : Request -> Handler) :
  keeps_well_formed h ->
  keeps_well_formed (fun req => authorize roles req h).
Proof.
  intros H req env w Hw. unfold authorize.
  destruct (user req); [|exact Hw].
  destruct (negb _); [exact Hw | now apply H].
Qed.

Lemma keeps_well_formed_adminOnly (h : Request -> Handler) :
  keeps_well_formed h -> keeps_well_formed (fun req => adminOnly req h).
Proof.
  intros H req env w Hw. unfold adminOnly.
  destruct (user req); [|exact Hw].
  destruct (negb _); [exact Hw | now apply H].
Qed.

Lemma keeps_well_formed_read_only :
  keeps_well_formed home /\ keeps_well_formed admin_dashboard
  /\ keeps_well_formed moderator_dashboard /\ keeps_well_formed login
  /\ keeps_well_formed get_profile /\ keeps_well_formed admin_users
  /\ keeps_well_formed active_users.
Proof.
  repeat split; intros req env w Hw;
    unfold home, admin_dashboard, moderator_dashboard, login, get_profile,
      admin_users, active_users;
    run_handler; exact Hw.
Qed.

Lemma keeps_well_formed_signup : keeps_well_formed signup.
Proof.
  intros req env w Hw. change (signup req env w)
    with (app POST_signup req env w).
  rewrite signup_eq, (save_new_eq (signup_document req env) env w eq_refl).
  destruct (forallb snd _) eqn:V; [|exact Hw]. cbv zeta.
  destruct (existsb (fun o => username o =? _) _); [exact Hw|].
  destruct (existsb (fun o => email o =? _) _); [exact Hw|].
  cbn [snd users set_users log]. apply Forall_app. split; [exact Hw|].
  constructor; [|constructor]. now apply created_well_formed.
Qed.

Lemma keeps_well_formed_put_profile : keeps_well_formed put_profile.
Proof.
  intros req env w Hw. unfold put_profile, try_catch, req_userId.
  destruct (user req) as [identity|]; [|exact Hw].
  unfold bind, ret. cbv beta iota.
  match goal with
  | |- context [findByIdAndUpdate ?i ?upd ?v w] =>
      pose proof (findByIdAndUpdate_well_formed i upd v w
                    (or_introl eq_refl) Hw) as H;
      destruct (findByIdAndUpdate i upd v w) as [[c|e] w1]
  end; exact H.
Qed.

Lemma keeps_well_formed_update_status : keeps_well_formed update_status.
Proof.
  intros req env w Hw. unfold update_status, try_catch, req_userId.
  destruct (user req) as [identity|]; [|exact Hw].
  unfold bind, ret. cbv beta iota. destruct (_ =? _); [exact Hw|].
  match goal with
  | |- context [findByIdAndUpdate ?i ?upd ?v w] =>
      pose proof (findByIdAndUpdate_well_formed i upd v w
                    (or_intror (conj eq_refl eq_refl)) Hw) as H;
      destruct (findByIdAndUpdate i upd v w) as [[[c|]|e] w1]
  end; exact H.
Qed.

Lemma keeps_well_formed_update_role : keeps_well_formed update_role.
Proof.
  intros req env w Hw. unfold update_role, try_catch, req_userId.
  destruct (user req) as [identity|]; [|exact Hw].
  unfold bind, ret. cbv beta iota. destruct (_ =? _); [exact Hw|].
  destruct (negb _); [exact Hw|].
  match goal with
  | |- context [findByIdAndUpdate ?i ?upd ?v w] =>
      pose proof (findByIdAndUpdate_well_formed i upd v w
                    (or_introl eq_refl) Hw) as H;
      destruct (findByIdAndUpdate i upd v w) as [[[c|]|e] w1]
  end; exact H.
Qed.

Lemma keeps_well_formed_delete_user : keeps_well_formed delete_user.
Proof.
  intros req env w Hw. unfold delete_user, try_catch, req_userId.
  destruct (user req) as [identity|]; [|exact Hw].
  unfold bind, ret. cbv beta iota. destruct (_ =? _); [exact Hw|].
  rewrite findByIdAndDelete_eq. cbv zeta.
  destruct (castObjectId _) as [oid|]; [|exact Hw].
  destruct (by_id _ _); [|exact Hw].
  cbn [snd users set_users]. now apply Forall_without.
Qed.

Lemma keeps_well_formed_change_password :
  keeps_well_formed change_password.
Proof.
  intros req env w Hw. unfold change_password, try_catch, req_userId.
  destruct (user req) as [identity|]; [|exact Hw].
  unfold bind at 1, ret at 1. unfold bind at 1. rewrite findById_eq.
  cbv zeta. destruct (castObjectId _) as [oid|]; [|exact Hw].
  destruct (by_id _ _) as [u|] eqn:Hby; [|exact Hw].
  unfold comparePassword, bind at 1, bind at 1, called at 1.
  destruct (Body.currentPassword _); [|exact Hw]. unfold ret at 1.
  destruct (negb _); [exact Hw|]. unfold bind.
  apply by_id_id in Hby as [_ Hin].
  assert (Hu : well_formed u).
  { now apply (proj1 (Forall_forall well_formed _) Hw). }
  match goal with
  | |- context [save ?d env ?w0] =>
      pose proof (save_stored_well_formed u (Body.newPassword (body_of req))
                    env w0 Hu Hw) as H;
      destruct (save d env w0) as [[c|e] w1]
  end; exact H.
Qed.

(** X19.  What is stored stays valid, and no password is stored in the
    clear.  Serving a request on any route keeps this true of every stored
    user: the username is not blank, the email is of the schema's pattern,
    and the password is the bcrypt hash of some string of at least 6
    characters.  It therefore holds in every world the application
    reaches from the empty collection. *)
Theorem stored_users_stay_well_formed :
  (forall r req env w,
      Forall well_formed (users w) ->
      Forall well_formed (users (snd (app r req env w))))
  /\ (forall w, reachable w -> Forall well_formed (users w)).
Proof.
  assert (step : forall r, keeps_well_formed (app r)).
  { destruct keeps_well_formed_read_only
      as (H1 & H2 & H3 & H4 & H5 & H6 & H7).
    destruct r; simpl;
      repeat first [ apply keeps_well_formed_authenticate
                   | apply keeps_well_formed_authorize
                   | apply keeps_well_formed_adminOnly ];
      auto using keeps_well_formed_signup, keeps_well_formed_put_profile,
        keeps_well_formed_change_password, keeps_well_formed_update_role,
        keeps_well_formed_update_status, keeps_well_formed_delete_user. }
  split.
  - intros r req env w. apply step.
  - induction 1 as [|w r req env _ IH]; [constructor | now apply step].
Qed.

(** *** The header *)

(** No character of [s] is a space. *)
Definition spaceless (s : string) : bool :=
  forallb (fun c => negb (Ascii.eqb " " c)) (list_ascii_of_string s).

Lemma split_spaceless (s : string) :
  spaceless s = true -> JS.split " " s = [s].
Proof.
  unfold JS.split, spaceless. induction s as [|c s IH]; [reflexivity|].
  simpl. intros H. apply andb_prop in H as [Hc Hs].
  apply negb_true_iff in Hc. rewrite Hc, (IH Hs). reflexivity.
Qed.

Lemma split_at_first_space (s rest : string) :
  spaceless s = true ->
  JS.split " " (s ++ String " " rest) = s :: JS.split " " rest.
Proof.
  unfold JS.split, spaceless. induction s as [|c s IH]; [reflexivity|].
  simpl. intros H. apply andb_prop in H as [Hc Hs].
  apply negb_true_iff in Hc. rewrite Hc, (IH Hs). reflexivity.
Qed.

(** X20.  What the gate reads from the header.  For a header made of a
    first word, one space and a token, neither containing a space, the
    gate takes the token, whatever the first word is ("Bearer" or any
    other scheme); what follows a further space is ignored.  A header of
    one word only has no token. *)
Theorem bearer_reads_the_second_word (req : Request)
  (scheme token rest : string) :
  spaceless scheme = true ->
  spaceless token = true ->
  (authorization req = Some (scheme ++ " " ++ token) ->
   bearer req = Some token)
  /\ (authorization req = Some (scheme ++ " " ++ token ++ " " ++ rest) ->
      bearer req = Some token)
  /\ (authorization req = Some scheme -> bearer req = None).
Proof.
  intros Hs Ht. unfold bearer. split; [|split]; intros ->.
  - change (scheme ++ " " ++ token) with (scheme ++ String " " token).
    rewrite (split_at_first_space _ _ Hs), (split_spaceless _ Ht).
    reflexivity.
  - change (scheme ++ " " ++ token ++ " " ++ rest)
      with (scheme ++ String " " (token ++ String " " rest)).
    rewrite (split_at_first_space _ _ Hs), (split_at_first_space _ _ Ht).
    reflexivity.
  - now rewrite (split_spaceless _ Hs).
Qed.

(** *** Roles *)

(** C7.  The closed set of roles is not closed under signup.  A signup
    whose body carries [role: null], and is otherwise accepted, is
    answered 201: [null] is not the string 'admin', the default of the
    schema fills the path only when it is undefined, and the validator of
    the enumeration does not run on [null].  The user that is stored has
    no role of the enumeration: its role is [null], in the collection and
    in the response. *)
Theorem signup_stores_a_null_role (req : Request) (env : Env) (w : World) :
  Body.role (body_of req) = Some JNull ->
  accepted (signup_document req env) (users w) = true ->
  exists u,
    status (fst (app POST_signup req env w)) = 201%nat
    /\ users (snd (app POST_signup req env w)) = (users w ++ [u])%list
    /\ role u = None
    /\ ~ role_in_enum u
    /\ ~ Forall role_in_enum (users (snd (app POST_signup req env w)))
    /\ get "user" (body (fst (app POST_signup req env w)))
       = Some (JObj [("id", JStr (_id u)); ("username", JStr (username u));
                     ("email", JStr (email u)); ("role", JNull)]).
Proof.
  intros Hrole Hacc.
  destruct (signup_created _ _ _ Hacc) as (u & token & w' & -> & Hu & Hw').
  exists u. cbn [fst snd status body res_json].
  assert (Hr : role u = None).
  { rewrite Hu. unfold created, to_User, signup_document, new_User.
    cbn [role doc_role assign_password]. now rewrite Hrole. }
  assert (Hn : ~ role_in_enum u).
  { intros (r & H & _). congruence. }
  split; [reflexivity|]. split; [exact Hw'|]. split; [exact Hr|].
  split; [exact Hn|]. split.
  - rewrite Hw'. intros H. apply Forall_app in H as [_ H].
    inversion H. contradiction.
  - unfold summary. now rewrite Hr.
Qed.

(** The stored role of [u] is one of the enumeration, or [null]. *)
Definition role_checked (u : User) : Prop := in_enum (role u) = true.

Lemma effect_keeps_checked (l l' : list User) (k : Kind) :
  effect l k l' -> Forall role_checked l -> Forall role_checked l'.
Proof.
  intros E H. rewrite Forall_forall in *. intros x Hx.
  destruct E as [k | u Hu | k u u' Hby Hrole | u u' r Hby Hrole Hr | k id].
  - now apply H.
  - apply in_app_or in Hx as [Hx | [<- | []]]; [now apply H | exact Hu].
  - apply In_replace in Hx as [-> | Hx]; [|now apply H].
    unfold role_checked. rewrite Hrole.
    apply by_id_id in Hby as [_ Hin]. now apply H.
  - apply In_replace in Hx as [-> | Hx]; [|now apply H].
    unfold role_checked. rewrite Hrole. now apply includes_In.
  - apply In_without in Hx. now apply H.
Qed.

(** A validator that fails is reported. *)
Lemma validate_reports (checks : list (string * bool)) (path : string)
  (w : World) :
  In (path, false) checks ->
  validate checks w = (Throw (ValidationError (failing checks)), w)
  /\ In path (failing checks).
Proof.
  intros Hin.
  assert (Hf : In path (failing checks)).
  { unfold failing. apply in_map_iff. exists (path, false). split; [easy|].
    apply filter_In. now split. }
  split; [|exact Hf]. unfold validate.
  destruct (failing checks); [destruct Hf | reflexivity].
Qed.

(** X22.  What does hold of the stored roles.  In every world the
    application can reach, the role of every stored user is one of user,
    admin, moderator, or [null]: no other string is ever stored.  A role
    change that asks for anything but a string of the enumeration is
    answered 400, 401 or 403 and leaves the collection as it was; when it
    comes from an admin who targets another id the answer is 400 "Invalid
    role" and only [jwt.verify] has been called.  A signup that asks for a
    string outside the enumeration is answered 400 with the message of a
    validation error that names the path role, and leaves the collection
    as it was. *)
Theorem roles_are_of_the_enum_or_null :
  (forall w, reachable w -> Forall role_checked (users w))
  /\ (forall r req env w,
        Forall role_checked (users w) ->
        Forall role_checked (users (snd (app r req env w))))
  /\ (forall req env w,
        includes_value role_enum (as_string (Body.role (body_of req)))
        = false ->
        users (snd (app PUT_admin_users_role req env w)) = users w
        /\ In (status (fst (app PUT_admin_users_role req env w)))
             [400; 401; 403]%nat
        /\ forall token identity,
            authenticated_as req env token identity ->
            Payload.role identity = Some "admin" ->
            id_param req <> Payload.userId identity ->
            app PUT_admin_users_role req env w
            = (res_json 400 (failure "Invalid role"),
               log (jwt_verify_call token) w))
  /\ (forall req env w r,
        Body.role (body_of req) = Some (JStr r) ->
        ~ In r role_enum ->
        exists paths,
          In "role" paths
          /\ fst (app POST_signup req env w)
             = res_json 400 (failure (error_message (ValidationError paths)))
          /\ users (snd (app POST_signup req env w)) = users w).
Proof.
  assert (step : forall r req env w,
             Forall role_checked (users w) ->
             Forall role_checked (users (snd (app r req env w)))).
  { intros r req env w. apply effect_keeps_checked with (kind_of r).
    apply app_effect. }
  split; [|split; [exact step|split]].
  - induction 1 as [|w r req env _ IH]; [constructor | now apply step].
  - intros req env w Hbad. split; [|split].
    + simpl. unfold authenticate, authorize, update_role, try_catch,
        req_userId, bind, ret.
      destruct (negb (JS.truthy _)); [reflexivity|].
      destruct (jwt_verify _ _ _) as [identity|]; [|reflexivity]. simpl.
      destruct (negb _); [reflexivity|]. simpl.
      destruct (_ =? _); [reflexivity|]. now rewrite Hbad.
    + simpl. unfold authenticate, authorize, update_role, try_catch,
        req_userId, bind, ret.
      destruct (negb (JS.truthy _)); [simpl; auto|].
      destruct (jwt_verify _ _ _) as [identity|]; [|simpl; auto]. simpl.
      destruct (negb _); [simpl; auto|]. simpl.
      destruct (_ =? _); [simpl; auto|]. rewrite Hbad. simpl. auto.
    + intros token identity Ha Hr Hid. unfold app.
      rewrite (admin_route_pass _ _ _ _ _ _ Ha Hr).
      unfold update_role, try_catch, req_userId, bind, ret. simpl.
      apply String.eqb_neq in Hid. now rewrite Hid, Hbad.
  - intros req env w r Hr Hbad.
    assert (Hrole : userRole (JStr r) = JStr r).
    { unfold userRole. destruct (String.eqb_spec r "admin") as [E|]; auto.
      exfalso. apply Hbad. rewrite E. simpl. auto. }
    pose (d := signup_document req env).
    destruct (validate_reports (document_checks d) "role"
                (log save_call w)) as [Hv Hin].
    { do 3 right. left. f_equal. unfold d, signup_document, new_User.
      cbn [doc_role]. rewrite Hr. cbn [or_else]. rewrite Hrole.
      cbn [cast_String valid_role in_enum when_present].
      now apply includes_not_In. }
    eexists. split; [exact Hin|].
    assert (E : app POST_signup req env w
                = (res_json 400
                     (failure (error_message
                                 (ValidationError
                                    (failing (document_checks d))))),
                   log save_call w)).
    { rewrite signup_eq. fold d. unfold save.
      unfold bind at 1, bind at 1, called at 1.
      unfold bind at 1. fold (document_checks d). rewrite Hv.
      reflexivity. }
    rewrite E. split; reflexivity.
Qed.
End RBAC.

(** ** The token service: round trip *)

(** C9.  A token issued for an identity verifies, under the same secret,
    to that identity at every time less than 24 hours after it was issued,
    and is rejected, as expired, at every time 24 hours or more after. *)
Theorem token_round_trip (mac : string -> Payload.t -> Z -> Z -> string)
  (secret : string) (identity : Payload.t) (issued checked : Z) :
  ((checked < issued + 24 * 3600)%Z ->
   TokenService.verify mac secret
     (TokenService.issue mac secret identity issued) checked
   = TokenService.Verified identity)
  /\ ((issued + 24 * 3600 <= checked)%Z ->
      TokenService.verify mac secret
        (TokenService.issue mac secret identity issued) checked
      = TokenService.Expired
      /\ TokenService.rejected
           (TokenService.verify mac secret
              (TokenService.issue mac secret identity issued) checked)).
Proof.
  unfold TokenService.verify, TokenService.issue, TokenService.expiresIn.
  cbn [TokenService.signature TokenService.payload TokenService.iat
         TokenService.exp].
  rewrite String.eqb_refl. split.
  - intros H. apply Z.ltb_lt in H.
    change (24 * 60 * 60)%Z with (24 * 3600)%Z. now rewrite H.
  - intros H. apply Z.ltb_ge in H.
    change (24 * 60 * 60)%Z with (24 * 3600)%Z. rewrite H. now split.
Qed.

(** ** The sample instance *)

Abbreviation at_sample thm :=
  (thm Sample.bcrypt_hash Sample.bcrypt_compare Sample.jwt_sign
     Sample.jwt_verify Sample.castObjectId Sample.castString
     Sample.error_message Sample.trim Sample.toLowerCase
     Sample.utf16_length Sample.regexp_test Sample.toISOString)
  (only parsing).

Definition sample_app : Route -> Request -> Handler := at_sample app.

Definition sample_mac (secret : string) (p : Payload.t) (iat exp : Z)
  : string :=
  secret ++ Payload.userId p.

(** A stored document serialised whole does show the field: the
    projection is what keeps it out of the responses. *)
Remark toObject_has_password (toISOString : Z -> string) (u : User) :
  has_field "password" (JObj (toObject toISOString u)) = true.
Proof. reflexivity. Qed.

Definition sample_ada : User :=
  {| _id := Sample.id_of_ada; username := "ada"; email := "ada@x.com";
     password := "s$secret1"; role := Some "admin"; isActive := true;
     createdAt := 1 |}.

Definition sample_bob : User :=
  {| _id := Sample.id_of_bob; username := "bob"; email := "bob@x.com";
     password := "s$hunter22"; role := Some "user"; isActive := false;
     createdAt := 2 |}.

Lemma sample_world_distinct : distinct (users Sample.world).
Proof.
  repeat split; repeat constructor; simpl; intuition discriminate.
Defined.

(** A request of ada's, with her token. *)
Definition ada_asks (b : Body.t) (id : string) : Request :=
  Sample.request (Some "Bearer token-of-ada") b id.

Lemma ada_asks_authenticated (b : Body.t) (id : string) :
  authenticated_as Sample.jwt_verify (ada_asks b id) Sample.env
    "token-of-ada" Sample.ada.
Proof. repeat split; try reflexivity. discriminate. Defined.

(** A request of mia's, with her token; no stored user has her id. *)
Definition mia_asks (b : Body.t) (id : string) : Request :=
  Sample.request (Some "Bearer token-of-mia") b id.

Lemma mia_asks_authenticated (b : Body.t) (id : string) :
  authenticated_as Sample.jwt_verify (mia_asks b id) Sample.env
    "token-of-mia" Sample.mia.
Proof. repeat split; try reflexivity. discriminate. Defined.


Definition status_body (flag : bool) : Body.t :=
  {| Body.username := None; Body.email := None; Body.password := None;
     Body.role := None; Body.isActive := Some flag;
     Body.currentPassword := None; Body.newPassword := None |}.

(** *** The claims *)

(** ada, an admin, asks for the deletion of her own id, which she writes
    with an upper-case digit: the token carries it in lower case. *)
Definition ada_deletes_ADA : Request :=
  ada_asks Sample.no_body Sample.ID_OF_ADA.

Lemma ada_deletes_herself :
  Sample.ID_OF_ADA <> Payload.userId Sample.ada
  /\ Sample.castObjectId Sample.ID_OF_ADA
     = Sample.castObjectId (Payload.userId Sample.ada)
  /\ In sample_ada (users Sample.world)
  /\ fst (sample_app DELETE_admin_users ada_deletes_ADA Sample.env
            Sample.world)
     = res_json 200
         (JObj [("success", JBool true);
                ("message", JStr "User deleted successfully")])
  /\ ~ In sample_ada
         (users (snd (sample_app DELETE_admin_users ada_deletes_ADA
                        Sample.env Sample.world))).
Proof.
  split; [discriminate|]. split; [reflexivity|]. split; [now left|].
  destruct (at_sample self_action_guard_compares_strings ada_deletes_ADA
              Sample.env Sample.world "token-of-ada" Sample.ada
              Sample.id_of_ada sample_ada (ada_asks_authenticated _ _)
              eq_refl eq_refl eq_refl ltac:(discriminate) eq_refl)
    as ((Hres & _ & Hgone) & _).
  split; [exact Hres | exact Hgone].
Defined.

(** mia, a moderator, asks for a role change. *)
Definition mia_promotes_bob : Request :=
  mia_asks (Sample.role_body "admin") Sample.id_of_bob.

Lemma mia_cannot_change_roles :
  sample_app PUT_admin_users_role mia_promotes_bob Sample.env Sample.world
  = (res_json 403 (failure "Access denied. Required role: admin"),
     log (jwt_verify_call "token-of-mia") Sample.world).
Proof.
  exact (proj2 (proj2 (proj2
           (at_sample authorize_policy ["admin"] mia_promotes_bob Sample.ok
              Sample.env Sample.world)))
           "token-of-mia" Sample.mia (mia_asks_authenticated _ _) eq_refl).
Defined.

(** A request without header is stopped at the gate; one with ada's token
    goes through with ada attached. *)
Lemma gate_on_sample_requests :
  authenticate Sample.jwt_verify
    (Sample.request None Sample.no_body "") Sample.ok Sample.env Sample.world
  = (res_json 401 (failure "Access denied. No token provided."),
     Sample.world)
  /\ authenticate Sample.jwt_verify
       (Sample.request (Some "Bearer token-of-ada") Sample.no_body "")
       Sample.ok Sample.env Sample.world
     = Sample.ok
         (set_user
            (Sample.request (Some "Bearer token-of-ada") Sample.no_body "")
            Sample.ada)
         Sample.env (log (jwt_verify_call "token-of-ada") Sample.world).
Proof.
  split.
  - apply (proj1 (proj2 (authenticate_gate Sample.jwt_verify _ Sample.ok
                           Sample.env Sample.world))).
    now left.
  - apply (proj2 (proj2 (proj2 (authenticate_gate Sample.jwt_verify _
                                  Sample.ok Sample.env Sample.world)))).
    + split; [reflexivity | discriminate].
    + reflexivity.
Defined.

(** C3, as stated, fails: in the headers "Bearer<TAB>token-of-ada" and
    "Bearer  token-of-ada" (two spaces) the second whitespace-delimited
    token is a token that verifies, and yet the gate answers 401 "no
    token" without calling [jwt.verify] and without running the handler. *)
Lemma authenticate_whitespace_counterexample :
  nth_error (whitespace_delimited Sample.tab_header) 1 = Some "token-of-ada"
  /\ nth_error (whitespace_delimited "Bearer  token-of-ada") 1
     = Some "token-of-ada"
  /\ Sample.jwt_verify "token-of-ada" JWT_SECRET (now Sample.env)
     = Some Sample.ada
  /\ authenticate Sample.jwt_verify
       (Sample.request (Some Sample.tab_header) Sample.no_body "")
       Sample.ok Sample.env Sample.world
     = (res_json 401 (failure "Access denied. No token provided."),
        Sample.world)
  /\ authenticate Sample.jwt_verify
       (Sample.request (Some "Bearer  token-of-ada") Sample.no_body "")
       Sample.ok Sample.env Sample.world
     = (res_json 401 (failure "Access denied. No token provided."),
        Sample.world).
Proof. repeat split. Qed.

(** The scenario of the specification: alice signs up asking for admin. *)
Definition alice_signs_up : Request :=
  Sample.request None
    (Sample.signup_body "alice" "a@x.com" "secret1" (Some (JStr "admin")))
    "".

Lemma alice_is_a_user :
  exists u,
    status (fst (sample_app POST_signup alice_signs_up Sample.env
                   Sample.world)) = 201%nat
    /\ users (snd (sample_app POST_signup alice_signs_up Sample.env
                     Sample.world))
       = (users Sample.world ++ [u])%list
    /\ role u = Some "user"
    /\ role u <> Some "admin"
    /\ get "user"
         (body (fst (sample_app POST_signup alice_signs_up Sample.env
                       Sample.world)))
       = Some (summary u).
Proof.
  exact (at_sample signup_admin_downgraded alice_signs_up Sample.env
           Sample.world eq_refl eq_refl).
Defined.

(** mallory signs up asking for moderator. *)
Definition mallory_signs_up : Request :=
  Sample.request None
    (Sample.signup_body "mallory" "m@x.com" "secret1"
       (Some (JStr "moderator"))) "".

(** C5, as stated, fails: a signup that supplies role "moderator"
    succeeds and the user it creates has role "moderator", not "user";
    no role change was involved. *)
Lemma signup_moderator_counterexample :
  status (fst (sample_app POST_signup mallory_signs_up Sample.env
                 Sample.empty)) = 201%nat
  /\ map role (users (snd (sample_app POST_signup mallory_signs_up Sample.env
                             Sample.empty)))
     = [Some "moderator"]
  /\ Some "moderator" <> Some "user".
Proof. repeat split. discriminate. Qed.

Lemma mallory_is_a_moderator :
  exists u,
    users (snd (sample_app POST_signup mallory_signs_up Sample.env
                  Sample.empty))
    = (users Sample.empty ++ [u])%list
    /\ role u = Some "moderator".
Proof.
  destruct (proj1 (at_sample signup_role_assigned)
              mallory_signs_up Sample.env Sample.empty eq_refl
              (or_intror (ex_intro _ "moderator" eq_refl)))
    as (u & Hu & _ & _ & _ & Hm).
  exists u. split; [exact Hu | exact (Hm eq_refl)].
Defined.

(** A login for an unknown email and a login for ada, her email typed in
    upper case, with a wrong password. *)
Definition nobody_logs_in : Request :=
  Sample.request None (Sample.login_body "nobody@x.com" "secret1") "".
Definition ada_mistypes : Request :=
  Sample.request None (Sample.login_body "ADA@X.COM" "secret2") "".

Lemma unknown_and_wrong_look_alike :
  fst (sample_app POST_login nobody_logs_in Sample.env Sample.world)
  = res_json 401 (failure "Invalid credentials")
  /\ fst (sample_app POST_login ada_mistypes Sample.env Sample.world)
     = res_json 401 (failure "Invalid credentials")
  /\ fst (sample_app POST_login nobody_logs_in Sample.env Sample.world)
     = fst (sample_app POST_login ada_mistypes Sample.env Sample.world).
Proof.
  exact (at_sample login_same_rejection nobody_logs_in ada_mistypes
           Sample.env Sample.world sample_ada "secret2" eq_refl eq_refl
           eq_refl eq_refl eq_refl).
Defined.

(** bob, deactivated, logs in with his own password, his email typed with
    capitals. *)
Definition bob_logs_in : Request :=
  Sample.request None (Sample.login_body "Bob@X.com" "hunter22") "".

Lemma bob_is_told_he_is_deactivated :
  Sample.bcrypt_compare "hunter22" "s$hunter22" = true
  /\ sample_app POST_login bob_logs_in Sample.env Sample.world
     = (res_json 403 (failure "Account is deactivated"),
        log findOne_call Sample.world).
Proof.
  split; [reflexivity|].
  exact (proj1 (at_sample login_deactivated bob_logs_in Sample.env
                  Sample.world sample_bob eq_refl eq_refl)).
Defined.

(** nul signs up with [role: null]. *)
Definition nul_signs_up : Request :=
  Sample.request None
    (Sample.signup_body "nul" "n@x.com" "secret1" (Some JNull)) "".

Lemma nul_has_no_role :
  reachable
    Sample.bcrypt_hash Sample.bcrypt_compare Sample.jwt_sign
    Sample.jwt_verify Sample.castObjectId Sample.castString
    Sample.error_message Sample.trim Sample.toLowerCase
    Sample.utf16_length Sample.regexp_test Sample.toISOString
    (snd (sample_app POST_signup nul_signs_up Sample.env Sample.empty))
  /\ status (fst (sample_app POST_signup nul_signs_up Sample.env
                    Sample.empty)) = 201%nat
  /\ map role (users (snd (sample_app POST_signup nul_signs_up Sample.env
                             Sample.empty)))
     = [None]
  /\ ~ Forall role_in_enum
         (users (snd (sample_app POST_signup nul_signs_up Sample.env
                        Sample.empty))).
Proof.
  split; [apply reachable_step; apply reachable_start|].
  destruct (at_sample signup_stores_a_null_role nul_signs_up Sample.env
              Sample.empty eq_refl eq_refl)
    as (u & Hs & Hu & Hr & _ & Hn & _).
  split; [exact Hs|]. split; [|exact Hn].
  unfold sample_app. rewrite Hu. simpl. now rewrite Hr.
Defined.

(** A token issued at noon verifies a second before the next noon and is
    rejected at the next noon. *)
Lemma token_of_ada_for_a_day :
  TokenService.verify sample_mac JWT_SECRET
    (TokenService.issue sample_mac JWT_SECRET Sample.ada 43200) 129599
  = TokenService.Verified Sample.ada
  /\ TokenService.verify sample_mac JWT_SECRET
       (TokenService.issue sample_mac JWT_SECRET Sample.ada 43200) 129600
     = TokenService.Expired.
Proof.
  split.
  - apply (proj1 (token_round_trip sample_mac JWT_SECRET Sample.ada 43200
                    129599)). reflexivity.
  - apply (proj2 (token_round_trip sample_mac JWT_SECRET Sample.ada 43200
                    129600)). discriminate.
Defined.

(** *** The further properties *)

Lemma profile_without_token_is_401 :
  sample_app GET_profile (Sample.request None Sample.no_body "") Sample.env
    Sample.world
  = (res_json 401 (failure "Access denied. No token provided."),
     Sample.world).
Proof.
  apply (proj1 (at_sample protected_routes_need_a_token GET_profile
                  (Sample.request None Sample.no_body "") Sample.env
                  Sample.world eq_refl)).
  now left.
Defined.

Lemma mia_is_locked_out_of_delete :
  status (fst (sample_app DELETE_admin_users
                 (mia_asks Sample.no_body Sample.id_of_bob)
                 Sample.env Sample.world)) = 403%nat.
Proof.
  apply (proj1 (at_sample roles_lock_the_routes
                  (mia_asks Sample.no_body Sample.id_of_bob) Sample.env
                  Sample.world "token-of-mia" Sample.mia
                  (mia_asks_authenticated _ _)
                  ltac:(discriminate)) DELETE_admin_users).
  simpl. tauto.
Defined.

(** zed signs up with a password of three characters. *)
Definition zed_signs_up : Request :=
  Sample.request None (Sample.signup_body "zed" "z@x.com" "abc" None) "".

Lemma short_password_is_refused :
  exists paths,
    paths <> []
    /\ sample_app POST_signup zed_signs_up Sample.env Sample.world
       = (res_json 400
            (failure (Sample.error_message (ValidationError paths))),
          log save_call Sample.world)
    /\ users (snd (sample_app POST_signup zed_signs_up Sample.env
                     Sample.world)) = users Sample.world
    /\ made Sample.world
         (snd (sample_app POST_signup zed_signs_up Sample.env Sample.world))
         [save_call].
Proof.
  apply (at_sample signup_validates_first zed_signs_up Sample.env
           Sample.world).
  right. right. left. reflexivity.
Defined.

Lemma alice_is_stored_hashed :
  users (snd (sample_app POST_signup alice_signs_up Sample.env Sample.world))
  = (users Sample.world
       ++ [ {| _id := new_oid Sample.env; username := "alice";
               email := "a@x.com"; password := "s$secret1";
               role := Some "user"; isActive := true;
               createdAt := 1000 |} ])%list.
Proof.
  exact (proj1 (proj2 (at_sample signup_stores_the_hash alice_signs_up
                         Sample.env Sample.world eq_refl))).
Defined.

Lemma alice_cannot_sign_up_twice :
  status (fst (sample_app POST_signup alice_signs_up Sample.env
                 (snd (sample_app POST_signup alice_signs_up Sample.env
                         Sample.world)))) = 400%nat.
Proof.
  exact (proj1 (proj2 (at_sample signup_twice alice_signs_up Sample.env
                         Sample.world) eq_refl alice_signs_up Sample.env
                  eq_refl)).
Defined.

(** ada logs in with her password. *)
Definition ada_logs_in : Request :=
  Sample.request None (Sample.login_body "ada@x.com" "secret1") "".

Lemma ada_gets_a_token :
  status (fst (sample_app POST_login ada_logs_in Sample.env Sample.world))
  = 200%nat
  /\ get "token"
       (body (fst (sample_app POST_login ada_logs_in Sample.env
                     Sample.world)))
     = Some (JStr "token-of-ada").
Proof.
  destruct (at_sample login_issues_a_token ada_logs_in Sample.env
              Sample.world sample_ada "secret1" eq_refl eq_refl eq_refl
              eq_refl) as (H1 & _ & H2 & _).
  split; [exact H1 | exact H2].
Defined.

(** alice logs in after her signup, her email typed in upper case. *)
Definition alice_logs_in : Request :=
  Sample.request None (Sample.login_body "A@X.COM" "secret1") "".

Lemma alice_signs_up_then_logs_in :
  status (fst (sample_app POST_login alice_logs_in Sample.env
                 (snd (sample_app POST_signup alice_signs_up Sample.env
                         Sample.world)))) = 200%nat.
Proof.
  destruct (at_sample signup_then_login alice_signs_up Sample.env
              Sample.world alice_logs_in Sample.env "secret1" eq_refl
              eq_refl eq_refl eq_refl eq_refl) as (u & _ & H & _).
  exact H.
Defined.


Lemma ada_renames_herself_only :
  map kept
    (users (snd (sample_app PUT_profile
                   (ada_asks (Sample.signup_body "countess" "ada@y.com" ""
                                (Some (JStr "user"))) "")
                   Sample.env Sample.world)))
  = map kept (users Sample.world).
Proof.
  apply (at_sample put_profile_is_confined).
  exact (proj1 sample_world_distinct).
Defined.

Lemma ada_deletes_bob :
  by_id Sample.id_of_bob
    (users (snd (sample_app DELETE_admin_users
                   (ada_asks Sample.no_body Sample.id_of_bob)
                   Sample.env Sample.world))) = None.
Proof.
  exact (proj1 (proj2 (proj2
           (at_sample delete_user_outcomes
              (ada_asks Sample.no_body Sample.id_of_bob)
              Sample.env Sample.world "token-of-ada" Sample.ada
              Sample.id_of_bob
              (ada_asks_authenticated _ _) eq_refl ltac:(discriminate)
              eq_refl) sample_bob eq_refl))).
Defined.

Lemma ada_activates_bob :
  by_id Sample.id_of_bob
    (users (snd (sample_app PUT_admin_users_status
                   (ada_asks (status_body true) Sample.id_of_bob) Sample.env
                   Sample.world)))
  = Some (with_isActive sample_bob true).
Proof.
  exact (proj1 (proj2 (proj2 (proj2 (proj2 (proj2
           (at_sample update_status_outcomes
              (ada_asks (status_body true) Sample.id_of_bob) Sample.env
              Sample.world "token-of-ada" Sample.ada Sample.id_of_bob
              (ada_asks_authenticated _ _) eq_refl
              ltac:(discriminate) eq_refl)
             sample_bob true sample_world_distinct eq_refl eq_refl)))))).
Defined.

Lemma ada_makes_bob_a_moderator :
  by_id Sample.id_of_bob
    (users (snd (sample_app PUT_admin_users_role
                   (ada_asks (Sample.role_body "moderator") Sample.id_of_bob)
                   Sample.env Sample.world)))
  = Some (with_role sample_bob "moderator").
Proof.
  exact (proj1 (proj2 (proj2 (proj2 (proj2 (proj2
           (at_sample update_role_outcomes
              (ada_asks (Sample.role_body "moderator") Sample.id_of_bob)
              Sample.env Sample.world "token-of-ada" Sample.ada
              Sample.id_of_bob "moderator"
              (ada_asks_authenticated _ _) eq_refl ltac:(discriminate)
              eq_refl eq_refl ltac:(simpl; tauto))
             sample_bob sample_world_distinct eq_refl)))))).
Defined.

Lemma ada_counts_the_users :
  get "stats"
    (body (fst (sample_app GET_admin_users (ada_asks Sample.no_body "")
                  Sample.env Sample.world)))
  = Some (JObj [("total", JNum 2); ("active", JNum 1); ("admins", JNum 1);
                ("users", JNum 1); ("moderators", JNum 0)]).
Proof.
  destruct (at_sample admin_users_statistics (ada_asks Sample.no_body "")
              Sample.env Sample.world "token-of-ada" Sample.ada
              (ada_asks_authenticated _ _) eq_refl) as (_ & E & _).
  exact E.
Defined.

Lemma mia_sees_only_ada :
  get "count"
    (body (fst (sample_app GET_moderator_users_active
                  (mia_asks Sample.no_body "") Sample.env Sample.world)))
  = Some (JNum 1).
Proof.
  destruct (at_sample active_users_lists_the_active
              (mia_asks Sample.no_body "") Sample.env Sample.world
              "token-of-mia" Sample.mia (mia_asks_authenticated _ _)
              (ex_intro _ "moderator" (conj eq_refl (or_introl eq_refl))))
    as (_ & E & _).
  exact E.
Defined.

Lemma still_distinct_after_alice :
  distinct
    (users (snd (sample_app POST_signup alice_signs_up Sample.env
                   Sample.world))).
Proof.
  apply (at_sample uniqueness_is_kept POST_signup alice_signs_up Sample.env
           Sample.world sample_world_distinct).
  simpl. intuition discriminate.
Defined.

Lemma ada_reads_her_profile :
  exists view,
    get "user"
      (body (fst (sample_app GET_profile (ada_asks Sample.no_body "")
                    Sample.env Sample.world)))
    = Some view
    /\ get "username" view = Some (JStr "ada")
    /\ get "role" view = Some (JStr "admin")
    /\ get "createdAt" view = Some (JStr "1970-01-01T00:00:00.001Z")
    /\ get "password" view = None.
Proof.
  destruct (at_sample get_profile_shows_the_stored_user
              (ada_asks Sample.no_body "") Sample.env Sample.world
              "token-of-ada" Sample.ada Sample.id_of_ada sample_ada
              (ada_asks_authenticated _ _) eq_refl eq_refl)
    as (_ & (view & E & _ & Hn & _ & Hr & _ & Hc & _ & Ho) & _).
  exists view. split; [exact E|]. split; [exact Hn|]. split; [exact Hr|].
  split; [exact Hc|]. apply Ho. simpl. intuition discriminate.
Defined.

Lemma mia_has_no_profile :
  fst (sample_app GET_profile (mia_asks Sample.no_body "") Sample.env
         Sample.world)
  = res_json 200 (JObj [("success", JBool true); ("user", JNull)]).
Proof.
  exact (proj1 (at_sample token_outlives_user (mia_asks Sample.no_body "")
                  Sample.env Sample.world "token-of-mia" Sample.mia
                  Sample.id_of_mia
                  (mia_asks_authenticated _ _) eq_refl eq_refl)).
Defined.

Lemma any_scheme_carries_a_token :
  bearer (Sample.request (Some "Basic token-of-ada") Sample.no_body "")
  = Some "token-of-ada".
Proof.
  apply (proj1 (bearer_reads_the_second_word
                  (Sample.request (Some "Basic token-of-ada") Sample.no_body
                     "")
                  "Basic" "token-of-ada" "" eq_refl eq_refl)).
  reflexivity.
Defined.

(** ada asks for the deletion of her own id, written as her token
    carries it. *)
Definition ada_deletes_ada : Request :=
  ada_asks Sample.no_body Sample.id_of_ada.

Lemma ada_cannot_delete_herself :
  fst (sample_app DELETE_admin_users ada_deletes_ada Sample.env Sample.world)
  = res_json 400 (failure "Cannot delete yourself")
  /\ users (snd (sample_app DELETE_admin_users ada_deletes_ada Sample.env
                   Sample.world))
     = users Sample.world.
Proof.
  destruct (at_sample self_action_guard ada_deletes_ada Sample.env
              Sample.world "token-of-ada" Sample.ada
              (ada_asks_authenticated _ _) eq_refl eq_refl)
    as ((_ & _ & Hdel) & _).
  unfold sample_app. rewrite Hdel. now split.
Defined.

(** ada asks for bob to be given a role that is not in the enumeration. *)
Definition ada_makes_bob_root : Request :=
  ada_asks (Sample.role_body "root") Sample.id_of_bob.

Lemma root_is_not_a_role :
  sample_app PUT_admin_users_role ada_makes_bob_root Sample.env Sample.world
  = (res_json 400 (failure "Invalid role"),
     log (jwt_verify_call "token-of-ada") Sample.world)
  /\ users (snd (sample_app PUT_admin_users_role ada_makes_bob_root
                   Sample.env Sample.world))
     = users Sample.world.
Proof.
  destruct (proj1 (proj2 (proj2 (at_sample roles_are_of_the_enum_or_null)))
              ada_makes_bob_root Sample.env Sample.world eq_refl)
    as (Hu & _ & Hr).
  split; [|exact Hu].
  apply (Hr "token-of-ada" Sample.ada).
  - apply ada_asks_authenticated.
  - reflexivity.
  - discriminate.
Defined.
